(** * smc.base.model: element cache, locator, update protocol and factory

    A shallow embedding of [smc/base/model.py].  Python objects that are
    mutated in place (the JSON payload held by a [Cache]) live in a store and
    are named by references; everything that talks to the SMC goes through
    one transport function, and every request is appended to a log so that
    the number and the content of the network calls can be stated. *)

From Stdlib Require Import ZArith Lia.
From stdpp Require Import base option list strings gmap.

Local Open Scope string_scope.
Local Open Scope list_scope.
Set Warnings "-register-all".

(* ===================================================================== *)
(** ** JSON values and the Python operations the module applies to them  *)
(* ===================================================================== *)

(** A decoded JSON document.  [JNull] is Python's [None]; a dict keeps its
    insertion order. *)
Inductive json : Type :=
| JNull
| JBool (b : bool)
| JNum (n : Z)
| JStr (s : string)
| JList (l : list json)
| JDict (d : list (string * json)).

(** The exception classes of [smc.api.exceptions] that the module raises,
    and the built-in errors the interpreter raises on ill-shaped data. *)
Inductive exn_class : Type :=
| ElementNotFound | CreateElementFailed | ModificationFailed
| ResourceNotFound | DeleteElementFailed | FetchElementFailed
| ActionCommandFailed | UpdateElementFailed
| AttributeError | TypeError | KeyError | IndexError | RecursionError.

(** A raised exception: its class and, when it wraps a message reported by
    the SMC, that message.  Messages formatted locally are not modelled. *)
Record exn : Type := Exn { exn_cls : exn_class; exn_msg : option string }.

Inductive outcome (A : Type) : Type :=
| Return (a : A)
| Raise (e : exn).
Arguments Return {A} a.
Arguments Raise {A} e.

Definition raised {A} (o : outcome A) : bool :=
  match o with Raise _ => true | Return _ => false end.

Fixpoint assoc_get {V} (k : string) (d : list (string * V)) : option V :=
  match d with
  | [] => None
  | (k', v) :: d' => if String.eqb k k' then Some v else assoc_get k d'
  end.

Fixpoint assoc_remove {V} (k : string) (d : list (string * V)) : list (string * V) :=
  match d with
  | [] => []
  | (k', v) :: d' =>
      if String.eqb k k' then assoc_remove k d' else (k', v) :: assoc_remove k d'
  end.

(** [d[k] = v] on a dict: an existing key keeps its position. *)
Fixpoint assoc_set {V} (k : string) (v : V) (d : list (string * V)) : list (string * V) :=
  match d with
  | [] => [(k, v)]
  | (k', v') :: d' =>
      if String.eqb k k' then (k', v) :: d' else (k', v') :: assoc_set k v d'
  end.

(** [x.get(k)]: only a dict has the method. *)
Definition py_get (x : json) (k : string) : outcome json :=
  match x with
  | JDict d => Return (default JNull (assoc_get k d))
  | _ => Raise (Exn AttributeError None)
  end.

(** [for item in x]: a list yields its items, a dict its keys, a string its
    characters; nothing else is iterable. *)
Definition py_iter (x : json) : outcome (list json) :=
  match x with
  | JList l => Return l
  | JDict d => Return (map (fun kv => JStr (fst kv)) d)
  | JStr s => Return (map (fun a => JStr (String a EmptyString)) (String.list_ascii_of_string s))
  | _ => Raise (Exn TypeError None)
  end.

(** Truth value of [if x:]. *)
Definition py_truthy (x : json) : bool :=
  match x with
  | JNull => false
  | JBool b => b
  | JNum n => negb (Z.eqb n 0)
  | JStr s => negb (String.eqb s EmptyString)
  | JList l => negb (Nat.eqb (length l) 0)
  | JDict d => negb (Nat.eqb (length d) 0)
  end.

(** [x is True]. *)
Definition py_is_True (x : json) : bool :=
  match x with JBool true => true | _ => false end.

(* ===================================================================== *)
(** ** Identity, classes, requests                                        *)
(* ===================================================================== *)

(** [Meta(namedtuple('Meta', 'name href type'))]; [__new__(cls, href,
    name=None, type=None)]. *)
Record Meta : Type := mkMeta { m_name : json; m_href : json; m_type : json }.

(** [Meta] called with the dict [d] unpacked as keyword arguments: [d] must
    be a mapping whose keys are among the three parameter names and that
    supplies [href]. *)
Definition Meta_of_kwargs (d : json) : outcome Meta :=
  match d with
  | JDict kw =>
      if forallb (fun kv => String.eqb (fst kv) "name" || String.eqb (fst kv) "href"
                            || String.eqb (fst kv) "type") kw
      then match assoc_get "href" kw with
           | Some h => Return (mkMeta (default JNull (assoc_get "name" kw)) h
                                      (default JNull (assoc_get "type" kw)))
           | None => Raise (Exn TypeError None)
           end
      else Raise (Exn TypeError None)
  | _ => Raise (Exn TypeError None)
  end.

(** The two bases a representation class derives from. *)
Inductive base_class : Type := IsElement | IsSubElement.

(** A representation class: its name, its base, and its [typeof] class
    attribute when it declares one. *)
Record Class : Type := mkClass {
  cls_name : string;
  cls_base : base_class;
  cls_typeof : option string
}.

(** The generic representation, [Element] itself: no [typeof]. *)
Definition Element : Class := mkClass "Element" IsElement None.

(** What is sent to the SMC.  [href] and [name] are whatever Python value
    the caller holds ([JNull] for [None]). *)
Inductive Request : Type :=
| GET (href : json)
| PUT (href : json) (body : option json) (etag : option string)
| DELETE (href : json) (if_match : option string)
| POST (href : json) (body : option json)
| SEARCH (name : json) (filter_context : string).

(** What the transport hands back (the fields of [SMCResult] the module
    reads).  [rsp_msg] is set exactly when the SMC reported an error. *)
Record Response : Type := mkResponse {
  rsp_json : option json;
  rsp_etag : option string;
  rsp_href : option string;
  rsp_msg : option string
}.

Definition is_GET (r : Request) : bool :=
  match r with GET _ => true | _ => false end.

(** Number of fetches, respectively searches, in a request log. *)
Definition fetch_calls (l : list Request) : nat := length (List.filter is_GET l).

(* ===================================================================== *)
(** ** The instance, the object store and the request log                 *)
(* ===================================================================== *)

(** A reference to a JSON object in the store. *)
Definition ref : Type := nat.

(** [SMCResult] as the module sees it: the decoded body is an object. *)
Record SMCResult : Type := mkSMCResult {
  r_json : option ref;
  r_etag : option string;
  r_href : option string;
  r_msg : option string
}.

(** A [Cache] object: its [_cache] slot is [None] or the tuple
    [(etag, json)]. *)
Definition cache_tuple : Type := option string * option ref.
Record Cache : Type := mkCache { _cache : option cache_tuple }.

(** [Cache.__init__(instance, json=None, etag=None)]. *)
Definition Cache___init__ (data : option ref) (etag : option string) : Cache :=
  match data with
  | Some _ => mkCache (Some (etag, data))
  | None => mkCache None
  end.

(** [ElementResource]: the attributes set on it, by relation name. *)
Abbreviation ElementResource := (gmap string json).

(** The attributes of one instance.  [cache] and [resource] are the entries
    of the instance [__dict__] that the two [cached_property] descriptors
    fill in; [None] means the entry is absent. *)
Record Instance : Type := mkInstance {
  cls : Class;
  _name : json;
  meta : option Meta;
  cache : option Cache;
  resource : option ElementResource
}.

(** What lives outside the instance: the objects, the requests sent so far
    and [counters['cache']]. *)
Record World : Type := mkWorld {
  heap : list json;
  log : list Request;
  counters : nat
}.

Record State : Type := mkState { self : Instance; world : World }.

Definition set_meta (m : option Meta) (i : Instance) : Instance :=
  mkInstance (cls i) (_name i) m (cache i) (resource i).
Definition set_cache (c : option Cache) (i : Instance) : Instance :=
  mkInstance (cls i) (_name i) (meta i) c (resource i).
Definition set_resource (r : option ElementResource) (i : Instance) : Instance :=
  mkInstance (cls i) (_name i) (meta i) (cache i) r.
Definition set_heap (h : list json) (w : World) : World :=
  mkWorld h (log w) (counters w).
Definition set_log (l : list Request) (w : World) : World :=
  mkWorld (heap w) l (counters w).
Definition set_counters (n : nat) (w : World) : World :=
  mkWorld (heap w) (log w) n.

(** The object a payload slot denotes; [None] is Python's [None].  The
    store only grows, so every reference the module holds is bound. *)
Definition load (w : World) (p : option ref) : json :=
  match p with
  | Some r => default JNull (heap w !! r)
  | None => JNull
  end.

(** ** Computations: state passing with exceptions.  A raised exception
    keeps the state reached so far, as in Python. *)
Definition M (S A : Type) : Type := S -> outcome A * S.

Definition ret {S A} (a : A) : M S A := fun s => (Return a, s).
Definition raise {S A} (c : exn_class) : M S A := fun s => (Raise (Exn c None), s).
Definition bind {S A B} (m : M S A) (k : A -> M S B) : M S B :=
  fun s => match m s with
           | (Return a, s') => k a s'
           | (Raise e, s') => (Raise e, s')
           end.
Definition lift {S A} (o : outcome A) : M S A := fun s => (o, s).

Declare Scope py_scope.
Delimit Scope py_scope with py.
Notation "x <- c1 ;; c2" := (bind c1 (fun x => c2))
  (at level 100, c1 at next level, right associativity) : py_scope.
Notation "c1 ;; c2" := (bind c1 (fun _ => c2))
  (at level 100, right associativity) : py_scope.
Local Open Scope py_scope.

(** Run a computation on the world inside a computation on the state. *)
Definition liftW {A} (m : M World A) : M State A :=
  fun st => let '(o, w) := m (world st) in (o, mkState (self st) w).

Definition get_self : M State Instance := fun st => (Return (self st), st).
Definition modify_self (f : Instance -> Instance) : M State unit :=
  fun st => (Return tt, mkState (f (self st)) (world st)).

(** A new object in the store. *)
Definition alloc (j : json) : M World ref :=
  fun w => (Return (length (heap w)), set_heap (heap w ++ [j]) w).

(** [copy.deepcopy(x)]: a new object with the same content; [None] is
    copied to [None]. *)
Definition deepcopy (p : option ref) : M World (option ref) :=
  match p with
  | Some r => fun w => (Return (Some (length (heap w))),
                        set_heap (heap w ++ [default JNull (heap w !! r)]) w)
  | None => ret None
  end.

(* ===================================================================== *)
(** ** Collaborators that live outside [smc/base/model.py]                *)
(* ===================================================================== *)

(** The modules [model.py] imports.  The transport answers a request given
    the requests that preceded it, so the SMC may change between two calls.
    [merge_dicts dict1 dict2 append_lists] is the content of [dict1] once
    the call has returned: the caller discards the return value, so whatever
    the helper merges, it merges into its first argument. *)
Class Collaborators : Type := {
  transport : list Request -> Request -> Response;
  registry : gmap string Class;
  find_type_from_self : json -> outcome json;
  merge_dicts : list (string * json) -> list (string * json) -> json ->
                list (string * json)
}.

(** Modelled from the spec: [smc.base.util.merge_dicts], a helper
    module outside [model.py].  The given fields are merged key by key;
    "list-valued fields are replaced by default, or appended to if the
    caller opts in". *)
Fixpoint merge_dicts_spec (dict1 dict2 : list (string * json)) (append_lists : bool)
  : list (string * json) :=
  match dict2 with
  | [] => dict1
  | (k, v) :: rest =>
      let v' := match v, assoc_get k dict1 with
                | JList new, Some (JList old) =>
                    if append_lists then JList (old ++ new) else v
                | _, _ => v
                end in
      merge_dicts_spec (assoc_set k v' dict1) rest append_lists
  end.

(** Modelled from the spec: [smc.base.util.find_type_from_self], a helper
    outside [model.py].  It "inspects [the] payload's
    self-describing link set to derive a resource-kind tag": the [type] of
    the link whose relation is [self], [None] when there is none. *)
Fixpoint find_self_type (links : list json) : outcome json :=
  match links with
  | [] => Return JNull
  | link :: rest =>
      match py_get link "rel" with
      | Return (JStr "self") => py_get link "type"
      | Return _ => find_self_type rest
      | Raise e => Raise e
      end
  end.

Definition find_type_from_self_spec (uri : json) : outcome json :=
  match py_iter uri with
  | Return links => find_self_type links
  | Raise e => Raise e
  end.

Section Model.

Context `{Collaborators}.

(** Modelled from the spec: [smc.api.common.SMCRequest], the request
    object of the transport layer; [prepared_request(exc, href=...).read()] is
    [prepared_request (Some exc) (GET href)], and likewise for [update],
    [delete] and [create].  One request is sent, "a single synchronous
    call".  The docstring of [prepared_request] gives the rule for the
    exception: "If not provided, the SMCResult object is returned, otherwise
    it is only thrown if SMC reports an error."  A decoded body is a new
    object. *)
Definition prepared_request (exception : option exn_class) (req : Request)
  : M World SMCResult :=
  fun w =>
    let rsp := transport (log w) req in
    let w1 := set_log (log w ++ [req]) w in
    match exception, rsp_msg rsp with
    | Some e, Some m => (Raise (Exn e (Some m)), w1)
    | _, _ =>
        match rsp_json rsp with
        | Some j =>
            (Return (mkSMCResult (Some (length (heap w1))) (rsp_etag rsp)
                                 (rsp_href rsp) (rsp_msg rsp)),
             set_heap (heap w1 ++ [j]) w1)
        | None =>
            (Return (mkSMCResult None (rsp_etag rsp) (rsp_href rsp) (rsp_msg rsp)), w1)
        end
    end.

(** Modelled from the spec: [smc.api.common.fetch_href_by_name], a helper
    of the transport layer: one "name+kind filtered search against
    the server", whose result carries the list of matches. *)
Definition fetch_href_by_name (name : json) (filter_context : string)
  : M World SMCResult :=
  prepared_request None (SEARCH name filter_context).

(** [lookup_class(typeof, default=Element)]:
    [Registry._registry.get(typeof, default)].  The keys are strings; a list
    or a dict is not hashable. *)
Definition lookup_class (typeof : json) : outcome Class :=
  match typeof with
  | JStr s => Return (default Element (registry !! s))
  | JList _ | JDict _ => Raise (Exn TypeError None)
  | _ => Return Element
  end.

(** [x[0]] on the body of a search result. *)
Definition py_first (x : json) : outcome json :=
  match x with
  | JList (a :: _) => Return a
  | JList [] => Raise (Exn IndexError None)
  | JStr (String a _) => Return (JStr (String a EmptyString))
  | JStr EmptyString => Raise (Exn IndexError None)
  | JDict _ => Raise (Exn KeyError None)
  | _ => Raise (Exn TypeError None)
  end.

(** [Element.name] (with [compat.PY3]) and [SubElement.name]. *)
Definition name : M State json :=
  fun st =>
    match cls_base (cls (self st)) with
    | IsElement => (Return (_name (self st)), st)
    | IsSubElement =>
        (Return (match meta (self st) with Some m => m_name m | None => JNull end), st)
    end.

(** [ElementLocator.__get__(instance)]. *)
Definition ElementLocator___get__ : M State json :=
  instance <- get_self ;;
  match meta instance with
  | Some m => ret (m_href m)
  | None =>
      match cls_typeof (cls instance) with
      | Some typeof =>
          n <- name ;;
          element <- liftW (fetch_href_by_name n typeof) ;;
          body <- (fun st => (Return (load (world st) (r_json element)), st)) ;;
          if py_truthy body then
            first <- lift (py_first body) ;;
            m <- lift (Meta_of_kwargs first) ;;
            modify_self (set_meta (Some m)) ;;
            ret (m_href m)
          else raise ElementNotFound
      | None => raise ElementNotFound
      end
  end.

(** [SubElement.href]. *)
Definition SubElement_href : M State json :=
  instance <- get_self ;;
  ret (match meta instance with Some m => m_href m | None => JNull end).

(** [self.href]: the descriptor of [Element], the property of
    [SubElement]. *)
Definition href : M State json :=
  fun st =>
    match cls_base (cls (self st)) with
    | IsElement => ElementLocator___get__ st
    | IsSubElement => SubElement_href st
    end.

(** *** [cached_property] and the [Cache] object *)

(** [self.cache] through [cached_property]: an entry already in the
    instance [__dict__] wins over the descriptor; otherwise [Cache(self)] is
    created and stored. *)
Definition cache_attr : M State unit :=
  instance <- get_self ;;
  match cache instance with
  | Some _ => ret tt
  | None => modify_self (set_cache (Some (Cache___init__ None None)))
  end.

(** [del self.cache]: removes the entry from the instance [__dict__]; there
    is nothing to remove when the attribute was never read or set. *)
Definition del_cache : M State unit :=
  instance <- get_self ;;
  match cache instance with
  | Some _ => modify_self (set_cache None)
  | None => raise AttributeError
  end.

(** Reading and writing [self._cache] inside a method of the instance's
    [Cache].  The methods are reached through [self.cache], so the object
    exists. *)
Definition get__cache : M State (option cache_tuple) :=
  instance <- get_self ;;
  match cache instance with
  | Some c => ret (_cache c)
  | None => raise AttributeError
  end.

Definition set__cache (t : option cache_tuple) : M State unit :=
  modify_self (set_cache (Some (mkCache t))).

(** [counters.update(cache=1)]. *)
Definition counters_update : M State unit :=
  liftW (fun w => (Return tt, set_counters (S (counters w)) w)).

(** [t[0]] and [t[1]] on the value of [_cache]. *)
Definition tuple_0 (t : option cache_tuple) : outcome (option string) :=
  match t with Some (e, _) => Return e | None => Raise (Exn TypeError None) end.
Definition tuple_1 (t : option cache_tuple) : outcome (option ref) :=
  match t with Some (_, p) => Return p | None => Raise (Exn TypeError None) end.

(** [setattr(res, rel, href)] for every link of the list. *)
Fixpoint add_links (links : list json) (res : ElementResource)
  : outcome ElementResource :=
  match links with
  | [] => Return res
  | link :: rest =>
      match py_get link "rel" with
      | Raise e => Raise e
      | Return rel =>
          match py_get link "href" with
          | Raise e => Raise e
          | Return h =>
              match rel with
              | JStr r => add_links rest (<[r := h]> res)
              | _ => Raise (Exn TypeError None)
              end
          end
      end
  end.

(** The link table of a payload: a fresh [ElementResource] filled from
    [payload.get('link')]. *)
Definition link_table_of (payload : json) : outcome ElementResource :=
  match py_get payload "link" with
  | Raise e => Raise e
  | Return lnk =>
      match py_iter lnk with
      | Raise e => Raise e
      | Return links => add_links links ∅
      end
  end.

(** The body of [ElementBase.resource], given how [self.data] is read. *)
Definition resource_func (data : M State (option ref)) : M State ElementResource :=
  p <- data ;;
  payload <- (fun st => (Return (load (world st) p), st)) ;;
  lift (link_table_of payload).

(** [getattr(instance, 'resource')] through [cached_property]: the function
    runs only when the instance [__dict__] has no [resource] entry, and its
    value is then stored there. *)
Definition resource_attr (data : M State (option ref)) : M State ElementResource :=
  instance <- get_self ;;
  match resource instance with
  | Some res => ret res
  | None =>
      value <- resource_func data ;;
      modify_self (set_resource (Some value)) ;;
      ret value
  end.

(** [Cache.__call__(force_refresh=...)].  The method re-enters itself
    through [resource] and [data]; [fuel] bounds the depth of that
    recursion. *)
Fixpoint Cache___call__ (fuel : nat) (force_refresh : bool)
  : M State (option cache_tuple) :=
  match fuel with
  | O => raise RecursionError
  | S fuel' =>
      counters_update ;;
      c <- get__cache ;;
      (if match c with None => true | Some _ => force_refresh end then
         h <- href ;;
         result <- liftW (prepared_request (Some FetchElementFailed) (GET h)) ;;
         set__cache (Some (r_etag result, r_json result)) ;;
         resource_attr
           (cache_attr ;;
            t <- Cache___call__ fuel' false ;;
            lift (tuple_1 t)) ;;
         ret tt
       else ret tt) ;;
      get__cache
  end.

(** [Cache.data]. *)
Definition Cache_data (fuel : nat) : M State (option ref) :=
  t <- Cache___call__ fuel false ;;
  lift (tuple_1 t).

(** [Cache.etag]. *)
Definition Cache_etag (fuel : nat) : M State (option string) :=
  t <- Cache___call__ fuel false ;;
  e0 <- lift (tuple_0 t) ;;
  (match e0 with
   | None =>
       h <- href ;;
       etag <- liftW (prepared_request (Some FetchElementFailed) (GET h)) ;;
       c <- get__cache ;;
       p <- lift (tuple_1 c) ;;
       set__cache (Some (r_etag etag, p))
   | Some _ => ret tt
   end) ;;
  c <- get__cache ;;
  lift (tuple_0 c).

(** *** [ElementBase] *)

(** [ElementBase.data]: [self.cache.data]. *)
Definition data (fuel : nat) : M State (option ref) :=
  cache_attr ;; Cache_data fuel.

(** [ElementBase.etag]: [self.cache.etag]. *)
Definition etag (fuel : nat) : M State (option string) :=
  cache_attr ;; Cache_etag fuel.

(** [ElementBase.resource]. *)
Definition resource_of (fuel : nat) : M State ElementResource :=
  resource_attr (data fuel).

(** [ElementBase._add_cache(data, etag=None)]. *)
Definition _add_cache (payload : option ref) (tag : option string) : M State unit :=
  modify_self (set_cache (Some (Cache___init__ payload tag))).


(** [ElementBase.delete()]. *)
Definition delete (fuel : nat) : M State unit :=
  h <- href ;;
  e <- etag fuel ;;
  liftW (prepared_request (Some DeleteElementFailed) (DELETE h e)) ;;
  ret tt.

(** [ElementBase.update], with its optional exception class and its
    keyword arguments.  Each of [href], [json] and
    [etag] is [None] when the keyword is not given.  The body of the request
    is the content of the [json] object when the request is sent. *)
Definition update (fuel : nat) (exception : option exn_class)
    (kw_href : option json) (kw_json : option (option ref))
    (kw_etag : option (option string)) : M State (option string) :=
  h <- match kw_href with Some h => ret h | None => href end ;;
  j <- match kw_json with
       | Some j => ret j
       | None => p <- data fuel ;; liftW (deepcopy p)
       end ;;
  e <- match kw_etag with Some e => ret e | None => etag fuel end ;;
  del_cache ;;
  let exception := default UpdateElementFailed exception in
  body <- (fun st => (Return (match j with
                              | Some _ => Some (load (world st) j)
                              | None => None
                              end), st)) ;;
  result <- liftW (prepared_request (Some exception) (PUT h body e)) ;;
  ret (r_href result).

(** [merge_dicts(self.data, kwargs, append_lists)]: the merge happens in
    the object that [self.data] returned. *)
Definition merge_into (p : option ref) (kwargs : list (string * json))
    (append_lists : json) : M State unit :=
  fun st =>
    match p with
    | Some r =>
        match heap (world st) !! r with
        | Some (JDict dict1) =>
            (Return tt,
             mkState (self st)
               (set_heap (<[r := JDict (merge_dicts dict1 kwargs append_lists)]>
                            (heap (world st))) (world st)))
        | _ => (Raise (Exn TypeError None), st)
        end
    | None => (Raise (Exn TypeError None), st)
    end.

(** [ElementBase.modify_attribute], with its keyword arguments. *)
Definition modify_attribute (fuel : nat) (kwargs : list (string * json))
  : M State unit :=
  p <- data fuel ;;
  payload <- (fun st => (Return (load (world st) p), st)) ;;
  system <- lift (py_get payload "system") ;;
  if py_is_True system then raise ModificationFailed
  else
    let append_lists := default (JBool false) (assoc_get "append_lists" kwargs) in
    let kwargs := assoc_remove "append_lists" kwargs in
    p <- data fuel ;;
    merge_into p kwargs append_lists ;;
    update fuel None None None None ;;
    ret tt.

(** *** Constructors and the factory *)

(** [cls(name)] for a class derived from [Element], without meta. *)
Definition Element___init__ (c : Class) (n : json) : Instance :=
  mkInstance c n None None None.

(** [typeof(name=..., href=..., type=...)]: both bases end in
    [ElementBase.__init__] with the three keywords, hence a full [Meta];
    [Element.__init__] also keeps the name in [_name]. *)
Definition construct (c : Class) (n h t : json) : Instance :=
  mkInstance c
    (match cls_base c with IsElement => n | IsSubElement => JNull end)
    (Some (mkMeta n h t)) None None.

(** [ElementFactory(href)]; [None] when the function falls off its end. *)
Definition ElementFactory (h : json) : M World (option Instance) :=
  element <- prepared_request None (GET h) ;;
  body <- (fun w => (Return (load w (r_json element)), w)) ;;
  if py_truthy body then
    lnk <- lift (py_get body "link") ;;
    istype <- lift (find_type_from_self lnk) ;;
    typeof <- lift (lookup_class istype) ;;
    n <- lift (py_get body "name") ;;
    let e := construct typeof n h istype in
    ret (Some (set_cache (Some (Cache___init__ (r_json element) (r_etag element))) e))
  else ret None.

(** [Element.from_href(href)]. *)
Definition from_href (h : json) : M World (option Instance) := ElementFactory h.

End Model.

(* ===================================================================== *)
(** ** Vocabulary of the statements                                       *)
(* ===================================================================== *)

(** One more call of [Cache.__call__] counted, nothing else changed. *)
Definition tick (st : State) : State :=
  mkState (self st) (set_counters (S (counters (world st))) (world st)).

(** The href an instance can give without asking the SMC: the one in its
    meta; a [SubElement] without meta answers [None]. *)
Definition known_href (i : Instance) : option json :=
  match cls_base (cls i), meta i with
  | _, Some m => Some (m_href m)
  | IsSubElement, None => Some JNull
  | IsElement, None => None
  end.

(** The cache is populated: it holds a version token and a payload. *)
Definition populated (i : Instance) (tag : string) (r : ref) : Prop :=
  cache i = Some (mkCache (Some (Some tag, Some r))).

(** The cache is empty: no [Cache] object yet, or one that holds nothing. *)
Definition cache_empty (i : Instance) : Prop :=
  cache i = None \/ cache i = Some (mkCache None).

(** The world once [req] has been sent. *)
Definition sent (req : Request) (w : World) : World :=
  set_log (log w ++ [req]) w.

(** The object holding the decoded body of a response, and the world once
    that object exists. *)
Definition body_ref (w : World) (rsp : Response) : option ref :=
  match rsp_json rsp with Some _ => Some (length (heap w)) | None => None end.
Definition add_body (rsp : Response) (w : World) : World :=
  match rsp_json rsp with Some j => set_heap (heap w ++ [j]) w | None => w end.

(** What [Cache.__call__] does on its fetching branch, for an instance whose
    href is [h]: the outcome and the state, case by case. *)
Definition refreshed `{Collaborators} (st : State) (h : json)
  : outcome (option cache_tuple) * State :=
  let rsp := transport (log (world st)) (GET h) in
  let w1 := sent (GET h) (world (tick st)) in
  match rsp_msg rsp with
  | Some m => (Raise (Exn FetchElementFailed (Some m)), mkState (self st) w1)
  | None =>
      let t := (rsp_etag rsp, body_ref w1 rsp) in
      let i2 := set_cache (Some (mkCache (Some t))) (self st) in
      let w2 := add_body rsp w1 in
      match resource (self st) with
      | Some _ => (Return (Some t), mkState i2 w2)
      | None =>
          let w3 := set_counters (S (counters w2)) w2 in
          match link_table_of (load w3 (body_ref w1 rsp)) with
          | Return res => (Return (Some t), mkState (set_resource (Some res) i2) w3)
          | Raise e => (Raise e, mkState i2 w3)
          end
      end
  end.





(** Unfolds the plumbing of a computation and leaves the calls to the
    transport, the href lookup and the store in place. *)
Ltac pyeval :=
  cbv beta iota zeta delta
    [bind ret raise lift liftW get_self modify_self set__cache get__cache
     cache_attr del_cache resource_attr resource_func counters_update
     tuple_0 tuple_1 self world cache resource meta cls _name heap log counters
     set_cache set_resource set_meta set_heap set_log set_counters tick sent
     _cache r_json r_etag r_href r_msg Cache___init__ data etag Cache_data
     Cache_etag].

(* ===================================================================== *)
(** ** A small SMC to run the model against                               *)
(* ===================================================================== *)

Module Demo.

(** One host, [/elements/host/12].  The server keeps its revision and
    whether the host was deleted.  A write is accepted when it carries the
    current version token; an accepted update moves to the next revision,
    whose payload has a comment and no export link any more. *)
Record server : Type := mkServer { rev : nat; gone : bool }.

Definition host_href : json := JStr "/elements/host/12".

Definition self_link : json :=
  JDict [("rel", JStr "self"); ("href", JStr "/elements/host/12");
         ("type", JStr "host")].
Definition export_link : json :=
  JDict [("rel", JStr "export"); ("href", JStr "/elements/host/12/export")].

Definition payload (revision : nat) : json :=
  match revision with
  | O => JDict [("name", JStr "kali"); ("system", JBool false);
                ("link", JList [self_link; export_link])]
  | S _ => JDict [("name", JStr "kali"); ("system", JBool false);
                  ("comment", JStr "test"); ("link", JList [self_link])]
  end.

Definition tag_of (revision : nat) : string :=
  match revision with 0 => "rev0" | 1 => "rev1" | _ => "revN" end.

Definition current (s : server) (tag : option string) : bool :=
  match tag with
  | Some t => negb (gone s) && String.eqb t (tag_of (rev s))
  | None => false
  end.

Definition step (s : server) (req : Request) : server :=
  match req with
  | PUT (JStr "/elements/host/12") _ tag =>
      if current s tag then mkServer (S (rev s)) (gone s) else s
  | DELETE (JStr "/elements/host/12") tag =>
      if current s tag then mkServer (rev s) true else s
  | _ => s
  end.

Definition ok (body : option json) (tag href : option string) : Response :=
  mkResponse body tag href None.
Definition failed (msg : string) : Response :=
  mkResponse None None None (Some msg).

Definition respond (s : server) (req : Request) : Response :=
  match req with
  | GET (JStr "/elements/host/12") =>
      if gone s then failed "Not found"
      else ok (Some (payload (rev s))) (Some (tag_of (rev s))) None
  | PUT (JStr "/elements/host/12") _ tag =>
      if current s tag then ok None None (Some "/elements/host/12")
      else failed "ETag mismatch"
  | DELETE (JStr "/elements/host/12") tag =>
      if current s tag then ok None None None else failed "ETag mismatch"
  | SEARCH (JStr "kali") "host" =>
      if gone s then ok (Some (JList [])) None None
      else ok (Some (JList [JDict [("name", JStr "kali");
                                   ("href", JStr "/elements/host/12");
                                   ("type", JStr "host")]])) None None
  | SEARCH _ _ => ok (Some (JList [])) None None
  | _ => failed "Not found"
  end.

Definition Host : Class := mkClass "Host" IsElement (Some "host").

Definition collab : Collaborators :=
  {| transport := fun history req =>
                    respond (fold_left step history (mkServer 0 false)) req;
     registry := {[ "host" := Host ]};
     find_type_from_self := find_type_from_self_spec;
     merge_dicts := fun d1 d2 a => merge_dicts_spec d1 d2 (py_truthy a) |}.

Definition host_meta : Meta := mkMeta (JStr "kali") host_href (JStr "host").

(** Nothing sent, nothing stored. *)
Definition w0 : World := mkWorld [] [] 0.


(** The host with its href known and nothing fetched. *)
Definition resolved : State :=
  mkState (mkInstance Host (JStr "kali") (Some host_meta) None None) w0.

(** The link table of revision 0. *)
Definition links0 : ElementResource :=
  <["export" := JStr "/elements/host/12/export"]>
    (<["self" := JStr "/elements/host/12"]> ∅).

(** The host after its first [data] access: revision 0 is cached. *)
Definition fetched : State :=
  mkState (mkInstance Host (JStr "kali") (Some host_meta)
             (Some (mkCache (Some (Some "rev0", Some 0)))) (Some links0))
          (mkWorld [payload 0] [GET host_href] 2).

(** The same instance after another local instance of the host has had an
    update accepted: the cached token is stale. *)
Definition stale : State :=
  mkState (self fetched)
          (mkWorld [payload 0]
                   [GET host_href; PUT host_href (Some (payload 0)) (Some "rev0")] 2).

(** The instance of [fetched] after its own [update()] was accepted: the
    cache entry is gone, the link table is still there. *)
Definition updated : State :=
  mkState (mkInstance Host (JStr "kali") (Some host_meta) None (Some links0))
          (mkWorld [payload 0; payload 0]
                   [GET host_href; PUT host_href (Some (payload 0)) (Some "rev0")] 4).

(** The same, once [self.cache] has been read again: a new [Cache] that
    holds nothing. *)
Definition invalidated : State :=
  mkState (set_cache (Some (Cache___init__ None None)) (self updated)) (world updated).

(** The host built client-side and seeded with a payload, no token. *)
Definition seeded : State :=
  mkState (mkInstance Host (JStr "kali") (Some host_meta)
             (Some (Cache___init__ (Some 0) None)) None)
          (mkWorld [JDict [("name", JStr "kali")]] [] 0).

(** A system element, cached. *)
Definition system_payload : json :=
  JDict [("name", JStr "Any network"); ("system", JBool true);
         ("link", JList [self_link])].
Definition system_element : State :=
  mkState (mkInstance Host (JStr "Any network") (Some host_meta)
             (Some (mkCache (Some (Some "rev0", Some 0)))) None)
          (mkWorld [system_payload] [GET host_href] 1).

End Demo.

(* ===================================================================== *)
(** ** The rest of the module, and its callers in [smc/elements/user.py]  *)
(* ===================================================================== *)

(** The entry points the session knows, by name: what
    [smc.api.common.fetch_entry_point] answers.  An unknown name raises. *)
Class EntryPoints : Type := {
  fetch_entry_point : string -> outcome json
}.

(** Truth value of [result.msg], a string or [None]. *)
Definition msg_truthy (m : option string) : bool :=
  match m with
  | Some s => negb (String.eqb s EmptyString)
  | None => false
  end.

Definition set__name (n : json) (i : Instance) : Instance :=
  mkInstance (cls i) n (meta i) (cache i) (resource i).

(** [ElementBase.__init__] applied to its keywords: the value of [self.meta].  A
    [meta] keyword that is truthy is unpacked alone; otherwise the remaining
    keywords are, when there are any. *)
Definition ElementBase___init__ (kwargs : list (string * json)) : outcome (option Meta) :=
  let meta_as_kw := default JNull (assoc_get "meta" kwargs) in
  let kwargs := assoc_remove "meta" kwargs in
  if py_truthy meta_as_kw then
    match Meta_of_kwargs meta_as_kw with
    | Return m => Return (Some m)
    | Raise e => Raise e
    end
  else
    match kwargs with
    | [] => Return None
    | _ :: _ =>
        match Meta_of_kwargs (JDict kwargs) with
        | Return m => Return (Some m)
        | Raise e => Raise e
        end
    end.

(** [Element.__init__] applied to [name] and its keywords, for an instance of class [c]. *)
Definition Element___init__kw (c : Class) (n : json) (kwargs : list (string * json))
  : outcome Instance :=
  let kwargs := match kwargs with
                | [] => kwargs
                | _ :: _ => assoc_set "name" n kwargs
                end in
  match ElementBase___init__ kwargs with
  | Return m => Return (mkInstance c n m None None)
  | Raise e => Raise e
  end.

(** Calling the class [c] with keywords only: a class derived from [Element] takes [name] as its
    first parameter and fails without it; one derived from [SubElement]
    passes every keyword on. *)
Definition new_instance (c : Class) (kwargs : list (string * json)) : outcome Instance :=
  match cls_base c with
  | IsElement =>
      match assoc_get "name" kwargs with
      | Some n => Element___init__kw c n (assoc_remove "name" kwargs)
      | None => Raise (Exn TypeError None)
      end
  | IsSubElement =>
      match ElementBase___init__ kwargs with
      | Return m => Return (mkInstance c JNull m None None)
      | Raise e => Raise e
      end
  end.

(** [AdminUser] and [ApiClient] of [smc/elements/user.py]. *)
Definition AdminUser : Class := mkClass "AdminUser" IsElement (Some "admin_user").
Definition ApiClient : Class := mkClass "ApiClient" IsElement (Some "api_client").

(** What [getattr(res, rel)] finds on an [ElementResource]: a link set from
    a payload, or an attribute that the class brings along. *)
Inductive attribute : Type :=
| Link (href : json)
| ClassAttribute (name : string).

(** The names that the class answers before the instance [__dict__] is
    consulted: the data descriptors every instance has. *)
Definition ElementResource_descriptors : list string :=
  ["__class__"; "__dict__"; "__weakref__"].

(** The names found on the class: those three, what the class body of
    [ElementResource] defines ([name], [get], [__repr__], [__getattr__],
    its docstring and module), and what [object] gives every class
    (Python 3.11). *)
Definition ElementResource_names : list string :=
  ElementResource_descriptors ++
  ["name"; "get"; "__repr__"; "__getattr__"; "__doc__"; "__module__";
   "__delattr__"; "__dir__"; "__eq__"; "__format__"; "__ge__";
   "__getattribute__"; "__getstate__"; "__gt__"; "__hash__"; "__init__";
   "__init_subclass__"; "__le__"; "__lt__"; "__ne__"; "__new__";
   "__reduce__"; "__reduce_ex__"; "__setattr__"; "__sizeof__"; "__str__";
   "__subclasshook__"].

Definition ElementResource_defines (rel : string) : bool :=
  existsb (String.eqb rel) ElementResource_names.

(** [getattr(res, rel)], in the order of Python's attribute lookup: a data
    descriptor of the class, then the instance [__dict__] (where [setattr] put
    the links, so that a link named [name] or [get] hides the method), then
    the other names of the class, and only then [__getattr__], which
    raises. *)
Definition getattr_link (res : ElementResource) (rel : string) : outcome attribute :=
  if existsb (String.eqb rel) ElementResource_descriptors then Return (ClassAttribute rel)
  else
    match res !! rel with
    | Some v => Return (Link v)
    | None =>
        if ElementResource_defines rel then Return (ClassAttribute rel)
        else Raise (Exn ResourceNotFound None)
    end.

(** The href a caller takes from an attribute it read.  The two relations
    the callers below read, [enable_disable] and
    [search_category_tags_from_element], are not names of the class, so
    they never yield a class attribute; the model has no request for a
    method in the place of an href and stops there with [TypeError]. *)
Definition link_href (a : attribute) : outcome json :=
  match a with
  | Link h => Return h
  | ClassAttribute _ => Raise (Exn TypeError None)
  end.

Section More.

Context `{Collaborators} `{EntryPoints}.

(** [Element.from_meta], applied to its keywords. *)
Definition from_meta (kwargs : list (string * json)) : outcome Instance :=
  match lookup_class (default JNull (assoc_get "type" kwargs)) with
  | Return c => new_instance c kwargs
  | Raise e => Raise e
  end.

(** [Element.from_meta] on an item [tag] of a decoded list, unpacked as
    keywords: only a mapping can be unpacked. *)
Definition from_meta_item (tag : json) : outcome Instance :=
  match tag with
  | JDict kwargs => from_meta kwargs
  | _ => Raise (Exn TypeError None)
  end.

(** The list comprehension that applies [Element.from_meta] to every item. *)
Fixpoint from_meta_all (items : list json) : outcome (list Instance) :=
  match items with
  | [] => Return []
  | x :: rest =>
      match from_meta_item x with
      | Raise e => Raise e
      | Return i =>
          match from_meta_all rest with
          | Raise e => Raise e
          | Return l => Return (i :: l)
          end
      end
  end.

(** [ElementCreator(cls, json)]. *)
Definition ElementCreator (c : Class) (body : json) : M World (option string) :=
  typeof <- match cls_typeof c with
            | Some t => ret t
            | None => raise AttributeError
            end ;;
  h <- lift (fetch_entry_point typeof) ;;
  result <- prepared_request None (POST h (Some body)) ;;
  if msg_truthy (r_msg result)
  then lift (Raise (Exn CreateElementFailed (r_msg result)))
  else ret (r_href result).

(** [AdminUser.create(name, local_admin, allow_sudo, superuser, enabled,
    engine_target)]; [engine_target] is [None] by default. *)
Definition AdminUser_create (n local_admin allow_sudo superuser enabled engine_target : json)
  : M World (option string) :=
  let engines := match engine_target with
                 | JNull => JList []
                 | _ => engine_target
                 end in
  ElementCreator AdminUser
    (JDict [("name", n); ("enabled", enabled); ("allow_sudo", allow_sudo);
            ("engine_target", engines); ("local_admin", local_admin);
            ("superuser", superuser)]).

(** [self.resource.rel] on an instance. *)
Definition resource_link (fuel : nat) (rel : string) : M State attribute :=
  res <- resource_of fuel ;;
  lift (getattr_link res rel).

(** [UserCommon.enable_disable()]. *)
Definition enable_disable (fuel : nat) : M State unit :=
  a <- resource_link fuel "enable_disable" ;;
  h <- lift (link_href a) ;;
  update fuel None (Some h) None None ;;
  ret tt.

(** [Element.rename(name)]. *)
Definition rename (fuel : nat) (n : json) : M State unit :=
  modify_attribute fuel [("name", n)] ;;
  modify_self (set__name n).

(** [Element.categories]. *)
Definition categories (fuel : nat) : M State (list Instance) :=
  a <- resource_link fuel "search_category_tags_from_element" ;;
  h <- lift (link_href a) ;;
  result <- liftW (prepared_request None (GET h)) ;;
  body <- (fun st => (Return (load (world st) (r_json result)), st)) ;;
  tags <- lift (py_iter body) ;;
  lift (from_meta_all tags).

(** [Element.referenced_by]. *)
Definition referenced_by (fuel : nat) : M State (list Instance) :=
  entry <- lift (fetch_entry_point "references_by_element") ;;
  h <- href ;;
  result <- liftW (prepared_request (Some FetchElementFailed)
                     (POST entry (Some (JDict [("value", h)])))) ;;
  body <- (fun st => (Return (load (world st) (r_json result)), st)) ;;
  refs <- lift (py_iter body) ;;
  lift (from_meta_all refs).

End More.

(** The state an answered fetch of the cache leaves, for an instance whose
    href is [h]: token and payload stored, and the link table built when
    there was none and the payload allows it. *)
Definition after_read `{Collaborators} (st : State) (h : json) : State :=
  let rsp := transport (log (world st)) (GET h) in
  let w1 := sent (GET h) (world (tick st)) in
  let i2 := set_cache (Some (mkCache (Some (rsp_etag rsp, body_ref w1 rsp)))) (self st) in
  let w2 := add_body rsp w1 in
  match resource (self st) with
  | Some _ => mkState i2 w2
  | None =>
      let w3 := set_counters (S (counters w2)) w2 in
      match link_table_of (default JNull (rsp_json rsp)) with
      | Return res => mkState (set_resource (Some res) i2) w3
      | Raise _ => mkState i2 w3
      end
  end.

(** The instance once [self.cache] has been read: the [Cache] object is
    there, created empty when it was missing. *)
Definition with_cache (st : State) : State :=
  match cache (self st) with
  | Some _ => st
  | None => mkState (set_cache (Some (mkCache None)) (self st)) (world st)
  end.


(** ** A second concrete SMC: administrator accounts

    One administrator, [/elements/admin_user/3], with links to toggle the
    account and to its category tags; an API client whose first read is
    answered without a version token; a host whose payload has no link
    list, and one whose body is a list; the entry points of the two
    account classes and of the reference search. *)
Module Accounts.

Definition admin_href : json := JStr "/elements/admin_user/3".
Definition toggle_href : json := JStr "/elements/admin_user/3/enable_disable".
Definition tags_href : json := JStr "/elements/admin_user/3/categories".
Definition client_href : json := JStr "/elements/api_client/4".
Definition bare_href : json := JStr "/elements/host/20".
Definition listed_href : json := JStr "/elements/host/21".

Definition admin_payload : json :=
  JDict [("name", JStr "dlepage"); ("enabled", JBool true);
         ("link", JList [JDict [("rel", JStr "self"); ("href", admin_href);
                                ("type", JStr "admin_user")];
                         JDict [("rel", JStr "enable_disable"); ("href", toggle_href)];
                         JDict [("rel", JStr "search_category_tags_from_element");
                                ("href", tags_href)]])].

Definition client_payload : json :=
  JDict [("name", JStr "smcpython");
         ("link", JList [JDict [("rel", JStr "self"); ("href", client_href);
                                ("type", JStr "api_client")]])].

Definition bare_payload : json := JDict [("name", JStr "bare")].

Definition category_tag : json :=
  JDict [("name", JStr "foo"); ("href", JStr "/elements/category_tag/7");
         ("type", JStr "category_tag")].

Definition reference : json :=
  JDict [("name", JStr "Administrators"); ("href", JStr "/elements/admin_group/2");
         ("type", JStr "admin_group")].

(** The answer may depend on what was sent before: the API client gets
    its version token from the second read on. *)
Definition respond (history : list Request) (req : Request) : Response :=
  match req with
  | GET (JStr "/elements/admin_user/3") =>
      Demo.ok (Some admin_payload) (Some "a0") None
  | GET (JStr "/elements/admin_user/3/categories") =>
      Demo.ok (Some (JList [category_tag])) None None
  | GET (JStr "/elements/api_client/4") =>
      Demo.ok (Some client_payload)
              (match history with [] => None | _ :: _ => Some "c1" end) None
  | GET (JStr "/elements/host/20") => Demo.ok (Some bare_payload) (Some "h0") None
  | GET (JStr "/elements/host/21") => Demo.ok (Some (JList [JStr "kali"])) None None
  | PUT (JStr "/elements/admin_user/3/enable_disable") _ (Some "a0") =>
      Demo.ok None None None
  | PUT (JStr "/elements/admin_user/3") _ (Some "a0") =>
      Demo.ok None None (Some "/elements/admin_user/3")
  | DELETE (JStr "/elements/admin_user/3") (Some "a0") => Demo.ok None None None
  | POST (JStr "/elements/admin_user") _ =>
      Demo.ok None None (Some "/elements/admin_user/5")
  | POST (JStr "/elements/api_client") _ => Demo.failed "Element name is already used"
  | POST (JStr "/references") _ => Demo.ok (Some (JList [reference])) None None
  | _ => Demo.failed "Not found"
  end.

Definition collab : Collaborators :=
  {| transport := respond;
     registry := {[ "admin_user" := AdminUser; "api_client" := ApiClient;
                    "host" := Demo.Host ]};
     find_type_from_self := find_type_from_self_spec;
     merge_dicts := fun d1 d2 a => merge_dicts_spec d1 d2 (py_truthy a) |}.

Definition entries : EntryPoints :=
  {| fetch_entry_point := fun name =>
       if String.eqb name "admin_user" then Return (JStr "/elements/admin_user")
       else if String.eqb name "api_client" then Return (JStr "/elements/api_client")
       else if String.eqb name "references_by_element" then Return (JStr "/references")
       else Raise (Exn KeyError None) |}.

Definition admin_meta : Meta := mkMeta (JStr "dlepage") admin_href (JStr "admin_user").

Definition links : ElementResource :=
  <["search_category_tags_from_element" := tags_href]>
    (<["enable_disable" := toggle_href]> (<["self" := admin_href]> ∅)).

(** The administrator after its first [data] access. *)
Definition fetched : State :=
  mkState (mkInstance AdminUser (JStr "dlepage") (Some admin_meta)
             (Some (mkCache (Some (Some "a0", Some 0)))) (Some links))
          (mkWorld [admin_payload] [GET admin_href] 2).

(** The API client and the host without links, with their hrefs known and
    nothing read. *)
Definition client : State :=
  mkState (mkInstance ApiClient (JStr "smcpython")
             (Some (mkMeta (JStr "smcpython") client_href (JStr "api_client")))
             None None) Demo.w0.
Definition bare : State :=
  mkState (mkInstance Demo.Host (JStr "bare")
             (Some (mkMeta (JStr "bare") bare_href (JStr "host"))) None None) Demo.w0.

End Accounts.

(* ===================================================================== *)
(** ** How the accessors run                                              *)
(* ===================================================================== *)

Section Accessors.

Context `{Collaborators}.

Lemma bind_Return {S A B} (c : M S A) (k : A -> M S B) (s : S) (a : A) (s' : S) :
  c s = (Return a, s') -> bind c k s = k a s'.
Proof. intros E. unfold bind. rewrite E. reflexivity. Qed.

Lemma bind_Raise {S A B} (c : M S A) (k : A -> M S B) (s : S) (e : exn) (s' : S) :
  c s = (Raise e, s') -> bind c k s = (Raise e, s').
Proof. intros E. unfold bind. rewrite E. reflexivity. Qed.

Lemma bind_bind {S A B C} (c : M S A) (k : A -> M S B) (k2 : B -> M S C) (s : S) :
  bind (bind c k) k2 s = bind c (fun a => bind (k a) k2) s.
Proof. unfold bind. destruct (c s) as [[a|e] s']; reflexivity. Qed.

Lemma href_known (st : State) (h : json) :
  known_href (self st) = Some h -> href st = (Return h, st).
Proof.
  destruct st as [[c n m ca re] w]. unfold known_href, href; simpl.
  destruct (cls_base c), m as [m|]; intros E; inversion E; subst; reflexivity.
Qed.

Lemma request_refused (e : exn_class) (req : Request) (w : World) (m : string) :
  rsp_msg (transport (log w) req) = Some m ->
  prepared_request (Some e) req w = (Raise (Exn e (Some m)), sent req w).
Proof. intros E. unfold prepared_request. rewrite E. reflexivity. Qed.

Lemma request_answered (e : option exn_class) (req : Request) (w : World) :
  rsp_msg (transport (log w) req) = None ->
  prepared_request e req w =
  (Return (mkSMCResult (body_ref (sent req w) (transport (log w) req))
                       (rsp_etag (transport (log w) req))
                       (rsp_href (transport (log w) req)) None),
   add_body (transport (log w) req) (sent req w)).
Proof.
  intros E. unfold prepared_request, body_ref, add_body. rewrite E.
  destruct e, (rsp_json (transport (log w) req)); reflexivity.
Qed.

(** Without an exception class the result is returned whatever it says. *)
Lemma request_unchecked (req : Request) (w : World) :
  prepared_request None req w =
  (Return (mkSMCResult (body_ref (sent req w) (transport (log w) req))
                       (rsp_etag (transport (log w) req))
                       (rsp_href (transport (log w) req))
                       (rsp_msg (transport (log w) req))),
   add_body (transport (log w) req) (sent req w)).
Proof.
  unfold prepared_request, body_ref, add_body.
  destruct (rsp_json (transport (log w) req)); reflexivity.
Qed.

Lemma load_add_body (rsp : Response) (w : World) :
  load (add_body rsp w) (body_ref w rsp) = default JNull (rsp_json rsp).
Proof.
  unfold add_body, body_ref, load. destruct (rsp_json rsp) as [j|]; simpl; [|reflexivity].
  rewrite lookup_app_r by lia. rewrite Nat.sub_diag. reflexivity.
Qed.

Lemma Cache_call_unfold (n : nat) (force : bool) :
  Cache___call__ (S n) force =
  (counters_update ;;
   c <- get__cache ;;
   (if match c with None => true | Some _ => force end then
      h <- href ;;
      result <- liftW (prepared_request (Some FetchElementFailed) (GET h)) ;;
      set__cache (Some (r_etag result, r_json result)) ;;
      resource_attr (cache_attr ;; t <- Cache___call__ n false ;; lift (tuple_1 t)) ;;
      ret tt
    else ret tt) ;;
   get__cache)%py.
Proof. reflexivity. Qed.

(** A populated cache answers without a request. *)
Lemma Cache_call_hit (n : nat) (st : State) (t : cache_tuple) :
  cache (self st) = Some (mkCache (Some t)) ->
  Cache___call__ (S n) false st = (Return (Some t), tick st).
Proof.
  destruct st as [[c nm m ca re] w]; simpl. intros ->. reflexivity.
Qed.

Lemma data_hit (n : nat) (st : State) (e : option string) (p : option ref) :
  cache (self st) = Some (mkCache (Some (e, p))) ->
  data (S n) st = (Return p, tick st).
Proof.
  destruct st as [[c nm m ca re] w]; simpl. intros ->. reflexivity.
Qed.

Lemma etag_hit (n : nat) (st : State) (e : string) (p : option ref) :
  cache (self st) = Some (mkCache (Some (Some e, p))) ->
  etag (S n) st = (Return (Some e), tick st).
Proof.
  destruct st as [[c nm m ca re] w]; simpl. intros ->. reflexivity.
Qed.

(** The fetching branch: an empty cache, or a forced refresh. *)
Lemma Cache_call_refresh (n : nat) (force : bool) (st : State) (h : json)
      (c0 : option cache_tuple) :
  known_href (self st) = Some h ->
  cache (self st) = Some (mkCache c0) ->
  (c0 = None \/ force = true) ->
  Cache___call__ (S (S n)) force st = refreshed st h.
Proof.
  intros Hh Hc Hf.
  destruct st as [[c nm m ca re] [hp lg k]]. simpl in Hc. subst ca.
  assert (Hhref : forall ca' re' w', href (mkState (mkInstance c nm m ca' re') w')
                          = (Return h, mkState (mkInstance c nm m ca' re') w')).
  { intros. apply href_known. exact Hh. }
  rewrite Cache_call_unfold. pyeval.
  replace (match c0 with Some _ => force | None => true end) with true
    by (destruct Hf as [-> | ->]; [reflexivity | destruct c0; reflexivity]).
  rewrite Hhref.
  unfold refreshed. pyeval.
  destruct (rsp_msg (transport lg (GET h))) as [m0|] eqn:Em.
  - erewrite request_refused by (simpl; exact Em). reflexivity.
  - erewrite request_answered by (simpl; exact Em). pyeval.
    destruct re as [res|].
    + reflexivity.
    + rewrite Cache_call_unfold. pyeval.
      destruct (link_table_of _); reflexivity.
Qed.

(** [data] on an instance whose cache holds nothing. *)
Lemma data_miss (n : nat) (st : State) (h : json) :
  known_href (self st) = Some h ->
  cache_empty (self st) ->
  data (S (S n)) st =
  (let '(o, st') :=
     refreshed (mkState (set_cache (Some (mkCache None)) (self st)) (world st)) h in
   (match o with
    | Return t => tuple_1 t
    | Raise e => Raise e
    end, st')).
Proof.
  intros Hh He.
  assert (E : forall st0, cache (self st0) = Some (mkCache None) ->
                known_href (self st0) = Some h ->
                Cache_data (S (S n)) st0 =
                (let '(o, st') := refreshed st0 h in
                 (match o with Return t => tuple_1 t | Raise e => Raise e end, st'))).
  { intros st0 Hc0 Hh0. unfold Cache_data, bind.
    rewrite (Cache_call_refresh n false st0 h None Hh0 Hc0 (or_introl eq_refl)).
    destruct (refreshed st0 h) as [[t|e] s']; reflexivity. }
  destruct st as [[c nm m ca re] w]; unfold cache_empty in He; simpl in Hh, He.
  unfold data. unfold bind at 1. unfold cache_attr, bind, get_self, modify_self, ret.
  cbn [self cache].
  destruct He as [-> | ->]; cbn [self world set_cache cls _name meta cache resource].
  - apply E; [reflexivity | exact Hh].
  - apply E; [reflexivity | exact Hh].
Qed.

End Accessors.

(* ===================================================================== *)
(** ** Reading: one fetch, then the cache                                 *)
(* ===================================================================== *)

Section Reading.

Context `{Collaborators}.

Lemma fetch_calls_GET (l : list Request) (h : json) :
  fetch_calls (l ++ [GET h]) = S (fetch_calls l).
Proof.
  unfold fetch_calls. rewrite List.filter_app, List.length_app. simpl. lia.
Qed.

Lemma log_add_body (rsp : Response) (w : World) : log (add_body rsp w) = log w.
Proof. unfold add_body. destruct (rsp_json rsp); reflexivity. Qed.

Lemma heap_add_body_lookup (rsp : Response) (w : World) (r : ref) (j : json) :
  heap w !! r = Some j -> heap (add_body rsp w) !! r = Some j.
Proof.
  intros Hr. unfold add_body. destruct (rsp_json rsp); [|exact Hr].
  simpl. apply lookup_app_l_Some. exact Hr.
Qed.

(** What the fetching branch leaves behind. *)
Lemma refreshed_facts (st st' : State) (h : json) (o : outcome (option cache_tuple)) :
  refreshed st h = (o, st') ->
  log (world st') = log (world st) ++ [GET h] /\
  meta (self st') = meta (self st) /\
  cls (self st') = cls (self st) /\
  forall t, o = Return t -> cache (self st') = Some (mkCache t) /\ t <> None.
Proof.
  unfold refreshed.
  destruct (rsp_msg (transport (log (world st)) (GET h))) as [msg|].
  - intros E; inversion E; subst; clear E. simpl.
    split; [reflexivity|]. split; [reflexivity|]. split; [reflexivity|].
    intros t0 Ht; discriminate Ht.
  - assert (K : forall i w t,
               log w = log (world st) ++ [GET h] -> meta i = meta (self st) ->
               cls i = cls (self st) -> cache i = Some (mkCache (Some t)) ->
               log w = log (world st) ++ [GET h] /\
               meta i = meta (self st) /\ cls i = cls (self st) /\
               forall t', Return (Some t) = Return t' ->
                          cache i = Some (mkCache t') /\ t' <> None).
    { intros i w t Hl Hm Hc Hca.
      split; [exact Hl|]. split; [exact Hm|]. split; [exact Hc|].
      intros t' Ht. inversion Ht; subst t'. split; [exact Hca | discriminate]. }
    destruct (resource (self st)) as [res|].
    + intros E; inversion E; subst; clear E.
      apply K; simpl; rewrite ?log_add_body; reflexivity.
    + destruct (link_table_of _) as [res|e]; intros E; inversion E; subst; clear E.
      * apply K; simpl; rewrite ?log_add_body; reflexivity.
      * simpl; rewrite log_add_body.
        split; [reflexivity|]. split; [reflexivity|]. split; [reflexivity|].
        intros t0 Ht; discriminate Ht.
Qed.

(** When the first access returns: the SMC answers the read and the link
    table is there or can be built from the payload. *)
Lemma data_first_read (n : nat) (st : State) (h : json) :
  known_href (self st) = Some h ->
  cache_empty (self st) ->
  rsp_msg (transport (log (world st)) (GET h)) = None ->
  (resource (self st) = None ->
   raised (link_table_of (default JNull (rsp_json (transport (log (world st)) (GET h)))))
   = false) ->
  exists st1,
    data (S (S n)) st
    = (Return (body_ref (world st) (transport (log (world st)) (GET h))), st1).
Proof.
  intros Hh He Hm Hl. rewrite (data_miss n st h Hh He).
  unfold refreshed. cbn [self world resource set_cache tick log]. rewrite Hm.
  destruct (resource (self st)) as [res|].
  - eexists. reflexivity.
  - change (load (set_counters ?k ?w) ?p) with (load w p).
    rewrite load_add_body.
    destruct (link_table_of _) as [res|e].
    + eexists. reflexivity.
    + specialize (Hl eq_refl). discriminate Hl.
Qed.

(** The payload object of an answered fetch holds the body of the answer. *)
Lemma refreshed_load (st st' : State) (h : json) (t : option cache_tuple) :
  rsp_msg (transport (log (world st)) (GET h)) = None ->
  refreshed st h = (Return t, st') ->
  load (world st') (body_ref (world st) (transport (log (world st)) (GET h)))
  = default JNull (rsp_json (transport (log (world st)) (GET h))).
Proof.
  intros Hm. unfold refreshed. rewrite Hm.
  set (rsp := transport (log (world st)) (GET h)).
  pose proof (load_add_body rsp (sent (GET h) (world (tick st)))) as L.
  destruct (resource (self st)) as [res|]; [|destruct (link_table_of _) as [res|e]];
    intros E; inversion E; subst; exact L.
Qed.

(** C6, as the code has it.  An instance whose href is known and whose
    cache holds nothing, when the SMC answers the read and the link table
    is there already or can be built from the payload: the first [data]
    access returns the payload of the answer, a second access with nothing
    in between returns the same payload object, and the two accesses
    together have sent exactly one request, the fetch of the instance's
    href. *)
Theorem data_twice_one_fetch (n n' : nat) (st : State) (h : json) :
  known_href (self st) = Some h ->
  cache_empty (self st) ->
  rsp_msg (transport (log (world st)) (GET h)) = None ->
  (resource (self st) = None ->
   raised (link_table_of (default JNull (rsp_json (transport (log (world st)) (GET h)))))
   = false) ->
  let p := body_ref (world st) (transport (log (world st)) (GET h)) in
  exists st1 st2,
    data (S (S n)) st = (Return p, st1) /\
    data (S (S n')) st1 = (Return p, st2) /\
    load (world st2) p
    = default JNull (rsp_json (transport (log (world st)) (GET h))) /\
    heap (world st2) = heap (world st1) /\
    log (world st2) = log (world st) ++ [GET h] /\
    fetch_calls (log (world st2)) = S (fetch_calls (log (world st))).
Proof.
  intros Hh He Hm Hl p.
  destruct (data_first_read n st h Hh He Hm Hl) as [st1 Hd].
  fold p in Hd. exists st1, (tick st1).
  pose proof Hd as Hd'. rewrite (data_miss n st h Hh He) in Hd'.
  destruct (refreshed _ h) as [o st'] eqn:Er.
  destruct o as [t|e]; [|discriminate].
  inversion Hd'; subst st'; clear Hd'.
  destruct (refreshed_facts _ _ _ _ Er) as (Hlog & _ & Hheap & Hc).
  destruct (Hc t eq_refl) as [Hc1 Hc2].
  destruct t as [[e p']|]; [|congruence]. simpl in H1. inversion H1; subst p'.
  split; [exact Hd|]. split; [exact (data_hit _ st1 e p Hc1)|].
  simpl in Hlog. simpl. rewrite Hlog, fetch_calls_GET.
  split; [|auto].
  exact (refreshed_load (mkState (set_cache (Some (mkCache None)) (self st)) (world st))
           st1 h _ Hm Er).
Qed.

End Reading.

(* ===================================================================== *)
(** ** The identity of an instance, once bound, stays                     *)
(* ===================================================================== *)

Section Identity.

Context `{Collaborators}.
Variable m : Meta.























End Identity.

(* ===================================================================== *)
(** ** Resolving the href by name                                         *)
(* ===================================================================== *)

Section Locator.

Context `{Collaborators}.




End Locator.

(* ===================================================================== *)
(** ** The factory                                                        *)
(* ===================================================================== *)

Section Factory.

Context `{Collaborators}.

Lemma heap_add_body (rsp : Response) (w : World) (j : json) :
  rsp_json rsp = Some j ->
  heap (add_body rsp w) = heap w ++ [j].
Proof. unfold add_body. intros ->. reflexivity. Qed.

(** C7.  When the payload fetched at [h] carries, in its link list, a
    resource kind [tag], [ElementFactory(h)] returns an instance of the
    class registered for [tag], and of [Element] when no class is
    registered for it.  The instance holds the fetched payload and version
    token in its cache, so a [data] access on it returns that payload and
    sends nothing. *)
Theorem ElementFactory_by_kind (h : json) (w : World) (body lnk : json)
        (tag : string) :
  rsp_json (transport (log w) (GET h)) = Some body ->
  py_truthy body = true ->
  py_get body "link" = Return lnk ->
  find_type_from_self lnk = Return (JStr tag) ->
  exists e w',
    ElementFactory h w = (Return (Some e), w') /\
    (forall c, registry !! tag = Some c -> cls e = c) /\
    (registry !! tag = None -> cls e = Element) /\
    cache e = Some (mkCache (Some (rsp_etag (transport (log w) (GET h)),
                                   Some (length (heap w))))) /\
    heap w' !! length (heap w) = Some body /\
    log w' = log w ++ [GET h] /\
    forall n, exists st2,
      data (S n) (mkState e w') = (Return (Some (length (heap w))), st2) /\
      log (world st2) = log w'.
Proof.
  intros Hb Ht Hl Hf.
  assert (Hn : exists nm, py_get body "name" = Return nm).
  { destruct body; try discriminate. eexists; reflexivity. }
  destruct Hn as [nm Hn].
  set (rsp := transport (log w) (GET h)) in *.
  set (e := set_cache (Some (mkCache (Some (rsp_etag rsp, Some (length (heap w))))))
              (construct (default Element (registry !! tag)) nm h (JStr tag))).
  exists e, (add_body rsp (sent (GET h) w)).
  assert (E : ElementFactory h w = (Return (Some e), add_body rsp (sent (GET h) w))).
  { unfold ElementFactory. pyeval. rewrite request_unchecked. fold rsp.
    cbn [r_json r_etag]. rewrite load_add_body. rewrite Hb.
    change (default JNull (Some body)) with body.
    rewrite Ht, Hl, Hf. unfold lookup_class. rewrite Hn.
    unfold body_ref. rewrite Hb. reflexivity. }
  split; [exact E|].
  split; [intros c Hc; subst e; rewrite Hc; reflexivity|].
  split; [intros Hc; subst e; rewrite Hc; reflexivity|].
  split; [reflexivity|].
  split.
  { rewrite (heap_add_body rsp _ body Hb). simpl.
    rewrite lookup_app_r by lia. rewrite Nat.sub_diag. reflexivity. }
  split; [rewrite log_add_body; reflexivity|].
  intros n. eexists. split.
  - apply (data_hit n (mkState e _) (rsp_etag rsp) (Some (length (heap w)))).
    reflexivity.
  - reflexivity.
Qed.

(** C10.  When the read of [h] yields no JSON body, or an empty one,
    [ElementFactory(h)], and so [Element.from_href(h)], returns [None]: it
    does not raise and it builds no instance, whether or not the SMC
    reported an error. *)
Theorem ElementFactory_no_body (h : json) (w : World) :
  rsp_json (transport (log w) (GET h)) = None \/
  (exists j, rsp_json (transport (log w) (GET h)) = Some j /\ py_truthy j = false) ->
  exists w',
    ElementFactory h w = (Return None, w') /\
    from_href h w = (Return None, w') /\
    log w' = log w ++ [GET h].
Proof.
  intros Hb.
  exists (add_body (transport (log w) (GET h)) (sent (GET h) w)).
  assert (E : ElementFactory h w =
              (Return None, add_body (transport (log w) (GET h)) (sent (GET h) w))).
  { unfold ElementFactory. pyeval. rewrite request_unchecked.
    cbn [r_json]. rewrite load_add_body.
    destruct Hb as [-> | (j & -> & Hj)].
    - reflexivity.
    - change (default JNull (Some j)) with j. rewrite Hj. reflexivity. }
  split; [exact E|]. split; [exact E|].
  rewrite log_add_body. reflexivity.
Qed.

End Factory.

(* ===================================================================== *)
(** ** What resolving the href can change                                 *)
(* ===================================================================== *)

Section Resolution.

Context `{Collaborators}.

Lemma fetch_calls_SEARCH (l : list Request) (n : json) (k : string) :
  fetch_calls (l ++ [SEARCH n k]) = fetch_calls l.
Proof.
  unfold fetch_calls. rewrite List.filter_app, List.length_app. simpl. lia.
Qed.

(** The locator, case by case. *)
Lemma ElementLocator_run (st : State) :
  ElementLocator___get__ st =
  match meta (self st) with
  | Some m => (Return (m_href m), st)
  | None =>
      match cls_typeof (cls (self st)) with
      | None => (Raise (Exn ElementNotFound None), st)
      | Some k =>
          let n := match cls_base (cls (self st)) with
                   | IsElement => _name (self st)
                   | IsSubElement => JNull
                   end in
          let rsp := transport (log (world st)) (SEARCH n k) in
          let st1 := mkState (self st) (add_body rsp (sent (SEARCH n k) (world st))) in
          let body := default JNull (rsp_json rsp) in
          if py_truthy body then
            match py_first body with
            | Raise e => (Raise e, st1)
            | Return first =>
                match Meta_of_kwargs first with
                | Raise e => (Raise e, st1)
                | Return m =>
                    (Return (m_href m), mkState (set_meta (Some m) (self st)) (world st1))
                end
            end
          else (Raise (Exn ElementNotFound None), st1)
      end
  end.
Proof.
  destruct st as [[c nm m ca re] w].
  unfold ElementLocator___get__, name, fetch_href_by_name. pyeval.
  destruct m as [m|]; [reflexivity|].
  destruct (cls_typeof c) as [k|]; [|reflexivity].
  destruct (cls_base c); rewrite request_unchecked; cbn [r_json];
    rewrite load_add_body;
    destruct (py_truthy _); try reflexivity;
    destruct (py_first _) as [first|e]; try reflexivity;
    destruct (Meta_of_kwargs first); reflexivity.
Qed.

(** Resolving the href leaves the cache, the link table, the class, the
    counter and the stored objects alone, and fetches nothing. *)
Lemma href_facts (st st1 : State) (o : outcome json) :
  href st = (o, st1) ->
  cache (self st1) = cache (self st) /\
  resource (self st1) = resource (self st) /\
  cls (self st1) = cls (self st) /\
  counters (world st1) = counters (world st) /\
  (forall r j, heap (world st) !! r = Some j -> heap (world st1) !! r = Some j) /\
  fetch_calls (log (world st1)) = fetch_calls (log (world st)) /\
  (forall h, o = Return h -> known_href (self st1) = Some h).
Proof.
  assert (Same : forall st0 o0, (o0, st0) = (o, st1) ->
            (forall h, o0 = Return h -> known_href (self st0) = Some h) ->
            cache (self st0) = cache (self st) -> resource (self st0) = resource (self st) ->
            cls (self st0) = cls (self st) ->
            counters (world st0) = counters (world st) ->
            (forall r j, heap (world st) !! r = Some j -> heap (world st0) !! r = Some j) ->
            fetch_calls (log (world st0)) = fetch_calls (log (world st)) ->
            cache (self st1) = cache (self st) /\
            resource (self st1) = resource (self st) /\
            cls (self st1) = cls (self st) /\
            counters (world st1) = counters (world st) /\
            (forall r j, heap (world st) !! r = Some j -> heap (world st1) !! r = Some j) /\
            fetch_calls (log (world st1)) = fetch_calls (log (world st)) /\
            (forall h, o = Return h -> known_href (self st1) = Some h)).
  { intros st0 o0 E. inversion E; subst. tauto. }
  assert (Grown : forall rsp n k,
            counters (add_body rsp (sent (SEARCH n k) (world st))) = counters (world st) /\
            (forall r j, heap (world st) !! r = Some j ->
                         heap (add_body rsp (sent (SEARCH n k) (world st))) !! r = Some j) /\
            fetch_calls (log (add_body rsp (sent (SEARCH n k) (world st))))
            = fetch_calls (log (world st))).
  { intros rsp n k. split; [|split].
    - unfold add_body. destruct (rsp_json rsp); reflexivity.
    - intros r j Hr. apply heap_add_body_lookup. exact Hr.
    - rewrite log_add_body. apply fetch_calls_SEARCH. }
  unfold href. destruct (cls_base (cls (self st))) eqn:Eb.
  - rewrite ElementLocator_run. rewrite Eb.
    destruct (meta (self st)) as [m|] eqn:Em.
    + intros E. apply (Same _ _ E); try reflexivity; try (intros; assumption).
      intros h Hh. inversion Hh; subst. unfold known_href. rewrite Em.
      destruct (cls_base (cls (self st))); reflexivity.
    + destruct (cls_typeof (cls (self st))) as [k|].
      2:{ intros E. apply (Same _ _ E); try reflexivity; try (intros; assumption). intros h Hh; discriminate Hh. }
      cbv zeta.
      destruct (Grown (transport (log (world st)) (SEARCH (_name (self st)) k))
                      (_name (self st)) k) as (G1 & G2 & G3).
      destruct (py_truthy _).
      2:{ intros E. apply (Same _ _ E); try reflexivity; try assumption; try (intros; assumption).
          intros h Hh; discriminate Hh. }
      destruct (py_first _) as [first|e].
      2:{ intros E. apply (Same _ _ E); try reflexivity; try assumption; try (intros; assumption).
          intros h Hh; discriminate Hh. }
      destruct (Meta_of_kwargs first) as [m|e].
      2:{ intros E. apply (Same _ _ E); try reflexivity; try assumption; try (intros; assumption).
          intros h Hh; discriminate Hh. }
      intros E. apply (Same _ _ E); try assumption; try (intros; assumption).
      * intros h Hh. inversion Hh; subst. unfold known_href. simpl.
        destruct (cls_base (cls (self st))); reflexivity.
      * destruct st as [[c nm m0 ca re] w]; reflexivity.
      * destruct st as [[c nm m0 ca re] w]; reflexivity.
      * destruct st as [[c nm m0 ca re] w]; reflexivity.
  - unfold SubElement_href, bind, get_self, ret.
    intros E. apply (Same _ _ E); try reflexivity; try (intros; assumption).
    intros h Hh. inversion Hh; subst. unfold known_href. rewrite Eb.
    destruct (meta (self st)); reflexivity.
Qed.

(** The counter plays no part in resolving the href. *)
Lemma href_tick (st : State) :
  href (tick st) = (fst (href st), tick (snd (href st))).
Proof.
  unfold href. cbn [tick self cls].
  destruct (cls_base (cls (self st))).
  - rewrite !ElementLocator_run. cbn [tick self world log set_counters]. 
    destruct (meta (self st)) as [m|]; [reflexivity|].
    destruct (cls_typeof (cls (self st))) as [k|]; [|reflexivity].
    cbv zeta.
    destruct (cls_base (cls (self st)));
      destruct (py_truthy _); try (unfold add_body; destruct (rsp_json _); reflexivity);
      destruct (py_first _) as [first|e];
      try (unfold add_body; destruct (rsp_json _); reflexivity);
      destruct (Meta_of_kwargs first);
      unfold add_body; destruct (rsp_json _); reflexivity.
  - reflexivity.
Qed.

(** A resolved href stays resolved. *)
Lemma href_again (st st1 : State) (h : json) :
  href st = (Return h, st1) -> href st1 = (Return h, st1).
Proof.
  intros Hh. apply href_known.
  destruct (href_facts st st1 (Return h) Hh) as (_ & _ & _ & _ & _ & _ & K).
  apply K. reflexivity.
Qed.

(** Neither the stored objects nor the counter play a part in resolving
    the href: in another store, the same answer and the same new objects. *)
Lemma href_reworld (st st1 : State) (o : outcome json) (hp' : list json) (k' : nat) :
  href st = (o, st1) ->
  exists extra,
    heap (world st1) = heap (world st) ++ extra /\
    href (mkState (self st) (mkWorld hp' (log (world st)) k'))
    = (o, mkState (self st1) (mkWorld (hp' ++ extra) (log (world st1)) k')).
Proof.
  assert (Nil : forall i w o0, (o0, mkState i w) = (o, st1) ->
            exists extra,
              heap (world st1) = heap w ++ extra /\
              (o0, mkState i (mkWorld hp' (log w) k'))
              = (o, mkState (self st1) (mkWorld (hp' ++ extra) (log (world st1)) k'))).
  { intros i w o0 E. inversion E; subst. exists []. rewrite !app_nil_r. split; reflexivity. }
  assert (Body : forall i rsp req o0,
            (o0, mkState i (add_body rsp (sent req (world st)))) = (o, st1) ->
            exists extra,
              heap (world st1) = heap (world st) ++ extra /\
              (o0, mkState i (add_body rsp (sent req (mkWorld hp' (log (world st)) k'))))
              = (o, mkState (self st1) (mkWorld (hp' ++ extra) (log (world st1)) k'))).
  { intros i rsp req o0 E. inversion E; subst. unfold add_body.
    destruct (rsp_json rsp) as [j|].
    - exists [j]. split; reflexivity.
    - exists []. rewrite !app_nil_r. split; reflexivity. }
  unfold href. cbn [self cls].
  destruct (cls_base (cls (self st))) eqn:Eb.
  - rewrite !ElementLocator_run. cbn [self world log].
    destruct (meta (self st)) as [m|].
    { destruct st as [i w]. apply Nil. }
    destruct (cls_typeof (cls (self st))) as [k|].
    2:{ destruct st as [i w]. apply Nil. }
    cbv zeta. rewrite Eb.
    destruct (py_truthy _); [|apply Body].
    destruct (py_first _) as [first|e]; [|apply Body].
    destruct (Meta_of_kwargs first); apply Body.
  - unfold SubElement_href, bind, get_self, ret. cbn [self].
    destruct st as [i w]. apply Nil.
Qed.

End Resolution.

(* ===================================================================== *)
(** ** The version token and the system guard                             *)
(* ===================================================================== *)

Section Tokens.

Context `{Collaborators}.

(** C9.  A cache seeded with a payload and no version token: when the
    href of the instance resolves and the SMC answers the read, the first
    [etag] access sends one fetch and returns the token of that answer;
    afterwards the cache pairs that token with the seeded payload object,
    whose content is what it was, whatever payload the fetch returned. *)
Theorem etag_backfill_keeps_payload (n : nat) (st st1 : State) (h : json) (r : ref)
        (j : json) :
  cache (self st) = Some (Cache___init__ (Some r) None) ->
  heap (world st) !! r = Some j ->
  href st = (Return h, st1) ->
  rsp_msg (transport (log (world st1)) (GET h)) = None ->
  exists st',
    etag (S n) st = (Return (rsp_etag (transport (log (world st1)) (GET h))), st') /\
    cache (self st')
    = Some (mkCache (Some (rsp_etag (transport (log (world st1)) (GET h)), Some r))) /\
    heap (world st') !! r = Some j /\
    log (world st') = log (world st1) ++ [GET h] /\
    fetch_calls (log (world st')) = S (fetch_calls (log (world st))).
Proof.
  intros Hc Hr Hh Hm.
  destruct (href_facts st st1 (Return h) Hh) as (F1 & _ & _ & _ & F5 & F6 & _).
  set (rsp := transport (log (world st1)) (GET h)) in *.
  exists (mkState (set_cache (Some (mkCache (Some (rsp_etag rsp, Some r)))) (self st1))
                  (add_body rsp (sent (GET h) (world (tick st1))))).
  split.
  - assert (Ht : href (tick st) = (Return h, tick st1))
      by (rewrite href_tick, Hh; reflexivity).
    rewrite Hc in F1.
    destruct st as [[c nm m ca re] [hp lg k]]. simpl in Hc. subst ca.
    destruct st1 as [[c1 nm1 m1 ca1 re1] [hp1 lg1 k1]]. simpl in F1. subst ca1.
    cbv beta iota delta [tick self world counters set_counters heap log] in Ht.
    unfold etag, Cache_etag. rewrite Cache_call_unfold. pyeval.
    rewrite Ht. erewrite request_answered by exact Hm. reflexivity.
  - split; [reflexivity|]. split.
    + apply heap_add_body_lookup. apply F5. exact Hr.
    + cbn [world]. rewrite log_add_body. simpl. split; [reflexivity|].
      rewrite fetch_calls_GET, F6. reflexivity.
Qed.

(** C8.  An instance whose cached payload has [system] set to [True]:
    [modify_attribute] raises [ModificationFailed] whatever the fields, and
    sends nothing; the instance and the stored objects are as before. *)
Theorem modify_attribute_system_refused (n : nat) (kwargs : list (string * json))
        (st : State) (e : option string) (p : option ref) :
  cache (self st) = Some (mkCache (Some (e, p))) ->
  py_get (load (world st) p) "system" = Return (JBool true) ->
  exists st',
    modify_attribute (S n) kwargs st = (Raise (Exn ModificationFailed None), st') /\
    log (world st') = log (world st) /\
    heap (world st') = heap (world st) /\
    self st' = self st.
Proof.
  intros Hc Hs. exists (tick st). split; [|repeat split].
  unfold modify_attribute. unfold bind at 1.
  rewrite (data_hit n st e p Hc).
  unfold bind at 1. unfold bind at 1. unfold lift.
  change (load (world (tick st)) p) with (load (world st) p).
  rewrite Hs. reflexivity.
Qed.

(** The guard reads [self.data]: on an instance that has fetched nothing
    yet, the payload is fetched first, and the error follows that one
    read; no write is sent. *)
Remark modify_attribute_system_unfetched (n : nat) (kwargs : list (string * json))
       (st : State) (h : json) (body : json) (res : ElementResource) :
  known_href (self st) = Some h ->
  cache_empty (self st) ->
  rsp_msg (transport (log (world st)) (GET h)) = None ->
  rsp_json (transport (log (world st)) (GET h)) = Some body ->
  link_table_of body = Return res ->
  py_get body "system" = Return (JBool true) ->
  exists st',
    modify_attribute (S (S n)) kwargs st = (Raise (Exn ModificationFailed None), st') /\
    log (world st') = log (world st) ++ [GET h].
Proof.
  intros Hh He Hm Hb Hl Hs.
  unfold modify_attribute. unfold bind at 1. rewrite (data_miss n st h Hh He).
  destruct (refreshed _ h) as [o st'] eqn:Er.
  destruct (refreshed_facts _ _ _ _ Er) as (L & _).
  exists st'. split; [|exact L].
  unfold refreshed in Er. cbn [self world resource set_cache] in Er.
  rewrite Hm in Er.
  assert (Hld : forall k w1,
            load (set_counters k (add_body (transport (log (world st)) (GET h)) w1))
                 (body_ref w1 (transport (log (world st)) (GET h))) = body).
  { intros k w1. change (load (set_counters k ?w) ?p) with (load w p).
    rewrite load_add_body, Hb. reflexivity. }
  assert (Hld0 : forall w1,
            load (add_body (transport (log (world st)) (GET h)) w1)
                 (body_ref w1 (transport (log (world st)) (GET h))) = body).
  { intros w1. rewrite load_add_body, Hb. reflexivity. }
  destruct (resource (self st)) as [res0|].
  - inversion Er; subst o st'; clear Er. cbn [tuple_1].
    unfold bind at 1. unfold bind at 1. cbn [world]. rewrite Hld0.
    unfold lift. rewrite Hs. reflexivity.
  - rewrite Hld, Hl in Er. inversion Er; subst o st'; clear Er. cbn [tuple_1].
    unfold bind at 1. unfold bind at 1. cbn [world]. rewrite Hld.
    unfold lift. rewrite Hs. reflexivity.
Qed.

End Tokens.

(* ===================================================================== *)
(** ** Writing: update, modify_attribute, delete                          *)
(* ===================================================================== *)

Section Writing.

Context `{Collaborators}.

(** [update()] without keywords on a populated cache, step by step: the
    payload is copied, the token is read, the cache entry is deleted, and
    only then is the request sent. *)
Lemma update_run (n : nat) (exc : option exn_class) (st : State) (h : json)
      (tag : string) (r : ref) (j : json) :
  known_href (self st) = Some h ->
  populated (self st) tag r ->
  heap (world st) !! r = Some j ->
  update (S n) exc None None None st =
  (let req := PUT h (Some j) (Some tag) in
   let rsp := transport (log (world st)) req in
   let w1 := set_heap (heap (world st) ++ [j]) (world (tick (tick st))) in
   let i1 := set_cache None (self st) in
   match rsp_msg rsp with
   | Some m => (Raise (Exn (default UpdateElementFailed exc) (Some m)),
                mkState i1 (sent req w1))
   | None => (Return (rsp_href rsp), mkState i1 (add_body rsp (sent req w1)))
   end).
Proof.
  intros Hh Hp Hr.
  destruct st as [[c nm m ca re] [hp lg k]]. unfold populated in Hp.
  simpl in Hp, Hr. subst ca.
  assert (Hhref : forall ca' re' w', href (mkState (mkInstance c nm m ca' re') w')
                          = (Return h, mkState (mkInstance c nm m ca' re') w')).
  { intros. apply href_known. exact Hh. }
  unfold update. unfold bind at 1. rewrite Hhref.
  unfold data, Cache_data, etag, Cache_etag.
  rewrite !Cache_call_unfold. unfold deepcopy. pyeval.
  rewrite Hr. unfold load. pyeval.
  rewrite lookup_app_r by lia. rewrite Nat.sub_diag.
  cbv beta iota delta [default from_option id].
  change ([j] !! 0) with (Some j). cbv beta iota.
  destruct (rsp_msg (transport lg (PUT h (Some j) (Some tag)))) as [m0|] eqn:Em.
  - erewrite request_refused by exact Em. reflexivity.
  - erewrite request_answered by exact Em. reflexivity.
Qed.

(** Once the href is resolved, [update()] runs as on the resolved
    instance. *)
Lemma update_resolved (fuel : nat) (exc : option exn_class)
      (kj : option (option ref)) (ke : option (option string))
      (st st1 : State) (h : json) :
  href st = (Return h, st1) ->
  update fuel exc None kj ke st = update fuel exc None kj ke st1.
Proof.
  intros Hh. unfold update.
  rewrite (bind_Return href _ st h st1 Hh).
  rewrite (bind_Return href _ st1 h st1 (href_again st st1 h Hh)).
  reflexivity.
Qed.

(** C1, as the code has it.  An instance with a populated cache whose href
    resolves: when [update()] is called without keywords and the SMC rejects
    the write, [UpdateElementFailed] is raised with the message of the SMC,
    and the cache entry of the instance is gone: it was deleted before the
    request was sent.  The payload object that was cached keeps its
    content, and the request carried a copy of it with the cached token. *)
Theorem update_refused_clears_cache (n : nat) (st st1 : State) (h : json)
        (tag : string) (r : ref) (j : json) (m : string) :
  populated (self st) tag r ->
  heap (world st) !! r = Some j ->
  href st = (Return h, st1) ->
  rsp_msg (transport (log (world st1)) (PUT h (Some j) (Some tag))) = Some m ->
  exists st',
    update (S n) None None None None st
    = (Raise (Exn UpdateElementFailed (Some m)), st') /\
    cache (self st') = None /\
    heap (world st') !! r = Some j /\
    log (world st') = log (world st1) ++ [PUT h (Some j) (Some tag)].
Proof.
  intros Hp Hr Hh Hm.
  destruct (href_facts st st1 (Return h) Hh) as (F1 & _ & _ & _ & F5 & _ & F7).
  assert (Hp1 : populated (self st1) tag r) by (unfold populated; rewrite F1; exact Hp).
  rewrite (update_resolved (S n) None None None st st1 h Hh).
  rewrite (update_run n None st1 h tag r j (F7 h eq_refl) Hp1 (F5 r j Hr)).
  cbv zeta. rewrite Hm. eexists. split; [reflexivity|].
  split; [reflexivity|]. split; [|reflexivity].
  simpl. apply lookup_app_l_Some. apply F5. exact Hr.
Qed.

(** C2, as the code has it.  An instance with a populated cache whose
    payload is not system-protected and whose href resolves:
    [modify_attribute] merges the fields into the cached payload object
    itself, which therefore holds the merged content afterwards; [update()]
    then sends a copy of that merged payload, with the cached token, in
    exactly one request, and deletes the cache entry. *)
Theorem modify_attribute_merges_in_place (n : nat) (kwargs : list (string * json))
        (st st1 : State) (h : json) (tag : string) (r : ref)
        (d : list (string * json)) :
  populated (self st) tag r ->
  heap (world st) !! r = Some (JDict d) ->
  py_is_True (default JNull (assoc_get "system" d)) = false ->
  href st = (Return h, st1) ->
  let merged := JDict (merge_dicts d (assoc_remove "append_lists" kwargs)
                         (default (JBool false) (assoc_get "append_lists" kwargs))) in
  let req := PUT h (Some merged) (Some tag) in
  exists o st',
    modify_attribute (S n) kwargs st = (o, st') /\
    o = match rsp_msg (transport (log (world st1)) req) with
        | Some m => Raise (Exn UpdateElementFailed (Some m))
        | None => Return tt
        end /\
    heap (world st') !! r = Some merged /\
    heap (world st') !! length (heap (world st1)) = Some merged /\
    r <> length (heap (world st1)) /\
    log (world st') = log (world st1) ++ [req] /\
    cache (self st') = None.
Proof.
  intros Hp Hr Hs Hh merged req.
  assert (Hlt : r < length (heap (world st))) by (eapply lookup_lt_Some; exact Hr).
  destruct (href_facts st st1 (Return h) Hh) as (F1 & _ & _ & _ & _ & _ & F7).
  set (hp := <[r := merged]> (heap (world st))).
  destruct (href_reworld st st1 (Return h) hp (S (S (counters (world st)))) Hh)
    as (extra & Hx & Hh2).
  set (st2 := mkState (self st) (mkWorld hp (log (world st)) (S (S (counters (world st)))))) in *.
  set (st3 := mkState (self st1)
                (mkWorld (hp ++ extra) (log (world st1)) (S (S (counters (world st)))))) in *.
  assert (Hlen : length (heap (world st3)) = length (heap (world st1))).
  { simpl. rewrite Hx. rewrite !List.length_app. unfold hp. rewrite length_insert.
    reflexivity. }
  assert (Hr3 : heap (world st3) !! r = Some merged).
  { simpl. apply lookup_app_l_Some. apply list_lookup_insert_eq. exact Hlt. }
  assert (Hp3 : populated (self st3) tag r) by (unfold populated; simpl; rewrite F1; exact Hp).
  assert (E : modify_attribute (S n) kwargs st =
              (let '(o, s) := update (S n) None None None None st2 in
               (match o with Return _ => Return tt | Raise e => Raise e end, s))).
  { unfold modify_attribute. unfold bind at 1.
    rewrite (data_hit n st (Some tag) (Some r) Hp).
    unfold bind at 1. unfold bind at 1. unfold lift.
    change (load (world (tick st)) (Some r)) with (default JNull (heap (world st) !! r)).
    rewrite Hr. simpl default. cbn [py_get]. rewrite Hs.
    unfold bind at 1. rewrite (data_hit n (tick st) (Some tag) (Some r) Hp).
    unfold bind at 1. unfold merge_into.
    change (heap (world (tick (tick st))) !! r) with (heap (world st) !! r).
    rewrite Hr. unfold bind at 1. fold merged.
    change (mkState (self (tick (tick st))) _) with st2.
    destruct (update (S n) None None None None st2) as [[a|e] s]; reflexivity. }
  rewrite E. rewrite (update_resolved (S n) None None None st2 st3 h Hh2).
  rewrite (update_run n None st3 h tag r merged (F7 h eq_refl) Hp3 Hr3).
  cbv zeta. change (log (world st3)) with (log (world st1)). fold req.
  assert (Hne : r <> length (heap (world st1))).
  { rewrite Hx, List.length_app. lia. }
  destruct (rsp_msg (transport (log (world st1)) req)) as [m|] eqn:Em.
  - eexists _, _. split; [reflexivity|]. split; [reflexivity|].
    cbn [world self heap log sent set_log set_heap cache set_cache].
    split; [apply lookup_app_l_Some; exact Hr3|].
    split; [|split; [exact Hne | split; reflexivity]].
    rewrite <- Hlen. rewrite lookup_app_r by lia. rewrite Nat.sub_diag. reflexivity.
  - eexists _, _. split; [reflexivity|]. split; [reflexivity|].
    cbn [world self cache set_cache]. rewrite log_add_body.
    split; [apply heap_add_body_lookup; apply lookup_app_l_Some; exact Hr3|].
    split; [|split; [exact Hne | split; reflexivity]].
    apply heap_add_body_lookup.
    cbn [world self heap log sent set_log set_heap cache set_cache].
    rewrite <- Hlen. rewrite lookup_app_r by lia. rewrite Nat.sub_diag. reflexivity.
Qed.

End Writing.

Section Deleting.

Context `{Collaborators}.

(** C4, as the code has it.  An instance with a populated cache whose href
    resolves: [delete()] sends exactly one delete request, against the
    instance's href and with the cached version token as [if-match], and
    raises [DeleteElementFailed] when the SMC rejects it.  It leaves the
    cache and the link table as they are: there is no deleted state, and
    after a successful delete [data] still returns the cached payload
    without a request. *)
Theorem delete_sends_token_keeps_instance (n : nat) (st st1 : State) (h : json)
        (tag : string) (r : ref) :
  populated (self st) tag r ->
  href st = (Return h, st1) ->
  let req := DELETE h (Some tag) in
  exists o st',
    delete (S n) st = (o, st') /\
    o = match rsp_msg (transport (log (world st1)) req) with
        | Some m => Raise (Exn DeleteElementFailed (Some m))
        | None => Return tt
        end /\
    log (world st') = log (world st1) ++ [req] /\
    self st' = self st1 /\
    cache (self st') = cache (self st) /\
    resource (self st') = resource (self st) /\
    forall n', exists st2,
      data (S n') st' = (Return (Some r), st2) /\
      log (world st2) = log (world st').
Proof.
  intros Hp Hh req.
  destruct (href_facts st st1 (Return h) Hh) as (F1 & F2 & _ & _ & _ & _ & _).
  assert (Hp1 : populated (self st1) tag r) by (unfold populated; rewrite F1; exact Hp).
  assert (E : delete (S n) st =
              match rsp_msg (transport (log (world st1)) req) with
              | Some m => (Raise (Exn DeleteElementFailed (Some m)),
                           mkState (self st1) (sent req (world (tick st1))))
              | None => (Return tt,
                         mkState (self st1)
                           (add_body (transport (log (world st1)) req)
                                     (sent req (world (tick st1)))))
              end).
  { unfold delete. unfold bind at 1. rewrite Hh.
    unfold bind at 1. rewrite (etag_hit n st1 tag (Some r) Hp1).
    fold req. unfold bind at 1, liftW.
    destruct (rsp_msg (transport (log (world st1)) req)) as [m|] eqn:Em.
    - erewrite request_refused by exact Em. reflexivity.
    - erewrite request_answered by exact Em. reflexivity. }
  rewrite E.
  destruct (rsp_msg (transport (log (world st1)) req)) as [m|].
  - eexists _, _. split; [reflexivity|]. split; [reflexivity|].
    split; [reflexivity|]. split; [reflexivity|].
    split; [exact F1|]. split; [exact F2|].
    intros n'. eexists. split; [apply (data_hit n' _ (Some tag) (Some r)); exact Hp1|].
    reflexivity.
  - eexists _, _. split; [reflexivity|]. split; [reflexivity|].
    split; [cbn [world]; rewrite log_add_body; reflexivity|]. split; [reflexivity|].
    split; [exact F1|]. split; [exact F2|].
    intros n'. eexists. split; [apply (data_hit n' _ (Some tag) (Some r)); exact Hp1|].
    reflexivity.
Qed.

End Deleting.

(* ===================================================================== *)
(** ** The link table                                                     *)
(* ===================================================================== *)

Section Links.

Context `{Collaborators}.

(** On its fetching branch the cache resolves the href first; from then on
    it runs as on the resolved instance. *)
Lemma Cache_call_resolved (fuel : nat) (force : bool) (st st1 : State) (h : json)
      (c0 : option cache_tuple) :
  href st = (Return h, st1) ->
  cache (self st) = Some (mkCache c0) ->
  (c0 = None \/ force = true) ->
  Cache___call__ (S fuel) force st = Cache___call__ (S fuel) force st1.
Proof.
  intros Hh Hc Hf.
  destruct (href_facts st st1 (Return h) Hh) as (F1 & _).
  assert (Hc1 : cache (self (tick st1)) = Some (mkCache c0)) by (simpl; rewrite F1; exact Hc).
  assert (Ht : href (tick st) = (Return h, tick st1))
    by (rewrite href_tick, Hh; reflexivity).
  assert (Ht1 : href (tick st1) = (Return h, tick st1))
    by (rewrite href_tick, (href_again st st1 h Hh); reflexivity).
  assert (Hb : match c0 with None => true | Some _ => force end = true)
    by (destruct Hf as [-> | ->]; [reflexivity | destruct c0; reflexivity]).
  rewrite !Cache_call_unfold.
  rewrite (bind_Return counters_update _ st tt (tick st) eq_refl).
  rewrite (bind_Return counters_update _ st1 tt (tick st1) eq_refl).
  rewrite (bind_Return get__cache _ (tick st) c0 (tick st)).
  2:{ unfold get__cache, bind, get_self. cbn [tick self]. rewrite Hc. reflexivity. }
  rewrite (bind_Return get__cache _ (tick st1) c0 (tick st1)).
  2:{ unfold get__cache, bind, get_self. rewrite Hc1. reflexivity. }
  rewrite Hb. rewrite !bind_bind.
  rewrite (bind_Return href _ (tick st) h (tick st1) Ht).
  rewrite (bind_Return href _ (tick st1) h (tick st1) Ht1).
  reflexivity.
Qed.

(** C3, as the code has it.  A call of the cache that fetches (the cache
    holds nothing, or a refresh is forced), on an instance whose href
    resolves, and that the SMC answers, stores the fetched token and
    payload.  When the instance has no link table, the table is then built
    from the link list of the fetched payload.  When the instance already
    has one, it is kept as it is and is not rebuilt from the new payload. *)
Theorem link_table_built_once (n : nat) (force : bool) (st st1 st' : State)
        (h : json) (c0 : option cache_tuple) (o : outcome (option cache_tuple)) :
  cache (self st) = Some (mkCache c0) ->
  (c0 = None \/ force = true) ->
  href st = (Return h, st1) ->
  rsp_msg (transport (log (world st1)) (GET h)) = None ->
  Cache___call__ (S (S n)) force st = (o, st') ->
  cache (self st')
  = Some (mkCache (Some (rsp_etag (transport (log (world st1)) (GET h)),
                         body_ref (world st1) (transport (log (world st1)) (GET h))))) /\
  load (world st') (body_ref (world st1) (transport (log (world st1)) (GET h)))
  = default JNull (rsp_json (transport (log (world st1)) (GET h))) /\
  match resource (self st) with
  | Some res => raised o = false /\ resource (self st') = Some res
  | None =>
      match link_table_of (default JNull (rsp_json (transport (log (world st1)) (GET h)))) with
      | Return res => raised o = false /\ resource (self st') = Some res
      | Raise e => o = Raise e /\ resource (self st') = None
      end
  end.
Proof.
  intros Hc Hf Hh Hm.
  destruct (href_facts st st1 (Return h) Hh) as (F1 & F2 & _ & _ & _ & _ & F7).
  rewrite <- F2.
  rewrite (Cache_call_resolved (S n) force st st1 h c0 Hh Hc Hf).
  assert (Hc1 : cache (self st1) = Some (mkCache c0)) by (rewrite F1; exact Hc).
  rewrite (Cache_call_refresh n force st1 h c0 (F7 h eq_refl) Hc1 Hf).
  unfold refreshed. rewrite Hm. clear Hh Hc F1 F2 F7 st.
  destruct st1 as [[c nm m ca re] w]. cbn [self world resource] in *.
  set (rsp := transport (log w) (GET h)) in *.
  set (w1 := sent (GET h) (world (tick (mkState (mkInstance c nm m ca re) w)))).
  assert (Hl : forall k, load (set_counters k (add_body rsp w1)) (body_ref w1 rsp)
                         = default JNull (rsp_json rsp)).
  { intros k. exact (load_add_body rsp w1). }
  change (body_ref w rsp) with (body_ref w1 rsp).
  destruct re as [res|].
  - intros E; inversion E; subst; clear E.
    split; [reflexivity|]. split; [apply load_add_body|]. split; reflexivity.
  - rewrite Hl. destruct (link_table_of _) as [res|e];
      intros E; inversion E; subst; clear E;
      (split; [reflexivity|]); (split; [apply Hl|]); split; reflexivity.
Qed.

End Links.

(* ===================================================================== *)
(** ** The theorems at work on the demo SMC                               *)
(* ===================================================================== *)

(** The two merge policies on a list-valued field. *)
Example merge_replaces_lists :
  merge_dicts_spec [("tags", JList [JStr "b"])] [("tags", JList [JStr "a"])] false
  = [("tags", JList [JStr "a"])].
Proof. reflexivity. Qed.

Example merge_appends_lists :
  merge_dicts_spec [("tags", JList [JStr "b"])] [("tags", JList [JStr "a"])] true
  = [("tags", JList [JStr "b"; JStr "a"])].
Proof. reflexivity. Qed.

(** The demo states are the ones the model reaches. *)
Example demo_first_read :
  @data Demo.collab 2 Demo.resolved = (Return (Some 0), Demo.fetched).
Proof. vm_compute. reflexivity. Qed.

Example demo_update_accepted :
  @update Demo.collab 2 None None None None Demo.fetched
  = (Return (Some "/elements/host/12"), Demo.updated).
Proof. vm_compute. reflexivity. Qed.

Example demo_update_of_stale_refused :
  fst (@update Demo.collab 2 None None None None Demo.stale)
  = Raise (Exn UpdateElementFailed (Some "ETag mismatch")).
Proof. vm_compute. reflexivity. Qed.

Example demo_read_after_update :
  fst (@data Demo.collab 2 Demo.updated) = Return (Some 2) /\
  load (world (snd (@data Demo.collab 2 Demo.updated))) (Some 2) = Demo.payload 1 /\
  log (world (snd (@data Demo.collab 2 Demo.updated)))
  = [GET Demo.host_href; PUT Demo.host_href (Some (Demo.payload 0)) (Some "rev0");
     GET Demo.host_href].
Proof. vm_compute. repeat split; reflexivity. Qed.


Lemma data_twice_one_fetch_witness :
  exists st1 st2,
    @data Demo.collab 2 Demo.resolved = (Return (Some 0), st1) /\
    @data Demo.collab 2 st1 = (Return (Some 0), st2) /\
    load (world st2) (Some 0) = Demo.payload 0 /\
    heap (world st2) = heap (world st1) /\
    log (world st2) = [GET Demo.host_href] /\
    fetch_calls (log (world st2)) = 1.
Proof.
  apply (@data_twice_one_fetch Demo.collab 0 0 Demo.resolved Demo.host_href).
  - reflexivity.
  - left. reflexivity.
  - reflexivity.
  - intros _. vm_compute. reflexivity.
Defined.

Lemma ElementFactory_by_kind_witness :
  exists e w',
    @ElementFactory Demo.collab Demo.host_href Demo.w0 = (Return (Some e), w') /\
    (forall c, @registry Demo.collab !! "host" = Some c -> cls e = c) /\
    (@registry Demo.collab !! "host" = None -> cls e = Element) /\
    cache e = Some (mkCache (Some (Some "rev0", Some 0))) /\
    heap w' !! 0 = Some (Demo.payload 0) /\
    log w' = [GET Demo.host_href] /\
    forall n, exists st2,
      @data Demo.collab (S n) (mkState e w') = (Return (Some 0), st2) /\
      log (world st2) = log w'.
Proof.
  apply (@ElementFactory_by_kind Demo.collab Demo.host_href Demo.w0 (Demo.payload 0)
           (JList [Demo.self_link; Demo.export_link]) "host");
    reflexivity.
Defined.

Lemma ElementFactory_no_body_witness :
  exists w',
    @ElementFactory Demo.collab (JStr "/elements/host/13") Demo.w0 = (Return None, w') /\
    @from_href Demo.collab (JStr "/elements/host/13") Demo.w0 = (Return None, w') /\
    log w' = [GET (JStr "/elements/host/13")].
Proof.
  apply (@ElementFactory_no_body Demo.collab (JStr "/elements/host/13") Demo.w0).
  left. reflexivity.
Defined.

Lemma modify_attribute_system_refused_witness :
  exists st',
    @modify_attribute Demo.collab 1 [("comment", JStr "test")] Demo.system_element
    = (Raise (Exn ModificationFailed None), st') /\
    log (world st') = log (world Demo.system_element) /\
    heap (world st') = heap (world Demo.system_element) /\
    self st' = self Demo.system_element.
Proof.
  apply (@modify_attribute_system_refused Demo.collab 0 [("comment", JStr "test")]
           Demo.system_element (Some "rev0") (Some 0));
    reflexivity.
Defined.

Lemma etag_backfill_keeps_payload_witness :
  exists st',
    @etag Demo.collab 1 Demo.seeded = (Return (Some "rev0"), st') /\
    cache (self st') = Some (mkCache (Some (Some "rev0", Some 0))) /\
    heap (world st') !! 0 = Some (JDict [("name", JStr "kali")]) /\
    log (world st') = [GET Demo.host_href] /\
    fetch_calls (log (world st')) = 1.
Proof.
  apply (@etag_backfill_keeps_payload Demo.collab 0 Demo.seeded Demo.seeded
           Demo.host_href 0 (JDict [("name", JStr "kali")]));
    reflexivity.
Defined.

Lemma update_refused_clears_cache_witness :
  exists st',
    @update Demo.collab 1 None None None None Demo.stale
    = (Raise (Exn UpdateElementFailed (Some "ETag mismatch")), st') /\
    cache (self st') = None /\
    heap (world st') !! 0 = Some (Demo.payload 0) /\
    log (world st')
    = log (world Demo.stale) ++ [PUT Demo.host_href (Some (Demo.payload 0)) (Some "rev0")].
Proof.
  apply (@update_refused_clears_cache Demo.collab 0 Demo.stale Demo.stale
           Demo.host_href "rev0" 0 (Demo.payload 0) "ETag mismatch");
    reflexivity.
Defined.

(** The payload of revision 0 with a comment merged in. *)
Lemma modify_attribute_merges_in_place_witness :
  let merged := JDict [("name", JStr "kali"); ("system", JBool false);
                       ("link", JList [Demo.self_link; Demo.export_link]);
                       ("comment", JStr "test")] in
  exists o st',
    @modify_attribute Demo.collab 1 [("comment", JStr "test")] Demo.fetched = (o, st') /\
    o = Return tt /\
    heap (world st') !! 0 = Some merged /\
    heap (world st') !! 1 = Some merged /\
    0 <> 1 /\
    log (world st') = [GET Demo.host_href; PUT Demo.host_href (Some merged) (Some "rev0")] /\
    cache (self st') = None.
Proof.
  apply (@modify_attribute_merges_in_place Demo.collab 0 [("comment", JStr "test")]
           Demo.fetched Demo.fetched Demo.host_href "rev0" 0
           [("name", JStr "kali"); ("system", JBool false);
            ("link", JList [Demo.self_link; Demo.export_link])]);
    reflexivity.
Defined.

Lemma delete_sends_token_keeps_instance_witness :
  exists o st',
    @delete Demo.collab 1 Demo.fetched = (o, st') /\
    o = Return tt /\
    log (world st') = [GET Demo.host_href; DELETE Demo.host_href (Some "rev0")] /\
    self st' = self Demo.fetched /\
    cache (self st') = cache (self Demo.fetched) /\
    resource (self st') = resource (self Demo.fetched) /\
    forall n', exists st2,
      @data Demo.collab (S n') st' = (Return (Some 0), st2) /\
      log (world st2) = log (world st').
Proof.
  apply (@delete_sends_token_keeps_instance Demo.collab 0 Demo.fetched Demo.fetched
           Demo.host_href "rev0" 0);
    reflexivity.
Defined.

Lemma link_table_built_once_witness :
  cache (self (snd (@Cache___call__ Demo.collab 2 false Demo.invalidated)))
  = Some (mkCache (Some (Some "rev1", Some 2))) /\
  load (world (snd (@Cache___call__ Demo.collab 2 false Demo.invalidated))) (Some 2)
  = Demo.payload 1 /\
  raised (fst (@Cache___call__ Demo.collab 2 false Demo.invalidated)) = false /\
  resource (self (snd (@Cache___call__ Demo.collab 2 false Demo.invalidated)))
  = Some Demo.links0.
Proof.
  apply (@link_table_built_once Demo.collab 0 false Demo.invalidated Demo.invalidated
           (snd (@Cache___call__ Demo.collab 2 false Demo.invalidated))
           Demo.host_href None
           (fst (@Cache___call__ Demo.collab 2 false Demo.invalidated))).
  - reflexivity.
  - left. reflexivity.
  - reflexivity.
  - reflexivity.
  - vm_compute. reflexivity.
Defined.

(* ===================================================================== *)
(** ** Where the code departs from the specification                      *)
(* ===================================================================== *)

(** C1 as the specification has it fails: on the stale instance the SMC
    rejects the write, and the cache entry that was there is gone. *)
Lemma update_failure_not_atomic :
  ~ (forall (C : Collaborators) (fuel : nat) (st : State) (h : json)
            (tag : string) (r : ref) (j : json),
       known_href (self st) = Some h ->
       populated (self st) tag r ->
       heap (world st) !! r = Some j ->
       is_Some (rsp_msg (@transport C (log (world st)) (PUT h (Some j) (Some tag)))) ->
       exists e st',
         @update C fuel None None None None st = (Raise e, st') /\
         exn_cls e = UpdateElementFailed /\
         cache (self st') = cache (self st)).
Proof.
  intros claim.
  destruct (claim Demo.collab 2 Demo.stale Demo.host_href "rev0" 0 (Demo.payload 0)
              eq_refl eq_refl eq_refl (ex_intro _ "ETag mismatch" eq_refl))
    as (e & st' & Hu & _ & Hc).
  vm_compute in Hu. inversion Hu; subst st'. vm_compute in Hc. discriminate Hc.
Qed.

(** C2 as the specification has it fails: after [modify_attribute] the
    payload object that was in the cache holds the merged fields. *)
Lemma modify_attribute_mutates_cached_payload :
  ~ (forall (C : Collaborators) (fuel : nat) (kwargs : list (string * json))
            (st st' : State) (tag : string) (r : ref) (j : json) (o : outcome unit),
       populated (self st) tag r ->
       heap (world st) !! r = Some j ->
       py_get j "system" = Return (JBool false) ->
       @modify_attribute C fuel kwargs st = (o, st') ->
       heap (world st') !! r = Some j).
Proof.
  intros claim.
  pose (run := @modify_attribute Demo.collab 2 [("comment", JStr "test")] Demo.fetched).
  assert (Hc := claim Demo.collab 2 [("comment", JStr "test")] Demo.fetched (snd run)
                  "rev0" 0 (Demo.payload 0) (fst run) eq_refl eq_refl eq_refl eq_refl).
  vm_compute in Hc. discriminate Hc.
Qed.

(** C3 as the specification has it fails: the instance fetched revision 0,
    had an update accepted, and reads again; the payload it now holds has
    no export link, the link table still has one. *)
Lemma link_table_stale_after_repopulation :
  ~ (forall (C : Collaborators) (fuel : nat) (st st' : State) (p : option ref),
       cache_empty (self st) ->
       @data C fuel st = (Return p, st') ->
       exists res,
         resource (self st') = Some res /\
         link_table_of (load (world st') p) = Return res).
Proof.
  intros claim.
  pose (run := @data Demo.collab 2 Demo.updated).
  destruct (claim Demo.collab 2 Demo.updated (snd run) (Some 2)
              (or_introl eq_refl) eq_refl) as (res & Hr & Hl).
  assert (Hold : match resource (self (snd run)) with
                 | Some t => t !! "export"
                 | None => None
                 end = Some (JStr "/elements/host/12/export"))
    by (vm_compute; reflexivity).
  assert (Hnew : match link_table_of (load (world (snd run)) (Some 2)) with
                 | Return t => t !! "export"
                 | Raise _ => None
                 end = None)
    by (vm_compute; reflexivity).
  rewrite Hr in Hold. rewrite Hl in Hnew. congruence.
Qed.

(** C4 as the specification has it fails: after a delete that the SMC
    accepted, [data] on the same instance returns the cached payload. *)
Lemma data_succeeds_after_delete :
  ~ (forall (C : Collaborators) (fuel : nat) (st st' : State),
       @delete C fuel st = (Return tt, st') ->
       forall (fuel' : nat) (o : outcome (option ref)) (st'' : State),
         @data C fuel' st' = (o, st'') -> raised o = true).
Proof.
  intros claim.
  pose (gone := snd (@delete Demo.collab 2 Demo.fetched)).
  assert (Hc := claim Demo.collab 2 Demo.fetched gone eq_refl 2
                  (fst (@data Demo.collab 2 gone)) (snd (@data Demo.collab 2 gone))
                  eq_refl).
  vm_compute in Hc. discriminate Hc.
Qed.

(** C6 as the specification has it fails: the host was deleted on the SMC,
    so the read of an instance that knows its href is refused; nothing is
    cached, and two [data] accesses with nothing in between send two
    fetches. *)
Lemma data_twice_two_fetches_when_refused :
  ~ (forall (C : Collaborators) (n : nat) (st st1 st2 : State) (h : json)
            (o1 o2 : outcome (option ref)),
       known_href (self st) = Some h ->
       @data C (S (S n)) st = (o1, st1) ->
       @data C (S (S n)) st1 = (o2, st2) ->
       fetch_calls (log (world st2)) = S (fetch_calls (log (world st)))).
Proof.
  intros claim.
  pose (st := mkState (self Demo.resolved)
                (mkWorld [] [GET Demo.host_href; DELETE Demo.host_href (Some "rev0")] 0)).
  pose (run1 := @data Demo.collab 2 st).
  pose (run2 := @data Demo.collab 2 (snd run1)).
  assert (Hc := claim Demo.collab 0 st (snd run1) (snd run2) Demo.host_href
                  (fst run1) (fst run2) eq_refl eq_refl eq_refl).
  vm_compute in Hc. discriminate Hc.
Qed.

(* ===================================================================== *)
(** ** More on reading: failures, counters, the version token             *)
(* ===================================================================== *)

Section ReadingMore.

Context `{Collaborators}.

Lemma counters_add_body (rsp : Response) (w : World) :
  counters (add_body rsp w) = counters w.
Proof. unfold add_body. destruct (rsp_json rsp); reflexivity. Qed.

Lemma with_cache_known (st : State) (h : json) :
  known_href (self st) = Some h -> known_href (self (with_cache st)) = Some h.
Proof.
  unfold with_cache. destruct st as [[c nm m ca re] w]. simpl.
  destruct ca; intros E; exact E.
Qed.

Lemma with_cache_empty (st : State) :
  cache_empty (self st) -> cache (self (with_cache st)) = Some (mkCache None).
Proof.
  unfold with_cache, cache_empty. destruct st as [[c nm m ca re] w]. simpl.
  intros [-> | ->]; reflexivity.
Qed.

Lemma cache_attr_run (st : State) : cache_attr st = (Return tt, with_cache st).
Proof.
  unfold cache_attr, with_cache, bind, get_self.
  destruct st as [[c nm m ca re] w]. simpl. destruct ca; reflexivity.
Qed.

(** An answered fetch, as an equation. *)
Lemma refreshed_answered (st : State) (h : json) :
  rsp_msg (transport (log (world st)) (GET h)) = None ->
  refreshed st h =
  (match resource (self st),
         link_table_of (default JNull (rsp_json (transport (log (world st)) (GET h)))) with
   | None, Raise e => Raise e
   | _, _ => Return (Some (rsp_etag (transport (log (world st)) (GET h)),
                           body_ref (world st) (transport (log (world st)) (GET h))))
   end, after_read st h).
Proof.
  intros Hm. unfold refreshed, after_read. rewrite Hm.
  destruct st as [[c nm m ca re] w]. cbn [self world resource].
  destruct re as [res|].
  - repeat match goal with
           | |- context [match link_table_of ?x with _ => _ end] =>
               destruct (link_table_of x)
           end; reflexivity.
  - change (load (set_counters ?k ?w) ?p) with (load w p).
    rewrite load_add_body.
    repeat match goal with
           | |- context [match link_table_of ?x with _ => _ end] =>
               destruct (link_table_of x)
           end; reflexivity.
Qed.

(** A refused fetch, as an equation. *)
Lemma refreshed_refused (st : State) (h : json) (m : string) :
  rsp_msg (transport (log (world st)) (GET h)) = Some m ->
  refreshed st h =
  (Raise (Exn FetchElementFailed (Some m)),
   mkState (self st) (sent (GET h) (world (tick st)))).
Proof. intros Hm. unfold refreshed. rewrite Hm. reflexivity. Qed.

(** What the state after an answered fetch holds. *)
Lemma after_read_facts (st : State) (h : json) :
  let rsp := transport (log (world st)) (GET h) in
  cache (self (after_read st h))
  = Some (mkCache (Some (rsp_etag rsp, body_ref (world st) rsp))) /\
  log (world (after_read st h)) = log (world st) ++ [GET h] /\
  heap (world (after_read st h)) = heap (add_body rsp (world st)) /\
  meta (self (after_read st h)) = meta (self st) /\
  cls (self (after_read st h)) = cls (self st) /\
  _name (self (after_read st h)) = _name (self st) /\
  counters (world (after_read st h))
  = counters (world st) + match resource (self st) with Some _ => 1 | None => 2 end /\
  resource (self (after_read st h))
  = match resource (self st) with
    | Some res => Some res
    | None => match link_table_of (default JNull (rsp_json rsp)) with
              | Return res => Some res
              | Raise _ => None
              end
    end.
Proof.
  unfold after_read. destruct st as [[c nm m ca re] [hp lg k]].
  cbn [self world resource]. cbv zeta.
  assert (Hheap : forall w1 k1, heap (add_body (transport lg (GET h))
                                  (mkWorld hp w1 k1))
                  = heap (add_body (transport lg (GET h)) (mkWorld hp lg k))).
  { intros. unfold add_body. destruct (rsp_json _); reflexivity. }
  destruct re as [res|]; [|destruct (link_table_of _)];
    cbn [self world cache meta cls _name resource set_cache set_resource
         heap log counters set_counters sent set_log tick];
    rewrite ?log_add_body, ?counters_add_body;
    cbn [heap log counters];
    repeat split; try reflexivity; try apply Hheap; simpl; lia.
Qed.

(** [data] on an instance that holds nothing, whose read is answered. *)
Lemma data_read (n : nat) (st : State) (h : json) :
  known_href (self st) = Some h ->
  cache_empty (self st) ->
  rsp_msg (transport (log (world st)) (GET h)) = None ->
  data (S (S n)) st =
  (match resource (self st),
         link_table_of (default JNull (rsp_json (transport (log (world st)) (GET h)))) with
   | None, Raise e => Raise e
   | _, _ => Return (body_ref (world st) (transport (log (world st)) (GET h)))
   end, after_read (with_cache st) h).
Proof.
  intros Hh He Hm. rewrite (data_miss n st h Hh He).
  assert (Ew : mkState (set_cache (Some (mkCache None)) (self st)) (world st)
               = with_cache st).
  { unfold with_cache, cache_empty in *. destruct st as [[c nm m ca re] w]; simpl in *.
    destruct He as [-> | ->]; reflexivity. }
  rewrite Ew.
  assert (Ww : world (with_cache st) = world st /\ resource (self (with_cache st)) = resource (self st)).
  { unfold with_cache. destruct (cache (self st)); split; reflexivity. }
  destruct Ww as [Ww Wr].
  rewrite refreshed_answered by (rewrite Ww; exact Hm).
  rewrite Ww, Wr.
  destruct (resource (self st)); [reflexivity|].
  destruct (link_table_of _); reflexivity.
Qed.

(** X1.  An instance of a class derived from [Element], built from a name
    only, whose search finds nothing: [href] raises [ElementNotFound] after
    exactly one search and binds nothing, so the instance is as it was and
    the next access searches again. *)
Theorem href_not_found_binds_nothing (c : Class) (n : json) (k : string) (w : World) :
  cls_base c = IsElement ->
  cls_typeof c = Some k ->
  py_truthy (default JNull (rsp_json (transport (log w) (SEARCH n k)))) = false ->
  exists st1,
    href (mkState (Element___init__ c n) w) = (Raise (Exn ElementNotFound None), st1) /\
    self st1 = Element___init__ c n /\
    log (world st1) = log w ++ [SEARCH n k] /\
    forall o st2, href st1 = (o, st2) ->
      log (world st2) = log w ++ [SEARCH n k; SEARCH n k].
Proof.
  intros Hb Hk.
  assert (R : forall w0, exists st0 o0,
            href (mkState (Element___init__ c n) w0) = (o0, st0) /\
            log (world st0) = log w0 ++ [SEARCH n k] /\
            (py_truthy (default JNull (rsp_json (transport (log w0) (SEARCH n k)))) = false ->
             o0 = Raise (Exn ElementNotFound None) /\ self st0 = Element___init__ c n)).
  { intros w0. unfold href. cbn [self cls Element___init__]. rewrite Hb.
    rewrite ElementLocator_run. unfold Element___init__.
    cbn [self world meta cls _name]. rewrite Hk, Hb. cbv zeta.
    destruct (py_truthy (default JNull (rsp_json (transport (log w0) (SEARCH n k))))).
    - destruct (py_first _) as [first|e]; [destruct (Meta_of_kwargs first)|];
        eexists _, _; (split; [reflexivity|]); cbn [world]; rewrite log_add_body;
        (split; [reflexivity | intros D; discriminate D]).
    - eexists _, _. split; [reflexivity|]. cbn [world]. rewrite log_add_body.
      split; [reflexivity|]. intros _. split; reflexivity. }
  intros Hs.
  destruct (R w) as (st1 & o1 & E1 & L1 & F1). destruct (F1 Hs) as [-> S1].
  exists st1. split; [exact E1|]. split; [exact S1|]. split; [exact L1|].
  intros o st2 E2. destruct st1 as [i1 w1]. simpl in S1. subst i1.
  destruct (R w1) as (st0 & o0 & E0 & L0 & _). rewrite E0 in E2. inversion E2; subst.
  rewrite L0. simpl in L1. rewrite L1. rewrite <- app_assoc. reflexivity.
Qed.

(** X2.  A read that the SMC refuses is not cached: [data] raises
    [FetchElementFailed] with the message of the SMC, the cache still holds
    nothing and the link table is as it was, and the next access sends the
    fetch again. *)
Theorem data_refused_not_cached (n n' : nat) (st : State) (h : json) (m : string) :
  known_href (self st) = Some h ->
  cache_empty (self st) ->
  rsp_msg (transport (log (world st)) (GET h)) = Some m ->
  exists st1,
    data (S (S n)) st = (Raise (Exn FetchElementFailed (Some m)), st1) /\
    cache_empty (self st1) /\
    resource (self st1) = resource (self st) /\
    log (world st1) = log (world st) ++ [GET h] /\
    log (world (snd (data (S (S n')) st1))) = log (world st) ++ [GET h; GET h].
Proof.
  intros Hh He Hm. rewrite (data_miss n st h Hh He).
  rewrite (refreshed_refused (mkState (set_cache (Some (mkCache None)) (self st)) (world st)) h m Hm).
  eexists. split; [reflexivity|].
  assert (Hk : known_href (self st) = Some h) by exact Hh.
  split; [right; reflexivity|]. split; [reflexivity|]. split; [reflexivity|].
  match goal with |- log (world (snd (data _ ?s))) = _ => set (st1 := s) end.
  assert (Hh1 : known_href (self st1) = Some h)
    by (destruct st as [[c nm m0 ca re] w]; exact Hh).
  assert (He1 : cache_empty (self st1)) by (right; reflexivity).
  rewrite (data_miss n' st1 h Hh1 He1).
  destruct (refreshed _ h) as [o st2] eqn:Er.
  destruct (refreshed_facts _ _ _ _ Er) as (L & _).
  simpl. rewrite L. simpl. rewrite <- app_assoc. reflexivity.
Qed.

(** X3.  A read that is answered is cached even when the link table cannot
    be built from it (no body, or no usable [link] list): the first [data]
    access raises the error of the builder, yet token and payload are
    stored, and every later access returns that payload, [None] when there
    was no body, without a request. *)
Theorem data_cached_despite_bad_links (n n' : nat) (st : State) (h : json) (e : exn) :
  known_href (self st) = Some h ->
  cache_empty (self st) ->
  resource (self st) = None ->
  rsp_msg (transport (log (world st)) (GET h)) = None ->
  link_table_of (default JNull (rsp_json (transport (log (world st)) (GET h)))) = Raise e ->
  let rsp := transport (log (world st)) (GET h) in
  exists st1,
    data (S (S n)) st = (Raise e, st1) /\
    cache (self st1) = Some (mkCache (Some (rsp_etag rsp, body_ref (world st) rsp))) /\
    resource (self st1) = None /\
    log (world st1) = log (world st) ++ [GET h] /\
    data (S n') st1 = (Return (body_ref (world st) rsp), tick st1).
Proof.
  intros Hh He Hr Hm Hl rsp.
  subst rsp. rewrite (data_read n st h Hh He Hm). rewrite Hr, Hl.
  assert (Ww : world (with_cache st) = world st /\
               resource (self (with_cache st)) = resource (self st)).
  { unfold with_cache. destruct (cache (self st)); split; reflexivity. }
  destruct Ww as [Ww Wr].
  destruct (after_read_facts (with_cache st) h) as (A1 & A2 & _ & _ & _ & _ & _ & A8).
  rewrite Ww in A1, A2, A8. rewrite Wr in A8. rewrite Hr, Hl in A8.
  eexists. split; [reflexivity|]. split; [exact A1|]. split; [exact A8|].
  split; [exact A2|]. apply (data_hit n' _ _ _ A1).
Qed.

(** X4.  [counters['cache']] counts the calls of the cache, not the
    fetches: a first [data] access that returns adds one fetch and two
    calls when it also builds the link table (the builder reads [data]
    again), one call when the table was there; an access on a populated
    cache adds one call and no request. *)
Theorem counters_count_calls (n n' : nat) (st st1 : State) (h : json) (p : option ref) :
  known_href (self st) = Some h ->
  cache_empty (self st) ->
  data (S (S n)) st = (Return p, st1) ->
  counters (world st1)
  = counters (world st) + match resource (self st) with Some _ => 1 | None => 2 end /\
  fetch_calls (log (world st1)) = S (fetch_calls (log (world st))) /\
  counters (world (snd (data (S n') st1))) = S (counters (world st1)) /\
  log (world (snd (data (S n') st1))) = log (world st1).
Proof.
  intros Hh He Hd.
  destruct (rsp_msg (transport (log (world st)) (GET h))) as [m|] eqn:Hm.
  { rewrite (data_miss n st h Hh He) in Hd.
    rewrite (refreshed_refused (mkState (set_cache (Some (mkCache None)) (self st)) (world st)) h m Hm) in Hd.
    discriminate Hd. }
  rewrite (data_read n st h Hh He Hm) in Hd.
  assert (Ww : world (with_cache st) = world st /\
               resource (self (with_cache st)) = resource (self st)).
  { unfold with_cache. destruct (cache (self st)); split; reflexivity. }
  destruct Ww as [Ww Wr].
  destruct (after_read_facts (with_cache st) h) as (A1 & A2 & _ & _ & _ & _ & A7 & _).
  rewrite Ww in A1, A2, A7. rewrite Wr in A7.
  assert (Hs : st1 = after_read (with_cache st) h) by (inversion Hd; reflexivity).
  subst st1.
  split; [exact A7|]. split; [rewrite A2; apply fetch_calls_GET|].
  rewrite (data_hit n' _ _ _ A1). split; reflexivity.
Qed.

End ReadingMore.

Section TokenMore.

Context `{Collaborators}.

Lemma Cache_etag_token (fuel : nat) (st st1 : State) (tg : string) (p : option ref) :
  Cache___call__ fuel false st = (Return (Some (Some tg, p)), st1) ->
  cache (self st1) = Some (mkCache (Some (Some tg, p))) ->
  Cache_etag fuel st = (Return (Some tg), st1).
Proof.
  intros Hc Hca. unfold Cache_etag. rewrite (bind_Return _ _ _ _ _ Hc).
  destruct st1 as [[c nm m ca re] w]. simpl in Hca. subst ca. reflexivity.
Qed.

Lemma Cache_etag_tokenless (fuel : nat) (st st1 : State) (p : option ref) (h : json) :
  Cache___call__ fuel false st = (Return (Some (None, p)), st1) ->
  cache (self st1) = Some (mkCache (Some (None, p))) ->
  known_href (self st1) = Some h ->
  Cache_etag fuel st =
  match rsp_msg (transport (log (world st1)) (GET h)) with
  | Some m => (Raise (Exn FetchElementFailed (Some m)),
               mkState (self st1) (sent (GET h) (world st1)))
  | None =>
      (Return (rsp_etag (transport (log (world st1)) (GET h))),
       mkState (set_cache (Some (mkCache (Some (rsp_etag (transport (log (world st1)) (GET h)), p))))
                          (self st1))
               (add_body (transport (log (world st1)) (GET h)) (sent (GET h) (world st1))))
  end.
Proof.
  intros Hc Hca Hh. unfold Cache_etag. rewrite (bind_Return _ _ _ _ _ Hc).
  destruct st1 as [[c nm m ca re] [hp lg k]]. simpl in Hca. subst ca.
  assert (Hhref : forall ca' re' w', href (mkState (mkInstance c nm m ca' re') w')
                          = (Return h, mkState (mkInstance c nm m ca' re') w')).
  { intros. apply href_known. exact Hh. }
  pyeval. rewrite Hhref.
  destruct (rsp_msg (transport lg (GET h))) as [m0|] eqn:Em.
  - erewrite request_refused by exact Em. reflexivity.
  - erewrite request_answered by exact Em. reflexivity.
Qed.

(** The call of the cache on an instance that holds nothing, when the read
    is answered and the link table is there or can be built. *)
Lemma Cache_call_read (n : nat) (st : State) (h : json) :
  known_href (self st) = Some h ->
  cache_empty (self st) ->
  rsp_msg (transport (log (world st)) (GET h)) = None ->
  (resource (self st) = None ->
   raised (link_table_of (default JNull (rsp_json (transport (log (world st)) (GET h)))))
   = false) ->
  Cache___call__ (S (S n)) false (with_cache st)
  = (Return (Some (rsp_etag (transport (log (world st)) (GET h)),
                   body_ref (world st) (transport (log (world st)) (GET h)))),
     after_read (with_cache st) h).
Proof.
  intros Hh He Hm Hl.
  assert (Ww : world (with_cache st) = world st /\
               resource (self (with_cache st)) = resource (self st)).
  { unfold with_cache. destruct (cache (self st)); split; reflexivity. }
  destruct Ww as [Ww Wr].
  rewrite (Cache_call_refresh n false (with_cache st) h None
             (with_cache_known st h Hh) (with_cache_empty st He) (or_introl eq_refl)).
  rewrite refreshed_answered by (rewrite Ww; exact Hm).
  rewrite Ww, Wr.
  destruct (resource (self st)); [reflexivity|].
  specialize (Hl eq_refl). destruct (link_table_of _); [reflexivity | discriminate Hl].
Qed.

(** X5.  The version token of an instance whose href is known and whose
    cache holds nothing: when the read is answered with a token, and the
    link table is there already or can be built from the payload of the
    answer, [etag] returns that token after exactly one fetch, and the
    payload of the same answer is cached, so a [data] access afterwards
    sends nothing. *)
Theorem etag_first_read (n n' : nat) (st : State) (h : json) (t : string) :
  known_href (self st) = Some h ->
  cache_empty (self st) ->
  rsp_msg (transport (log (world st)) (GET h)) = None ->
  rsp_etag (transport (log (world st)) (GET h)) = Some t ->
  (resource (self st) = None ->
   raised (link_table_of (default JNull (rsp_json (transport (log (world st)) (GET h)))))
   = false) ->
  exists st1,
    etag (S (S n)) st = (Return (Some t), st1) /\
    log (world st1) = log (world st) ++ [GET h] /\
    data (S n') st1
    = (Return (body_ref (world st) (transport (log (world st)) (GET h))), tick st1).
Proof.
  intros Hh He Hm Ht Hl.
  assert (Ww : world (with_cache st) = world st).
  { unfold with_cache. destruct (cache (self st)); reflexivity. }
  destruct (after_read_facts (with_cache st) h) as (A1 & A2 & _).
  rewrite Ww in A1, A2. rewrite Ht in A1.
  assert (Hc := Cache_call_read n st h Hh He Hm Hl). rewrite Ht in Hc.
  exists (after_read (with_cache st) h). split; [|split].
  - unfold etag. rewrite (bind_Return _ _ _ _ _ (cache_attr_run st)).
    apply (Cache_etag_token _ _ _ _ _ Hc A1).
  - exact A2.
  - apply (data_hit n' _ _ _ A1).
Qed.

(** X6.  An instance whose href is known and whose cache holds nothing:
    when the first read is answered without a version token, the link
    table is there already or can be built from the payload of that
    answer, and the second read is answered too, [etag] reads a second
    time and returns the token of the second answer; the payload kept in
    the cache is the one of the first answer. *)
Theorem etag_tokenless_reads_twice (n : nat) (st : State) (h : json) :
  known_href (self st) = Some h ->
  cache_empty (self st) ->
  rsp_msg (transport (log (world st)) (GET h)) = None ->
  rsp_etag (transport (log (world st)) (GET h)) = None ->
  (resource (self st) = None ->
   raised (link_table_of (default JNull (rsp_json (transport (log (world st)) (GET h)))))
   = false) ->
  rsp_msg (transport (log (world st) ++ [GET h]) (GET h)) = None ->
  exists st1,
    etag (S (S n)) st
    = (Return (rsp_etag (transport (log (world st) ++ [GET h]) (GET h))), st1) /\
    log (world st1) = log (world st) ++ [GET h; GET h] /\
    cache (self st1)
    = Some (mkCache (Some (rsp_etag (transport (log (world st) ++ [GET h]) (GET h)),
                           body_ref (world st) (transport (log (world st)) (GET h))))).
Proof.
  intros Hh He Hm Ht Hl Hm2.
  assert (Ww : world (with_cache st) = world st).
  { unfold with_cache. destruct (cache (self st)); reflexivity. }
  destruct (after_read_facts (with_cache st) h) as (A1 & A2 & _ & A4 & A5 & _).
  rewrite Ww in A1, A2. rewrite Ht in A1.
  assert (Hc := Cache_call_read n st h Hh He Hm Hl). rewrite Ht in Hc.
  assert (Hk : known_href (self (after_read (with_cache st) h)) = Some h).
  { unfold known_href. rewrite A4, A5. exact (with_cache_known st h Hh). }
  eexists. split; [|split].
  - unfold etag. rewrite (bind_Return _ _ _ _ _ (cache_attr_run st)).
    rewrite (Cache_etag_tokenless _ _ _ _ h Hc A1 Hk). rewrite A2, Hm2. reflexivity.
  - cbn [world]. rewrite log_add_body. simpl. rewrite A2, <- app_assoc. reflexivity.
  - reflexivity.
Qed.

(** X7.  [delete()] on an instance whose href is known and whose cache
    holds nothing, when the read is answered with a version token and the
    link table is there already or can be built from the payload of the
    answer: the token is fetched first, then the delete is sent with the
    token of that answer; two requests in this order, and a rejection of
    the delete is raised as [DeleteElementFailed]. *)
Theorem delete_unread_fetches_token (n : nat) (st : State) (h : json) (t : string) :
  known_href (self st) = Some h ->
  cache_empty (self st) ->
  rsp_msg (transport (log (world st)) (GET h)) = None ->
  rsp_etag (transport (log (world st)) (GET h)) = Some t ->
  (resource (self st) = None ->
   raised (link_table_of (default JNull (rsp_json (transport (log (world st)) (GET h)))))
   = false) ->
  exists o st1,
    delete (S (S n)) st = (o, st1) /\
    log (world st1) = log (world st) ++ [GET h; DELETE h (Some t)] /\
    o = match rsp_msg (transport (log (world st) ++ [GET h]) (DELETE h (Some t))) with
        | Some m => Raise (Exn DeleteElementFailed (Some m))
        | None => Return tt
        end.
Proof.
  intros Hh He Hm Ht Hl.
  assert (Ww : world (with_cache st) = world st).
  { unfold with_cache. destruct (cache (self st)); reflexivity. }
  destruct (after_read_facts (with_cache st) h) as (A1 & A2 & _).
  rewrite Ww in A1, A2. rewrite Ht in A1.
  assert (Hc := Cache_call_read n st h Hh He Hm Hl). rewrite Ht in Hc.
  assert (Et : etag (S (S n)) st = (Return (Some t), after_read (with_cache st) h)).
  { unfold etag. rewrite (bind_Return _ _ _ _ _ (cache_attr_run st)).
    apply (Cache_etag_token _ _ _ _ _ Hc A1). }
  unfold delete. rewrite (bind_Return _ _ _ _ _ (href_known st h Hh)).
  rewrite (bind_Return _ _ _ _ _ Et).
  destruct (rsp_msg (transport (log (world st) ++ [GET h]) (DELETE h (Some t))))
    as [m|] eqn:Em.
  - erewrite bind_Raise.
    2:{ unfold liftW. erewrite request_refused by (rewrite A2; exact Em). reflexivity. }
    eexists _, _. split; [reflexivity|]. split; [|reflexivity].
    simpl. rewrite A2, <- app_assoc. reflexivity.
  - erewrite bind_Return.
    2:{ unfold liftW. erewrite request_answered by (rewrite A2; exact Em). reflexivity. }
    eexists _, _. split; [reflexivity|]. split; [|reflexivity].
    cbn [world]. rewrite log_add_body. simpl. rewrite A2, <- app_assoc. reflexivity.
Qed.

End TokenMore.

(* ===================================================================== *)
(** ** More on update                                                     *)
(* ===================================================================== *)

Section UpdateMore.

Context `{Collaborators}.

(** X8.  After an update that the SMC accepted, the cache entry is gone
    and nothing was put in its place: [update()] returns the href of the
    answer, and the next [data] access sends a fetch, directly after the
    write. *)
Theorem update_then_data_refetches (n n' : nat) (st : State) (h : json)
        (tag : string) (r : ref) (j : json) :
  known_href (self st) = Some h ->
  populated (self st) tag r ->
  heap (world st) !! r = Some j ->
  rsp_msg (transport (log (world st)) (PUT h (Some j) (Some tag))) = None ->
  exists st1,
    update (S n) None None None None st
    = (Return (rsp_href (transport (log (world st)) (PUT h (Some j) (Some tag)))), st1) /\
    cache (self st1) = None /\
    log (world st1) = log (world st) ++ [PUT h (Some j) (Some tag)] /\
    log (world (snd (data (S (S n')) st1)))
    = log (world st) ++ [PUT h (Some j) (Some tag); GET h].
Proof.
  intros Hh Hp Hr Hm. rewrite (update_run n None st h tag r j Hh Hp Hr).
  cbv zeta. rewrite Hm. eexists. split; [reflexivity|].
  split; [reflexivity|].
  match goal with |- log (world ?s) = _ /\ _ => set (st1 := s) end.
  assert (L1 : log (world st1) = log (world st) ++ [PUT h (Some j) (Some tag)]).
  { subst st1. cbn [world]. rewrite log_add_body. reflexivity. }
  split; [exact L1|].
  assert (Hh1 : known_href (self st1) = Some h)
    by (destruct st as [[c nm m0 ca re] w]; exact Hh).
  assert (He1 : cache_empty (self st1)) by (left; reflexivity).
  rewrite (data_miss n' st1 h Hh1 He1).
  destruct (refreshed _ h) as [o st2] eqn:Er.
  destruct (refreshed_facts _ _ _ _ Er) as (L & _).
  simpl. rewrite L. cbn [world]. fold (world st1). rewrite L1, <- app_assoc. reflexivity.
Qed.

(** X9.  [update()] called with all three keywords on an instance whose
    [cache] attribute was never read or set: [del self.cache] finds nothing
    to delete, so [AttributeError] is raised and nothing is sent. *)
Theorem update_keywords_without_cache (fuel : nat) (exc : option exn_class)
        (st : State) (h : json) (j : option ref) (e : option string) :
  cache (self st) = None ->
  update fuel exc (Some h) (Some j) (Some e) st = (Raise (Exn AttributeError None), st).
Proof.
  intros Hc. destruct st as [[c nm m ca re] w]. simpl in Hc. subst ca. reflexivity.
Qed.

(** X10.  The exception class handed to [update()] is the one raised when
    the SMC rejects the write; the cache entry is deleted all the same. *)
Theorem update_raises_given_class (n : nat) (E : exn_class) (st : State) (h : json)
        (tag : string) (r : ref) (j : json) (m : string) :
  known_href (self st) = Some h ->
  populated (self st) tag r ->
  heap (world st) !! r = Some j ->
  rsp_msg (transport (log (world st)) (PUT h (Some j) (Some tag))) = Some m ->
  exists st1,
    update (S n) (Some E) None None None st = (Raise (Exn E (Some m)), st1) /\
    cache (self st1) = None /\
    log (world st1) = log (world st) ++ [PUT h (Some j) (Some tag)].
Proof.
  intros Hh Hp Hr Hm. rewrite (update_run n (Some E) st h tag r j Hh Hp Hr).
  cbv zeta. rewrite Hm. eexists. split; [reflexivity|]. split; reflexivity.
Qed.

(** X11.  On an instance whose href is known and whose [cache] attribute
    exists (it was read or set before), a payload and a version token given
    to [update()] are sent as they are: the cached payload is not copied,
    the cached token is not consulted and the write carries the caller's
    token, whatever the cache holds; the cache entry is deleted before the
    request. *)
Theorem update_sends_given_payload_and_token (fuel : nat) (st : State) (h : json)
        (c0 : Cache) (p : ref) (body : json) (e : option string) :
  known_href (self st) = Some h ->
  cache (self st) = Some c0 ->
  heap (world st) !! p = Some body ->
  exists o st1,
    update fuel None None (Some (Some p)) (Some e) st = (o, st1) /\
    log (world st1) = log (world st) ++ [PUT h (Some body) e] /\
    cache (self st1) = None /\
    counters (world st1) = counters (world st) /\
    o = match rsp_msg (transport (log (world st)) (PUT h (Some body) e)) with
        | Some m => Raise (Exn UpdateElementFailed (Some m))
        | None => Return (rsp_href (transport (log (world st)) (PUT h (Some body) e)))
        end.
Proof.
  intros Hh Hc Hp.
  assert (E : update fuel None None (Some (Some p)) (Some e) st =
              match rsp_msg (transport (log (world st)) (PUT h (Some body) e)) with
              | Some m => (Raise (Exn UpdateElementFailed (Some m)),
                           mkState (set_cache None (self st))
                                   (sent (PUT h (Some body) e) (world st)))
              | None => (Return (rsp_href (transport (log (world st)) (PUT h (Some body) e))),
                         mkState (set_cache None (self st))
                                 (add_body (transport (log (world st)) (PUT h (Some body) e))
                                           (sent (PUT h (Some body) e) (world st))))
              end).
  { destruct st as [[c nm m ca re] [hp lg k]]. simpl in Hc, Hp. subst ca.
    assert (Hhref : forall ca' re' w', href (mkState (mkInstance c nm m ca' re') w')
                            = (Return h, mkState (mkInstance c nm m ca' re') w')).
    { intros. apply href_known. exact Hh. }
    unfold update. rewrite (bind_Return _ _ _ _ _ (Hhref _ _ _)).
    unfold load. pyeval. rewrite Hp.
    cbv beta iota delta [default from_option id].
    destruct (rsp_msg (transport lg (PUT h (Some body) e))) as [m0|] eqn:Em.
    - erewrite request_refused by exact Em. reflexivity.
    - erewrite request_answered by exact Em. reflexivity. }
  rewrite E.
  destruct (rsp_msg (transport (log (world st)) (PUT h (Some body) e))) as [m0|].
  - eexists _, _. split; [reflexivity|]. repeat split; reflexivity.
  - eexists _, _. split; [reflexivity|].
    cbn [world self cache set_cache]. rewrite log_add_body, counters_add_body.
    repeat split; reflexivity.
Qed.

End UpdateMore.

(* ===================================================================== *)
(** ** Building instances from identities                                 *)
(* ===================================================================== *)

Section Keywords.

Lemma assoc_get_remove_ne {V} (k k' : string) (d : list (string * V)) :
  k <> k' -> assoc_get k' (assoc_remove k d) = assoc_get k' d.
Proof.
  intros Hne. induction d as [|[k0 v] d IH]; simpl; [reflexivity|].
  destruct (String.eqb_spec k k0) as [->|Hk].
  - rewrite IH. destruct (String.eqb_spec k' k0) as [->|]; [congruence | reflexivity].
  - simpl. rewrite IH. reflexivity.
Qed.

Lemma assoc_get_set_eq {V} (k : string) (v : V) (d : list (string * V)) :
  assoc_get k (assoc_set k v d) = Some v.
Proof.
  induction d as [|[k0 v0] d IH]; simpl.
  - rewrite String.eqb_refl. reflexivity.
  - destruct (String.eqb_spec k k0) as [->|Hk]; simpl.
    + rewrite String.eqb_refl. reflexivity.
    + destruct (String.eqb_spec k k0); [congruence | exact IH].
Qed.

Lemma assoc_get_set_ne {V} (k k' : string) (v : V) (d : list (string * V)) :
  k <> k' -> assoc_get k' (assoc_set k v d) = assoc_get k' d.
Proof.
  intros Hne. induction d as [|[k0 v0] d IH]; simpl.
  - destruct (String.eqb_spec k' k); [congruence | reflexivity].
  - destruct (String.eqb_spec k k0) as [->|Hk]; simpl.
    + destruct (String.eqb_spec k' k0); [congruence | reflexivity].
    + rewrite IH. reflexivity.
Qed.

Lemma assoc_remove_absent {V} (k : string) (d : list (string * V)) :
  assoc_get k d = None -> assoc_remove k d = d.
Proof.
  induction d as [|[k0 v] d IH]; simpl; [reflexivity|].
  destruct (String.eqb k k0); [discriminate|]. intros E. rewrite (IH E). reflexivity.
Qed.

Lemma forallb_assoc_remove {V} (P : string * V -> bool) (k : string) (d : list (string * V)) :
  forallb P d = true -> forallb P (assoc_remove k d) = true.
Proof.
  induction d as [|[k0 v] d IH]; simpl; [reflexivity|].
  intros E. apply andb_prop in E. destruct E as [E1 E2].
  destruct (String.eqb k k0); [exact (IH E2)|].
  simpl. rewrite E1. exact (IH E2).
Qed.

Lemma forallb_assoc_set {V} (P : string * V -> bool) (k : string) (v : V)
      (d : list (string * V)) :
  (forall k0 v0, P (k0, v0) = P (k0, v)) ->
  P (k, v) = true -> forallb P d = true -> forallb P (assoc_set k v d) = true.
Proof.
  intros Hkey Hp. induction d as [|[k0 v0] d IH]; simpl.
  - intros _. rewrite Hp. reflexivity.
  - intros E. apply andb_prop in E. destruct E as [E1 E2].
    destruct (String.eqb k k0); simpl.
    + rewrite <- (Hkey k0 v0), E1, E2. reflexivity.
    + rewrite E1. exact (IH E2).
Qed.

(** The keywords [Meta] accepts. *)
Lemma Meta_of_kwargs_inv (d : list (string * json)) (m : Meta) :
  Meta_of_kwargs (JDict d) = Return m ->
  forallb (fun kv => String.eqb (fst kv) "name" || String.eqb (fst kv) "href"
                     || String.eqb (fst kv) "type") d = true /\
  assoc_get "href" d = Some (m_href m) /\
  m_name m = default JNull (assoc_get "name" d) /\
  m_type m = default JNull (assoc_get "type" d).
Proof.
  unfold Meta_of_kwargs.
  destruct (forallb _ d) eqn:Ek; [|discriminate].
  destruct (assoc_get "href" d) as [h|]; [|discriminate].
  intros E. inversion E; subst. repeat split; reflexivity.
Qed.

Lemma meta_keys_no_meta (d : list (string * json)) :
  forallb (fun kv => String.eqb (fst kv) "name" || String.eqb (fst kv) "href"
                     || String.eqb (fst kv) "type") d = true ->
  assoc_get "meta" d = None.
Proof.
  induction d as [|[k v] d IH]; cbn [forallb assoc_get fst]; [reflexivity|].
  intros E. apply andb_prop in E. destruct E as [E1 E2].
  destruct (String.eqb_spec "meta" k) as [<-|]; [|exact (IH E2)].
  vm_compute in E1. discriminate E1.
Qed.

Lemma ElementBase_init_identity (d : list (string * json)) (m : Meta) :
  Meta_of_kwargs (JDict d) = Return m ->
  ElementBase___init__ d = Return (Some m).
Proof.
  intros Hm. destruct (Meta_of_kwargs_inv d m Hm) as (Hk & Hh & _).
  unfold ElementBase___init__. rewrite (meta_keys_no_meta d Hk).
  change (py_truthy (default JNull None)) with false. cbv iota.
  rewrite (assoc_remove_absent "meta" d (meta_keys_no_meta d Hk)).
  destruct d as [|x d']; [discriminate Hh|]. rewrite Hm. reflexivity.
Qed.

(** The keywords of an identity, with [name] taken out as the first
    parameter and put back by [Element.__init__], give the same [Meta]. *)
Lemma Meta_of_kwargs_name_back (d : list (string * json)) (m : Meta) (n : json) :
  Meta_of_kwargs (JDict d) = Return m ->
  assoc_get "name" d = Some n ->
  Meta_of_kwargs (JDict (assoc_set "name" n (assoc_remove "name" d))) = Return m /\
  assoc_remove "name" d <> [].
Proof.
  intros Hm Hn. destruct (Meta_of_kwargs_inv d m Hm) as (Hk & Hh & Hnm & Hty).
  assert (Hh' : assoc_get "href" (assoc_set "name" n (assoc_remove "name" d))
                = Some (m_href m)).
  { rewrite assoc_get_set_ne by discriminate.
    rewrite assoc_get_remove_ne by discriminate. exact Hh. }
  split.
  - unfold Meta_of_kwargs.
    rewrite forallb_assoc_set;
      [| intros; reflexivity | reflexivity | apply forallb_assoc_remove; exact Hk].
    rewrite Hh'. rewrite assoc_get_set_eq.
    rewrite assoc_get_set_ne by discriminate.
    rewrite assoc_get_remove_ne by discriminate.
    destruct m as [mn mh mt]. simpl in *. rewrite Hnm, Hty, Hn. reflexivity.
  - intros E. assert (X : assoc_get "href" (assoc_remove "name" d) = Some (m_href m)).
    { rewrite assoc_get_remove_ne by discriminate. exact Hh. }
    rewrite E in X. discriminate X.
Qed.

End Keywords.

Section Identities.

Context `{Collaborators}.

Lemma new_instance_identity (c : Class) (d : list (string * json)) (m : Meta)
      (n : json) :
  Meta_of_kwargs (JDict d) = Return m ->
  assoc_get "name" d = Some n ->
  new_instance c d
  = Return (mkInstance c (match cls_base c with IsElement => n | IsSubElement => JNull end)
                       (Some m) None None).
Proof.
  intros Hm Hn. unfold new_instance. destruct (cls_base c).
  - rewrite Hn. unfold Element___init__kw.
    destruct (Meta_of_kwargs_name_back d m n Hm Hn) as [Hb Hne].
    destruct (assoc_remove "name" d) as [|x l] eqn:Er; [congruence|].
    rewrite (ElementBase_init_identity _ m Hb). reflexivity.
  - rewrite (ElementBase_init_identity d m Hm). reflexivity.
Qed.

(** The constructor call of the factory is the general one at the three
    keywords. *)
Lemma new_instance_construct (c : Class) (n h t : json) :
  new_instance c [("name", n); ("href", h); ("type", t)] = Return (construct c n h t).
Proof. unfold new_instance, construct. destruct (cls_base c); reflexivity. Qed.

(** X12.  [Element.from_meta] on the keywords of an identity (as a search
    returns it, with its name): the instance is of the class registered
    for the type, [Element] when none is, it is bound to exactly that
    identity, and its href is read without any request. *)
Theorem from_meta_binds_identity (d : list (string * json)) (m : Meta) (n : json)
        (c : Class) (w : World) :
  Meta_of_kwargs (JDict d) = Return m ->
  assoc_get "name" d = Some n ->
  lookup_class (m_type m) = Return c ->
  exists i,
    from_meta d = Return i /\
    cls i = c /\
    meta i = Some m /\
    (forall t, m_type m = JStr t -> c = default Element (registry !! t)) /\
    href (mkState i w) = (Return (m_href m), mkState i w).
Proof.
  intros Hm Hn Hc. destruct (Meta_of_kwargs_inv d m Hm) as (_ & _ & _ & Hty).
  eexists. split.
  - unfold from_meta. rewrite <- Hty, Hc. apply (new_instance_identity c d m n Hm Hn).
  - split; [reflexivity|]. split; [reflexivity|]. split.
    + intros t Ht. rewrite Ht in Hc. simpl in Hc. inversion Hc. reflexivity.
    + apply href_known. unfold known_href. simpl.
      destruct (cls_base c); reflexivity.
Qed.

(** X13.  [Element.from_meta] on keywords without a name, when the class
    found for the type derives from [Element]: the constructor lacks its
    first parameter and [TypeError] is raised. *)
Theorem from_meta_without_name (d : list (string * json)) (c : Class) :
  assoc_get "name" d = None ->
  lookup_class (default JNull (assoc_get "type" d)) = Return c ->
  cls_base c = IsElement ->
  from_meta d = Raise (Exn TypeError None).
Proof.
  intros Hn Hc Hb. unfold from_meta, new_instance. rewrite Hc, Hb, Hn. reflexivity.
Qed.

(** X14.  [Element(name, meta=d)]: a truthy [d] alone is unpacked into the
    identity, so the name given as first parameter does not enter it; an
    empty or missing [d] leaves the name as only keyword, and [Meta],
    lacking an href, raises [TypeError]. *)
Theorem Element_init_meta_keyword (c : Class) (n d : json) :
  (py_truthy d = true ->
   Element___init__kw c n [("meta", d)]
   = match Meta_of_kwargs d with
     | Return m => Return (mkInstance c n (Some m) None None)
     | Raise e => Raise e
     end) /\
  (py_truthy d = false ->
   Element___init__kw c n [("meta", d)] = Raise (Exn TypeError None)).
Proof.
  split; intros Ht; unfold Element___init__kw, ElementBase___init__; simpl;
    rewrite Ht; [destruct (Meta_of_kwargs d)|]; reflexivity.
Qed.

Lemma from_meta_all_identities (tags : list json) :
  Forall (fun tag => exists d m n c,
            tag = JDict d /\ Meta_of_kwargs tag = Return m /\
            assoc_get "name" d = Some n /\ lookup_class (m_type m) = Return c) tags ->
  exists insts,
    from_meta_all tags = Return insts /\
    Forall2 (fun tag i => Meta_of_kwargs tag = Return (default (mkMeta JNull JNull JNull) (meta i))
                          /\ meta i <> None
                          /\ lookup_class (m_type (default (mkMeta JNull JNull JNull) (meta i)))
                             = Return (cls i))
            tags insts.
Proof.
  induction 1 as [|tag tags (d & m & n & c & -> & Hm & Hn & Hc) _ (insts & E & F)].
  - exists []. split; [reflexivity | constructor].
  - destruct (from_meta_binds_identity d m n c (mkWorld [] [] 0) Hm Hn Hc)
      as (i & Ei & Ci & Mi & _).
    exists (i :: insts). split.
    + simpl. rewrite Ei, E. reflexivity.
    + constructor; [|exact F]. rewrite Mi. simpl. rewrite Ci.
      split; [exact Hm|]. split; [discriminate | exact Hc].
Qed.

End Identities.

(* ===================================================================== *)
(** ** More on the factory, and creation                                  *)
(* ===================================================================== *)

Section FactoryMore.

Context `{Collaborators} `{EntryPoints}.

(** X15.  [ElementFactory] raises when the read yields a body that is not
    empty and is not a mapping (a list, say): the body has no [get], so
    [AttributeError] is raised after the one read and no instance is
    returned. *)
Theorem ElementFactory_body_not_a_mapping (h : json) (w : World) (body : json) :
  rsp_json (transport (log w) (GET h)) = Some body ->
  py_truthy body = true ->
  (forall d, body <> JDict d) ->
  exists w',
    ElementFactory h w = (Raise (Exn AttributeError None), w') /\
    log w' = log w ++ [GET h].
Proof.
  intros Hb Ht Hd.
  exists (add_body (transport (log w) (GET h)) (sent (GET h) w)). split.
  - unfold ElementFactory. pyeval. rewrite request_unchecked.
    cbn [r_json]. rewrite load_add_body. rewrite Hb.
    change (default JNull (Some body)) with body. rewrite Ht.
    destruct body; try reflexivity. exfalso. eapply Hd. reflexivity.
  - rewrite log_add_body. reflexivity.
Qed.

(** X16.  The instance [ElementFactory(h)] returns is bound to the name of
    the payload, to [h] itself and to the kind found, so its href is [h]
    without a request; it has no link table yet, and the first access to
    [resource] builds the table from the seeded payload, again without a
    request. *)
Theorem ElementFactory_identity_and_links (n : nat) (h : json) (w : World)
        (body lnk t : json) (c : Class) (res : ElementResource) :
  rsp_json (transport (log w) (GET h)) = Some body ->
  py_truthy body = true ->
  py_get body "link" = Return lnk ->
  find_type_from_self lnk = Return t ->
  lookup_class t = Return c ->
  link_table_of body = Return res ->
  exists e w' nm,
    ElementFactory h w = (Return (Some e), w') /\
    py_get body "name" = Return nm /\
    cls e = c /\
    meta e = Some (mkMeta nm h t) /\
    resource e = None /\
    href (mkState e w') = (Return h, mkState e w') /\
    exists st2,
      resource_of (S n) (mkState e w') = (Return res, st2) /\
      resource (self st2) = Some res /\
      log (world st2) = log w ++ [GET h].
Proof.
  intros Hb Ht Hl Hf Hc Hr.
  assert (Hn : exists nm, py_get body "name" = Return nm).
  { destruct body; try discriminate. eexists; reflexivity. }
  destruct Hn as [nm Hn].
  set (rsp := transport (log w) (GET h)) in *.
  set (e := set_cache (Some (mkCache (Some (rsp_etag rsp, Some (length (heap w))))))
              (construct c nm h t)).
  set (w' := add_body rsp (sent (GET h) w)).
  assert (Hload : load w' (Some (length (heap w))) = body).
  { subst w'. unfold load, add_body. rewrite Hb. simpl.
    rewrite lookup_app_r by lia. rewrite Nat.sub_diag. reflexivity. }
  exists e, w', nm.
  split.
  { unfold ElementFactory. pyeval. rewrite request_unchecked. fold rsp.
    cbn [r_json r_etag]. rewrite load_add_body. rewrite Hb.
    change (default JNull (Some body)) with body.
    rewrite Ht, Hl, Hf, Hc, Hn.
    unfold body_ref. rewrite Hb. reflexivity. }
  split; [exact Hn|]. split; [reflexivity|]. split; [reflexivity|].
  split; [reflexivity|]. split.
  { apply href_known. unfold known_href. simpl. destruct (cls_base c); reflexivity. }
  eexists. split.
  - unfold resource_of, resource_attr, resource_func.
    rewrite (bind_Return get_self _ (mkState e w') e (mkState e w') eq_refl).
    change (resource e) with (@None ElementResource). cbv iota.
    rewrite bind_bind.
    rewrite (bind_Return _ _ _ _ _
               (data_hit n (mkState e w') (rsp_etag rsp) (Some (length (heap w))) eq_refl)).
    rewrite bind_bind.
    assert (Hstep : (fun st : State =>
                       (Return (load (world st) (Some (length (heap w)))), st))
                      (tick (mkState e w'))
                    = (Return body, tick (mkState e w'))).
    { cbv beta. f_equal. f_equal. exact Hload. }
    rewrite (bind_Return _ _ _ _ _ Hstep).
    unfold bind, lift. rewrite Hr. reflexivity.
  - split; [reflexivity|]. simpl. subst w'. rewrite log_add_body. reflexivity.
Qed.

(** X17.  [ElementCreator] sends exactly one create request, to the entry
    point of the class's [typeof] and with the given body; when the result
    carries a message that is not empty it raises [CreateElementFailed]
    with that message, and nothing is sent a second time. *)
Theorem ElementCreator_reports_failure (c : Class) (body : json) (w : World)
        (t : string) (entry : json) (m : string) :
  cls_typeof c = Some t ->
  fetch_entry_point t = Return entry ->
  rsp_msg (transport (log w) (POST entry (Some body))) = Some m ->
  m <> EmptyString ->
  exists w',
    ElementCreator c body w = (Raise (Exn CreateElementFailed (Some m)), w') /\
    log w' = log w ++ [POST entry (Some body)].
Proof.
  intros Ht He Hm Hne.
  exists (add_body (transport (log w) (POST entry (Some body)))
                   (sent (POST entry (Some body)) w)).
  split; [|rewrite log_add_body; reflexivity].
  unfold ElementCreator. rewrite Ht. pyeval. rewrite He. rewrite request_unchecked.
  cbn [r_msg]. rewrite Hm. unfold msg_truthy.
  destruct (String.eqb_spec m EmptyString); [congruence | reflexivity].
Qed.

(** X18.  When the result of the create request carries no message, or an
    empty one, [ElementCreator] returns the href of the result, after the
    same single request. *)
Theorem ElementCreator_returns_href (c : Class) (body : json) (w : World)
        (t : string) (entry : json) :
  cls_typeof c = Some t ->
  fetch_entry_point t = Return entry ->
  msg_truthy (rsp_msg (transport (log w) (POST entry (Some body)))) = false ->
  exists w',
    ElementCreator c body w
    = (Return (rsp_href (transport (log w) (POST entry (Some body)))), w') /\
    log w' = log w ++ [POST entry (Some body)].
Proof.
  intros Ht He Hm.
  exists (add_body (transport (log w) (POST entry (Some body)))
                   (sent (POST entry (Some body)) w)).
  split; [|rewrite log_add_body; reflexivity].
  unfold ElementCreator. rewrite Ht. pyeval. rewrite He. rewrite request_unchecked.
  cbn [r_msg]. rewrite Hm. reflexivity.
Qed.

(** X19.  [ElementCreator] sends nothing when the class has no [typeof]
    ([AttributeError]) or when the entry point is not known (the error of
    the lookup). *)
Theorem ElementCreator_needs_entry_point (c : Class) (body : json) (w : World) :
  (cls_typeof c = None ->
   ElementCreator c body w = (Raise (Exn AttributeError None), w)) /\
  (forall t e, cls_typeof c = Some t -> fetch_entry_point t = Raise e ->
               ElementCreator c body w = (Raise e, w)).
Proof.
  split.
  - intros Ht. unfold ElementCreator. rewrite Ht. reflexivity.
  - intros t e Ht He. unfold ElementCreator. rewrite Ht. pyeval. rewrite He. reflexivity.
Qed.

(** X20.  [AdminUser.create] without [engine_target] sends an empty list
    of engines: one create request to the [admin_user] entry point, whose
    body has the six fields in the order of the source; the outcome is the
    one of [ElementCreator]. *)
Theorem AdminUser_create_default_engines (n la asu su en : json) (w : World)
        (entry : json) :
  fetch_entry_point "admin_user" = Return entry ->
  let body := JDict [("name", n); ("enabled", en); ("allow_sudo", asu);
                     ("engine_target", JList []); ("local_admin", la);
                     ("superuser", su)] in
  let rsp := transport (log w) (POST entry (Some body)) in
  exists w',
    AdminUser_create n la asu su en JNull w
    = (if msg_truthy (rsp_msg rsp)
       then Raise (Exn CreateElementFailed (rsp_msg rsp))
       else Return (rsp_href rsp), w') /\
    log w' = log w ++ [POST entry (Some body)].
Proof.
  intros He body rsp.
  exists (add_body rsp (sent (POST entry (Some body)) w)).
  split; [|rewrite log_add_body; reflexivity].
  unfold AdminUser_create, ElementCreator. cbn [cls_typeof AdminUser].
  pyeval. rewrite He. rewrite request_unchecked. cbn [r_msg r_href].
  fold body. fold rsp. destruct (msg_truthy (rsp_msg rsp)); reflexivity.
Qed.

End FactoryMore.

(* ===================================================================== *)
(** ** Links, renaming and the callers in [user.py]                       *)
(* ===================================================================== *)

Section Callers.

Context `{Collaborators} `{EntryPoints}.

Lemma resource_link_run (fuel : nat) (rel : string) (st : State) (res : ElementResource) :
  resource (self st) = Some res ->
  resource_link fuel rel st = (getattr_link res rel, st).
Proof.
  intros Hr. unfold resource_link, resource_of, resource_attr.
  destruct st as [[c nm m ca re] w]. simpl in Hr. subst re.
  unfold bind, get_self, ret, lift. simpl. destruct (getattr_link res rel); reflexivity.
Qed.

(** A link that is there is what the lookup returns, unless the name is a
    data descriptor of the class. *)
Lemma getattr_link_found (res : ElementResource) (rel : string) (l : json) :
  existsb (String.eqb rel) ElementResource_descriptors = false ->
  res !! rel = Some l ->
  getattr_link res rel = Return (Link l).
Proof. intros Hd Hl. unfold getattr_link. rewrite Hd, Hl. reflexivity. Qed.

Lemma not_defined_not_descriptor (rel : string) :
  ElementResource_defines rel = false ->
  existsb (String.eqb rel) ElementResource_descriptors = false.
Proof.
  unfold ElementResource_defines, ElementResource_names. rewrite existsb_app.
  intros E. apply orb_false_iff in E. exact (proj1 E).
Qed.

(** [update(href=l)] on a populated cache: the instance's own href is not
    asked for. *)
Lemma update_run_href (n : nat) (exc : option exn_class) (st : State) (l : json)
      (tag : string) (r : ref) (j : json) :
  populated (self st) tag r ->
  heap (world st) !! r = Some j ->
  update (S n) exc (Some l) None None st =
  (let req := PUT l (Some j) (Some tag) in
   let rsp := transport (log (world st)) req in
   let w1 := set_heap (heap (world st) ++ [j]) (world (tick (tick st))) in
   let i1 := set_cache None (self st) in
   match rsp_msg rsp with
   | Some m => (Raise (Exn (default UpdateElementFailed exc) (Some m)),
                mkState i1 (sent req w1))
   | None => (Return (rsp_href rsp), mkState i1 (add_body rsp (sent req w1)))
   end).
Proof.
  intros Hp Hr.
  destruct st as [[c nm m ca re] [hp lg k]]. unfold populated in Hp.
  simpl in Hp, Hr. subst ca.
  unfold update, data, Cache_data, etag, Cache_etag.
  rewrite !Cache_call_unfold. unfold deepcopy. pyeval.
  rewrite Hr. unfold load. pyeval.
  rewrite lookup_app_r by lia. rewrite Nat.sub_diag.
  cbv beta iota delta [default from_option id].
  change ([j] !! 0) with (Some j). cbv beta iota.
  destruct (rsp_msg (transport lg (PUT l (Some j) (Some tag)))) as [m0|] eqn:Em.
  - erewrite request_refused by exact Em. reflexivity.
  - erewrite request_answered by exact Em. reflexivity.
Qed.

(** [modify_attribute] on a populated cache that is not system-protected:
    the merge in the cached object, then [update()]. *)
Lemma modify_attribute_run (n : nat) (kwargs : list (string * json)) (st : State)
      (tag : string) (r : ref) (d : list (string * json)) :
  populated (self st) tag r ->
  heap (world st) !! r = Some (JDict d) ->
  py_is_True (default JNull (assoc_get "system" d)) = false ->
  modify_attribute (S n) kwargs st =
  (let merged := JDict (merge_dicts d (assoc_remove "append_lists" kwargs)
                          (default (JBool false) (assoc_get "append_lists" kwargs))) in
   let st2 := mkState (self st)
                (set_heap (<[r := merged]> (heap (world st))) (world (tick (tick st)))) in
   let '(o, s) := update (S n) None None None None st2 in
   (match o with Return _ => Return tt | Raise e => Raise e end, s)).
Proof.
  intros Hp Hr Hs. cbv zeta.
  unfold modify_attribute. unfold bind at 1.
  rewrite (data_hit n st (Some tag) (Some r) Hp).
  unfold bind at 1. unfold bind at 1. unfold lift.
  change (load (world (tick st)) (Some r)) with (default JNull (heap (world st) !! r)).
  rewrite Hr. simpl default. cbn [py_get]. rewrite Hs.
  unfold bind at 1. rewrite (data_hit n (tick st) (Some tag) (Some r) Hp).
  unfold bind at 1. unfold merge_into.
  change (heap (world (tick (tick st))) !! r) with (heap (world st) !! r).
  rewrite Hr. unfold bind at 1.
  lazymatch goal with
  | |- (let (o, s') := ?l in _) = (let (o2, s2) := ?v in _) =>
      change l with v; destruct v as [[a|e] s0]
  end; reflexivity.
Qed.

(** X21.  A relation that the link table does not have.  When the name is
    not a name of the class [ElementResource] either, reading it raises
    [ResourceNotFound]; when it is one ([name], [get], the special names),
    the class attribute is returned and nothing is raised.  The relations
    that [enable_disable()] and [categories] read are not names of the
    class: when the link is missing they raise [ResourceNotFound] before
    anything is sent, and leave the instance, its cache included, as it
    was. *)
Theorem missing_link_sends_nothing (fuel : nat) (st : State) (res : ElementResource) :
  resource (self st) = Some res ->
  (forall rel, res !! rel = None -> ElementResource_defines rel = false ->
     resource_link fuel rel st = (Raise (Exn ResourceNotFound None), st)) /\
  (forall rel, res !! rel = None -> ElementResource_defines rel = true ->
     resource_link fuel rel st = (Return (ClassAttribute rel), st)) /\
  (res !! "enable_disable" = None ->
     enable_disable fuel st = (Raise (Exn ResourceNotFound None), st)) /\
  (res !! "search_category_tags_from_element" = None ->
     categories fuel st = (Raise (Exn ResourceNotFound None), st)).
Proof.
  intros Hr.
  assert (R : forall rel, res !! rel = None -> ElementResource_defines rel = false ->
            resource_link fuel rel st = (Raise (Exn ResourceNotFound None), st)).
  { intros rel Hn Hd. rewrite (resource_link_run fuel rel st res Hr).
    unfold getattr_link. rewrite (not_defined_not_descriptor rel Hd), Hn, Hd.
    reflexivity. }
  split; [exact R|]. split; [|split; intros Hn].
  - intros rel Hn Hd. rewrite (resource_link_run fuel rel st res Hr).
    unfold getattr_link. rewrite Hn, Hd.
    destruct (existsb _ ElementResource_descriptors); reflexivity.
  - unfold enable_disable. rewrite (bind_Raise _ _ _ _ _ (R _ Hn eq_refl)). reflexivity.
  - unfold categories. rewrite (bind_Raise _ _ _ _ _ (R _ Hn eq_refl)). reflexivity.
Qed.

(** X22.  [enable_disable()] on an instance with a populated cache whose
    link table has the relation: one update request goes to the href of
    the link, not to the href of the element, with a copy of the cached
    payload and the cached token; the cache entry is deleted; a rejection
    is raised as [UpdateElementFailed], the default class of [update()]. *)
Theorem enable_disable_updates_link (n : nat) (st : State) (res : ElementResource)
        (l : json) (tag : string) (r : ref) (j : json) :
  resource (self st) = Some res ->
  res !! "enable_disable" = Some l ->
  populated (self st) tag r ->
  heap (world st) !! r = Some j ->
  let req := PUT l (Some j) (Some tag) in
  exists o st',
    enable_disable (S n) st = (o, st') /\
    log (world st') = log (world st) ++ [req] /\
    cache (self st') = None /\
    o = match rsp_msg (transport (log (world st)) req) with
        | Some m => Raise (Exn UpdateElementFailed (Some m))
        | None => Return tt
        end.
Proof.
  intros Hr Hl Hp Hj req.
  unfold enable_disable.
  erewrite bind_Return.
  2:{ rewrite (resource_link_run (S n) _ st res Hr).
      rewrite (getattr_link_found res "enable_disable" l eq_refl Hl). reflexivity. }
  erewrite bind_Return by reflexivity.
  unfold bind. rewrite (update_run_href n None st l tag r j Hp Hj). cbv zeta. fold req.
  destruct (rsp_msg (transport (log (world st)) req)) as [m|].
  - eexists _, _. split; [reflexivity|]. repeat split; reflexivity.
  - eexists _, _. split; [reflexivity|]. cbn [world self cache set_cache].
    rewrite log_add_body. repeat split; reflexivity.
Qed.

(** X23.  [rename(name)] on an instance with a known href and a populated,
    not system-protected cache: one update request whose body is the
    cached payload with the name merged in; the local name is replaced
    only when the SMC accepts the write, and kept when the write is
    rejected. *)
Theorem rename_sets_name_on_success (n : nat) (nm : json) (st : State) (h : json)
        (tag : string) (r : ref) (d : list (string * json)) :
  known_href (self st) = Some h ->
  populated (self st) tag r ->
  heap (world st) !! r = Some (JDict d) ->
  py_is_True (default JNull (assoc_get "system" d)) = false ->
  let merged := JDict (merge_dicts d [("name", nm)] (JBool false)) in
  let req := PUT h (Some merged) (Some tag) in
  exists o st',
    rename (S n) nm st = (o, st') /\
    log (world st') = log (world st) ++ [req] /\
    match rsp_msg (transport (log (world st)) req) with
    | Some m => o = Raise (Exn UpdateElementFailed (Some m)) /\
                _name (self st') = _name (self st)
    | None => o = Return tt /\ _name (self st') = nm
    end.
Proof.
  intros Hh Hp Hr Hs merged req.
  assert (Hlt : r < length (heap (world st))) by (eapply lookup_lt_Some; exact Hr).
  unfold rename. unfold bind.
  rewrite (modify_attribute_run n [("name", nm)] st tag r d Hp Hr Hs). cbv zeta.
  change (assoc_remove "append_lists" [("name", nm)]) with [("name", nm)].
  change (default (JBool false) (assoc_get "append_lists" [("name", nm)])) with (JBool false).
  fold merged.
  set (st2 := mkState (self st)
                (set_heap (<[r := merged]> (heap (world st))) (world (tick (tick st))))).
  assert (Hr2 : heap (world st2) !! r = Some merged).
  { simpl. apply list_lookup_insert_eq. exact Hlt. }
  rewrite (update_run n None st2 h tag r merged Hh Hp Hr2). cbv zeta.
  change (log (world st2)) with (log (world st)). fold req.
  destruct (rsp_msg (transport (log (world st)) req)) as [m|].
  - eexists _, _. split; [reflexivity|]. split; [reflexivity|]. split; reflexivity.
  - eexists _, _. split; [reflexivity|]. cbn [world self modify_self].
    split; [rewrite log_add_body; reflexivity|]. split; reflexivity.
Qed.

(** X24.  [rename(name)] on an instance whose cache holds the payload of a
    system element ([system] is [True]): [ModificationFailed] is raised,
    nothing is sent, and the local name is kept. *)
Theorem rename_system_keeps_name (n : nat) (nm : json) (st : State)
        (e : option string) (p : option ref) :
  cache (self st) = Some (mkCache (Some (e, p))) ->
  py_get (load (world st) p) "system" = Return (JBool true) ->
  exists st',
    rename (S n) nm st = (Raise (Exn ModificationFailed None), st') /\
    _name (self st') = _name (self st) /\
    log (world st') = log (world st).
Proof.
  intros Hc Hs. exists (tick st). split; [|split; reflexivity].
  unfold rename. apply bind_Raise.
  unfold modify_attribute. unfold bind at 1.
  rewrite (data_hit n st e p Hc).
  unfold bind at 1. unfold bind at 1. unfold lift.
  change (load (world (tick st)) p) with (load (world st) p).
  rewrite Hs. reflexivity.
Qed.

(** X25.  [categories] on an instance whose link table has the relation:
    exactly one read, of the href of the link; one instance per tag of the
    answer, in order, each bound to the identity of its tag and of the
    class found for its type, so that none of them needs a search. *)
Theorem categories_one_read (fuel : nat) (st : State) (res : ElementResource)
        (l : json) (tags : list json) :
  resource (self st) = Some res ->
  res !! "search_category_tags_from_element" = Some l ->
  rsp_json (transport (log (world st)) (GET l)) = Some (JList tags) ->
  Forall (fun tag => exists d m n c,
            tag = JDict d /\ Meta_of_kwargs tag = Return m /\
            assoc_get "name" d = Some n /\ lookup_class (m_type m) = Return c) tags ->
  exists insts st',
    categories fuel st = (Return insts, st') /\
    log (world st') = log (world st) ++ [GET l] /\
    self st' = self st /\
    Forall2 (fun tag i =>
               Meta_of_kwargs tag = Return (default (mkMeta JNull JNull JNull) (meta i)) /\
               meta i <> None /\
               lookup_class (m_type (default (mkMeta JNull JNull JNull) (meta i)))
               = Return (cls i))
            tags insts.
Proof.
  intros Hr Hl Hb Hw.
  destruct (from_meta_all_identities tags Hw) as (insts & E & F).
  exists insts. eexists. split; [|split; [|split; [|exact F]]].
  - unfold categories.
    erewrite bind_Return.
    2:{ rewrite (resource_link_run fuel _ st res Hr).
        rewrite (getattr_link_found res "search_category_tags_from_element" l eq_refl Hl).
        reflexivity. }
    erewrite bind_Return by reflexivity.
    erewrite bind_Return.
    2:{ unfold liftW. rewrite request_unchecked. reflexivity. }
    cbn [r_json].
    erewrite bind_Return.
    2:{ cbv beta. cbn [world]. rewrite load_add_body, Hb. reflexivity. }
    unfold bind, lift.
    change (default JNull (Some (JList tags))) with (JList tags).
    cbn [py_iter]. rewrite E. reflexivity.
  - cbn [world]. rewrite log_add_body. reflexivity.
  - reflexivity.
Qed.

(** X26.  [referenced_by] on an instance with a known href: exactly one
    create request to the [references_by_element] entry point, whose body
    is the href of the element under [value]; a rejection is raised as
    [FetchElementFailed]; otherwise one instance per reference of the
    answer, each bound to its identity. *)
Theorem referenced_by_one_request (fuel : nat) (st : State) (h entry : json)
        (refs : list json) :
  fetch_entry_point "references_by_element" = Return entry ->
  known_href (self st) = Some h ->
  let req := POST entry (Some (JDict [("value", h)])) in
  (forall m, rsp_msg (transport (log (world st)) req) = Some m ->
     referenced_by fuel st
     = (Raise (Exn FetchElementFailed (Some m)),
        mkState (self st) (sent req (world st)))) /\
  (rsp_msg (transport (log (world st)) req) = None ->
   rsp_json (transport (log (world st)) req) = Some (JList refs) ->
   Forall (fun tag => exists d m n c,
             tag = JDict d /\ Meta_of_kwargs tag = Return m /\
             assoc_get "name" d = Some n /\ lookup_class (m_type m) = Return c) refs ->
   exists insts st',
     referenced_by fuel st = (Return insts, st') /\
     log (world st') = log (world st) ++ [req] /\
     length insts = length refs).
Proof.
  intros He Hh req. split.
  - intros m Hm. unfold referenced_by.
    erewrite bind_Return by (unfold lift; rewrite He; reflexivity).
    rewrite (bind_Return _ _ _ _ _ (href_known st h Hh)).
    erewrite bind_Raise; [reflexivity|].
    unfold liftW. fold req. erewrite request_refused by exact Hm. reflexivity.
  - intros Hm Hb Hw.
    destruct (from_meta_all_identities refs Hw) as (insts & E & F).
    exists insts. eexists. split; [|split].
    + unfold referenced_by.
      erewrite bind_Return by (unfold lift; rewrite He; reflexivity).
      rewrite (bind_Return _ _ _ _ _ (href_known st h Hh)).
      erewrite bind_Return.
      2:{ unfold liftW. fold req. erewrite request_answered by exact Hm. reflexivity. }
      cbn [r_json].
      erewrite bind_Return.
      2:{ cbv beta. cbn [world]. rewrite load_add_body, Hb. reflexivity. }
      unfold bind, lift.
      change (default JNull (Some (JList refs))) with (JList refs).
      cbn [py_iter]. rewrite E. reflexivity.
    + cbn [world]. rewrite log_add_body. reflexivity.
    + symmetry. eapply Forall2_length. exact F.
Qed.

End Callers.

(* ===================================================================== *)
(** ** An href that cannot be resolved                                    *)
(* ===================================================================== *)

Section Unresolved.

Context `{Collaborators}.

(** The cache entry plays no part in resolving the href. *)
Lemma href_recache (st : State) (c0 : option Cache) :
  href (mkState (set_cache c0 (self st)) (world st))
  = (fst (href st),
     mkState (set_cache c0 (self (snd (href st)))) (world (snd (href st)))).
Proof.
  unfold href. cbn [self cls set_cache].
  destruct (cls_base (cls (self st))) eqn:Eb.
  - rewrite !ElementLocator_run. cbn [self world meta cls _name set_cache].
    destruct (meta (self st)) as [m|]; [reflexivity|].
    destruct (cls_typeof (cls (self st))) as [k|]; [|reflexivity].
    cbv zeta. rewrite Eb.
    destruct (py_truthy _); [|reflexivity].
    destruct (py_first _) as [first|e]; [|reflexivity].
    destruct (Meta_of_kwargs first); reflexivity.
  - reflexivity.
Qed.

(** X27.  When the href of an instance cannot be resolved (its search
    finds nothing, or its class has no [typeof]), every operation on it
    fails with the error of the lookup and its own request is never sent:
    [delete()] and [update()] stop where the lookup stopped, and [data] and
    [etag] on an empty cache leave the log of the lookup as it is and the
    cache empty. *)
Theorem unresolved_href_sends_no_request (n fuel : nat) (st st1 : State) (e : exn)
        (exc : option exn_class) (kj : option (option ref))
        (ke : option (option string)) :
  href st = (Raise e, st1) ->
  delete fuel st = (Raise e, st1) /\
  update fuel exc None kj ke st = (Raise e, st1) /\
  (cache_empty (self st) ->
   exists st2,
     data (S n) st = (Raise e, st2) /\
     etag (S n) st = (Raise e, st2) /\
     log (world st2) = log (world st1) /\
     cache_empty (self st2)).
Proof.
  intros Hh. split; [|split].
  - unfold delete. apply bind_Raise. exact Hh.
  - unfold update. apply bind_Raise. exact Hh.
  - intros He.
    exists (tick (mkState (set_cache (Some (mkCache None)) (self st1)) (world st1))).
    assert (Ew : with_cache st
                 = mkState (set_cache (Some (mkCache None)) (self st)) (world st)).
    { unfold with_cache, cache_empty in *. destruct st as [[c nm m ca re] w]; simpl in *.
      destruct He as [-> | ->]; reflexivity. }
    assert (Hc : Cache___call__ (S n) false (with_cache st)
                 = (Raise e, tick (mkState (set_cache (Some (mkCache None)) (self st1))
                                     (world st1)))).
    { assert (Hx : href (tick (mkState (set_cache (Some (mkCache None)) (self st)) (world st)))
                   = (Raise e, tick (mkState (set_cache (Some (mkCache None)) (self st1))
                                       (world st1))))
        by (rewrite href_tick, href_recache, Hh; reflexivity).
      rewrite Ew. clear Ew He Hh. destruct st as [[c nm m ca re] [hp lg k]].
      cbv beta iota zeta delta [tick self world set_cache cls _name meta cache resource
                                heap log counters set_counters] in Hx.
      rewrite Cache_call_unfold. pyeval. rewrite Hx. reflexivity. }
    split; [|split; [|split]].
    + unfold data. unfold bind. rewrite cache_attr_run.
      unfold Cache_data, bind. rewrite Hc. reflexivity.
    + unfold etag. unfold bind. rewrite cache_attr_run.
      unfold Cache_etag, bind. rewrite Hc. reflexivity.
    + reflexivity.
    + right. reflexivity.
Qed.

(** X28.  [_add_cache(data, etag)] seeds the cache, replacing what it held:
    the next [data] access returns the seeded payload and, when a token was
    given, the next [etag] access returns it, both without a request and
    whether or not the href of the instance is known.  Seeding without a
    payload drops the token too: the cache then holds nothing. *)
Theorem add_cache_seeds_reads (n : nat) (st : State) (r : ref) (tag : option string) :
  let st1 := snd (_add_cache (Some r) tag st) in
  data (S n) st1 = (Return (Some r), tick st1) /\
  (forall t, tag = Some t -> etag (S n) st1 = (Return (Some t), tick st1)) /\
  log (world st1) = log (world st) /\
  cache_empty (self (snd (_add_cache None tag st))).
Proof.
  intros st1. split; [|split; [|split]].
  - apply (data_hit n st1 tag (Some r)). reflexivity.
  - intros t ->. apply (etag_hit n st1 t (Some r)). reflexivity.
  - reflexivity.
  - right. reflexivity.
Qed.

End Unresolved.

(* ===================================================================== *)
(** ** The further properties at the concrete SMCs                        *)
(* ===================================================================== *)

(** [Host('ghost')]: the search finds nothing. *)
Lemma href_not_found_binds_nothing_witness :
  exists st1,
    @href Demo.collab (mkState (Element___init__ Demo.Host (JStr "ghost")) Demo.w0)
    = (Raise (Exn ElementNotFound None), st1) /\
    self st1 = Element___init__ Demo.Host (JStr "ghost") /\
    log (world st1) = [SEARCH (JStr "ghost") "host"] /\
    forall o st2, @href Demo.collab st1 = (o, st2) ->
      log (world st2) = [SEARCH (JStr "ghost") "host"; SEARCH (JStr "ghost") "host"].
Proof.
  apply (@href_not_found_binds_nothing Demo.collab Demo.Host (JStr "ghost") "host" Demo.w0);
    reflexivity.
Defined.

(** The host was deleted by another instance: the read is refused. *)
Lemma data_refused_not_cached_witness :
  let st := mkState (self Demo.resolved)
              (mkWorld [] [GET Demo.host_href; DELETE Demo.host_href (Some "rev0")] 0) in
  exists st1,
    @data Demo.collab 2 st = (Raise (Exn FetchElementFailed (Some "Not found")), st1) /\
    cache_empty (self st1) /\
    resource (self st1) = None /\
    log (world st1) = log (world st) ++ [GET Demo.host_href] /\
    log (world (snd (@data Demo.collab 2 st1)))
    = log (world st) ++ [GET Demo.host_href; GET Demo.host_href].
Proof.
  intros st.
  apply (@data_refused_not_cached Demo.collab 0 0 st Demo.host_href "Not found").
  - reflexivity.
  - left. reflexivity.
  - reflexivity.
Defined.

(** The payload of [/elements/host/20] has no link list. *)
Lemma data_cached_despite_bad_links_witness :
  exists st1,
    @data Accounts.collab 2 Accounts.bare = (Raise (Exn TypeError None), st1) /\
    cache (self st1) = Some (mkCache (Some (Some "h0", Some 0))) /\
    resource (self st1) = None /\
    log (world st1) = [GET Accounts.bare_href] /\
    @data Accounts.collab 1 st1 = (Return (Some 0), tick st1).
Proof.
  apply (@data_cached_despite_bad_links Accounts.collab 0 0 Accounts.bare
           Accounts.bare_href (Exn TypeError None)).
  - reflexivity.
  - left. reflexivity.
  - reflexivity.
  - reflexivity.
  - reflexivity.
Defined.

Lemma counters_count_calls_witness :
  counters (world Demo.fetched) = 2 /\
  fetch_calls (log (world Demo.fetched)) = 1 /\
  counters (world (snd (@data Demo.collab 1 Demo.fetched))) = 3 /\
  log (world (snd (@data Demo.collab 1 Demo.fetched))) = [GET Demo.host_href].
Proof.
  apply (@counters_count_calls Demo.collab 0 0 Demo.resolved Demo.fetched
           Demo.host_href (Some 0)).
  - reflexivity.
  - left. reflexivity.
  - vm_compute. reflexivity.
Defined.

Lemma etag_first_read_witness :
  exists st1,
    @etag Demo.collab 2 Demo.resolved = (Return (Some "rev0"), st1) /\
    log (world st1) = [GET Demo.host_href] /\
    @data Demo.collab 1 st1 = (Return (Some 0), tick st1).
Proof.
  apply (@etag_first_read Demo.collab 0 0 Demo.resolved Demo.host_href "rev0").
  - reflexivity.
  - left. reflexivity.
  - reflexivity.
  - reflexivity.
  - intros _. vm_compute. reflexivity.
Defined.

(** The API client: the first answer has no token, the second has one. *)
Lemma etag_tokenless_reads_twice_witness :
  exists st1,
    @etag Accounts.collab 2 Accounts.client = (Return (Some "c1"), st1) /\
    log (world st1) = [GET Accounts.client_href; GET Accounts.client_href] /\
    cache (self st1) = Some (mkCache (Some (Some "c1", Some 0))).
Proof.
  apply (@etag_tokenless_reads_twice Accounts.collab 0 Accounts.client
           Accounts.client_href).
  - reflexivity.
  - left. reflexivity.
  - reflexivity.
  - reflexivity.
  - intros _. vm_compute. reflexivity.
  - reflexivity.
Defined.

Lemma delete_unread_fetches_token_witness :
  exists o st1,
    @delete Demo.collab 2 Demo.resolved = (o, st1) /\
    log (world st1) = [GET Demo.host_href; DELETE Demo.host_href (Some "rev0")] /\
    o = Return tt.
Proof.
  apply (@delete_unread_fetches_token Demo.collab 0 Demo.resolved Demo.host_href "rev0").
  - reflexivity.
  - left. reflexivity.
  - reflexivity.
  - reflexivity.
  - intros _. vm_compute. reflexivity.
Defined.

Lemma update_then_data_refetches_witness :
  let put := PUT Demo.host_href (Some (Demo.payload 0)) (Some "rev0") in
  exists st1,
    @update Demo.collab 1 None None None None Demo.fetched
    = (Return (Some "/elements/host/12"), st1) /\
    cache (self st1) = None /\
    log (world st1) = [GET Demo.host_href; put] /\
    log (world (snd (@data Demo.collab 2 st1)))
    = [GET Demo.host_href; put; GET Demo.host_href].
Proof.
  apply (@update_then_data_refetches Demo.collab 0 0 Demo.fetched Demo.host_href
           "rev0" 0 (Demo.payload 0));
    reflexivity.
Defined.

Lemma update_keywords_without_cache_witness :
  @update Demo.collab 1 None (Some Demo.host_href) (Some None) (Some (Some "rev0"))
    Demo.resolved
  = (Raise (Exn AttributeError None), Demo.resolved).
Proof.
  apply (@update_keywords_without_cache Demo.collab 1 None Demo.resolved Demo.host_href
           None (Some "rev0")).
  reflexivity.
Defined.

Lemma update_raises_given_class_witness :
  exists st1,
    @update Demo.collab 1 (Some ModificationFailed) None None None Demo.stale
    = (Raise (Exn ModificationFailed (Some "ETag mismatch")), st1) /\
    cache (self st1) = None /\
    log (world st1)
    = log (world Demo.stale) ++ [PUT Demo.host_href (Some (Demo.payload 0)) (Some "rev0")].
Proof.
  apply (@update_raises_given_class Demo.collab 0 ModificationFailed Demo.stale
           Demo.host_href "rev0" 0 (Demo.payload 0) "ETag mismatch");
    reflexivity.
Defined.

(** The caller's token is not the cached one; the SMC rejects the write. *)
Lemma update_sends_given_payload_and_token_witness :
  let put := PUT Demo.host_href (Some (Demo.payload 0)) (Some "mine") in
  exists o st1,
    @update Demo.collab 1 None None (Some (Some 0)) (Some (Some "mine")) Demo.fetched
    = (o, st1) /\
    log (world st1) = [GET Demo.host_href; put] /\
    cache (self st1) = None /\
    counters (world st1) = 2 /\
    o = Raise (Exn UpdateElementFailed (Some "ETag mismatch")).
Proof.
  apply (@update_sends_given_payload_and_token Demo.collab 1 Demo.fetched Demo.host_href
           (mkCache (Some (Some "rev0", Some 0))) 0 (Demo.payload 0) (Some "mine"));
    reflexivity.
Defined.

(** A category tag: no class is registered for its type. *)
Lemma from_meta_binds_identity_witness :
  let d := [("name", JStr "foo"); ("href", JStr "/elements/category_tag/7");
            ("type", JStr "category_tag")] in
  let m := mkMeta (JStr "foo") (JStr "/elements/category_tag/7") (JStr "category_tag") in
  exists i,
    @from_meta Accounts.collab d = Return i /\
    cls i = Element /\
    meta i = Some m /\
    (forall t, m_type m = JStr t ->
               Element = default Element (@registry Accounts.collab !! t)) /\
    @href Accounts.collab (mkState i Demo.w0)
    = (Return (JStr "/elements/category_tag/7"), mkState i Demo.w0).
Proof.
  intros d m.
  apply (@from_meta_binds_identity Accounts.collab d m (JStr "foo") Element Demo.w0).
  - reflexivity.
  - reflexivity.
  - vm_compute. reflexivity.
Defined.

Lemma from_meta_without_name_witness :
  @from_meta Demo.collab [("href", Demo.host_href); ("type", JStr "host")]
  = Raise (Exn TypeError None).
Proof.
  apply (@from_meta_without_name Demo.collab
           [("href", Demo.host_href); ("type", JStr "host")] Demo.Host).
  - reflexivity.
  - vm_compute. reflexivity.
  - reflexivity.
Defined.

Lemma ElementFactory_body_not_a_mapping_witness :
  exists w',
    @ElementFactory Accounts.collab Accounts.listed_href Demo.w0
    = (Raise (Exn AttributeError None), w') /\
    log w' = [GET Accounts.listed_href].
Proof.
  apply (@ElementFactory_body_not_a_mapping Accounts.collab Accounts.listed_href Demo.w0
           (JList [JStr "kali"])).
  - reflexivity.
  - reflexivity.
  - intros d. discriminate.
Defined.

Lemma ElementFactory_identity_and_links_witness :
  exists e w' nm,
    @ElementFactory Accounts.collab Accounts.admin_href Demo.w0 = (Return (Some e), w') /\
    py_get Accounts.admin_payload "name" = Return nm /\
    cls e = AdminUser /\
    meta e = Some (mkMeta nm Accounts.admin_href (JStr "admin_user")) /\
    resource e = None /\
    @href Accounts.collab (mkState e w') = (Return Accounts.admin_href, mkState e w') /\
    exists st2,
      @resource_of Accounts.collab 1 (mkState e w') = (Return Accounts.links, st2) /\
      resource (self st2) = Some Accounts.links /\
      log (world st2) = [GET Accounts.admin_href].
Proof.
  apply (@ElementFactory_identity_and_links Accounts.collab 0 Accounts.admin_href Demo.w0
           Accounts.admin_payload
           (default JNull (assoc_get "link"
              match Accounts.admin_payload with JDict d => d | _ => [] end))
           (JStr "admin_user") AdminUser Accounts.links).
  - reflexivity.
  - reflexivity.
  - reflexivity.
  - reflexivity.
  - vm_compute. reflexivity.
  - vm_compute. reflexivity.
Defined.

Lemma ElementCreator_reports_failure_witness :
  exists w',
    @ElementCreator Accounts.collab Accounts.entries ApiClient (JDict [("name", JStr "smcpython")])
      Demo.w0
    = (Raise (Exn CreateElementFailed (Some "Element name is already used")), w') /\
    log w' = [POST (JStr "/elements/api_client") (Some (JDict [("name", JStr "smcpython")]))].
Proof.
  apply (@ElementCreator_reports_failure Accounts.collab Accounts.entries ApiClient
           (JDict [("name", JStr "smcpython")]) Demo.w0 "api_client"
           (JStr "/elements/api_client") "Element name is already used").
  - reflexivity.
  - reflexivity.
  - reflexivity.
  - discriminate.
Defined.

Lemma ElementCreator_returns_href_witness :
  exists w',
    @ElementCreator Accounts.collab Accounts.entries AdminUser (JDict [("name", JStr "dlepage")])
      Demo.w0
    = (Return (Some "/elements/admin_user/5"), w') /\
    log w' = [POST (JStr "/elements/admin_user") (Some (JDict [("name", JStr "dlepage")]))].
Proof.
  apply (@ElementCreator_returns_href Accounts.collab Accounts.entries AdminUser
           (JDict [("name", JStr "dlepage")]) Demo.w0 "admin_user"
           (JStr "/elements/admin_user"));
    reflexivity.
Defined.

(** [AdminUser.create(name='dlepage', superuser=True)]. *)
Lemma AdminUser_create_default_engines_witness :
  let body := JDict [("name", JStr "dlepage"); ("enabled", JBool true);
                     ("allow_sudo", JBool false); ("engine_target", JList []);
                     ("local_admin", JBool false); ("superuser", JBool true)] in
  exists w',
    @AdminUser_create Accounts.collab Accounts.entries (JStr "dlepage") (JBool false)
      (JBool false) (JBool true) (JBool true) JNull Demo.w0
    = (Return (Some "/elements/admin_user/5"), w') /\
    log w' = [POST (JStr "/elements/admin_user") (Some body)].
Proof.
  apply (@AdminUser_create_default_engines Accounts.collab Accounts.entries
           (JStr "dlepage") (JBool false) (JBool false) (JBool true) (JBool true)
           Demo.w0 (JStr "/elements/admin_user")).
  reflexivity.
Defined.

(** The host of the first SMC has neither link; [get] is a method of the
    class. *)
Lemma missing_link_sends_nothing_witness :
  @resource_link Demo.collab 1 "change_password" Demo.fetched
  = (Raise (Exn ResourceNotFound None), Demo.fetched) /\
  @resource_link Demo.collab 1 "get" Demo.fetched
  = (Return (ClassAttribute "get"), Demo.fetched) /\
  @enable_disable Demo.collab 1 Demo.fetched
  = (Raise (Exn ResourceNotFound None), Demo.fetched) /\
  @categories Demo.collab 1 Demo.fetched
  = (Raise (Exn ResourceNotFound None), Demo.fetched).
Proof.
  destruct (@missing_link_sends_nothing Demo.collab 1 Demo.fetched Demo.links0 eq_refl)
    as (A & A' & B & C).
  split; [apply A; vm_compute; reflexivity|].
  split; [apply A'; vm_compute; reflexivity|].
  split; [apply B; vm_compute; reflexivity|apply C; vm_compute; reflexivity].
Defined.

Lemma enable_disable_updates_link_witness :
  exists o st',
    @enable_disable Accounts.collab 1 Accounts.fetched = (o, st') /\
    log (world st')
    = [GET Accounts.admin_href;
       PUT Accounts.toggle_href (Some Accounts.admin_payload) (Some "a0")] /\
    cache (self st') = None /\
    o = Return tt.
Proof.
  apply (@enable_disable_updates_link Accounts.collab 0 Accounts.fetched Accounts.links
           Accounts.toggle_href "a0" 0 Accounts.admin_payload).
  - reflexivity.
  - vm_compute. reflexivity.
  - reflexivity.
  - reflexivity.
Defined.

Lemma rename_sets_name_on_success_witness :
  exists o st',
    @rename Accounts.collab 1 (JStr "dl") Accounts.fetched = (o, st') /\
    log (world st')
    = [GET Accounts.admin_href;
       PUT Accounts.admin_href
         (Some (JDict (@merge_dicts Accounts.collab
                         match Accounts.admin_payload with JDict d => d | _ => [] end
                         [("name", JStr "dl")] (JBool false))))
         (Some "a0")] /\
    (o = Return tt /\ _name (self st') = JStr "dl").
Proof.
  apply (@rename_sets_name_on_success Accounts.collab 0 (JStr "dl") Accounts.fetched
           Accounts.admin_href "a0" 0
           match Accounts.admin_payload with JDict d => d | _ => [] end);
    reflexivity.
Defined.

Lemma rename_system_keeps_name_witness :
  exists st',
    @rename Demo.collab 1 (JStr "Any") Demo.system_element
    = (Raise (Exn ModificationFailed None), st') /\
    _name (self st') = JStr "Any network" /\
    log (world st') = [GET Demo.host_href].
Proof.
  apply (@rename_system_keeps_name Demo.collab 0 (JStr "Any") Demo.system_element
           (Some "rev0") (Some 0));
    reflexivity.
Defined.

Lemma categories_one_read_witness :
  exists insts st',
    @categories Accounts.collab 1 Accounts.fetched = (Return insts, st') /\
    log (world st') = [GET Accounts.admin_href; GET Accounts.tags_href] /\
    self st' = self Accounts.fetched /\
    Forall2 (fun tag i =>
               Meta_of_kwargs tag = Return (default (mkMeta JNull JNull JNull) (meta i)) /\
               meta i <> None /\
               @lookup_class Accounts.collab
                 (m_type (default (mkMeta JNull JNull JNull) (meta i)))
               = Return (cls i))
            [Accounts.category_tag] insts.
Proof.
  apply (@categories_one_read Accounts.collab 1 Accounts.fetched Accounts.links
           Accounts.tags_href [Accounts.category_tag]).
  - reflexivity.
  - vm_compute. reflexivity.
  - reflexivity.
  - constructor; [|constructor].
    eexists _, _, _, _. repeat split; reflexivity.
Defined.

Lemma referenced_by_one_request_witness :
  exists insts st',
    @referenced_by Accounts.collab Accounts.entries 1 Accounts.fetched
    = (Return insts, st') /\
    log (world st')
    = [GET Accounts.admin_href;
       POST (JStr "/references") (Some (JDict [("value", Accounts.admin_href)]))] /\
    length insts = 1.
Proof.
  destruct (@referenced_by_one_request Accounts.collab Accounts.entries 1 Accounts.fetched
              Accounts.admin_href (JStr "/references") [Accounts.reference]
              eq_refl eq_refl) as [_ A].
  apply A.
  - reflexivity.
  - reflexivity.
  - constructor; [|constructor].
    eexists _, _, _, _. repeat split; reflexivity.
Defined.

(** [Host('kali', meta={...})] and [Host('kali', meta={})]. *)
Lemma Element_init_meta_keyword_witness :
  let d := JDict [("name", JStr "other"); ("href", Demo.host_href); ("type", JStr "host")] in
  Element___init__kw Demo.Host (JStr "kali") [("meta", d)]
  = Return (mkInstance Demo.Host (JStr "kali")
              (Some (mkMeta (JStr "other") Demo.host_href (JStr "host"))) None None) /\
  Element___init__kw Demo.Host (JStr "kali") [("meta", JDict [])]
  = Raise (Exn TypeError None).
Proof.
  intros d. split.
  - apply (proj1 (Element_init_meta_keyword Demo.Host (JStr "kali") d)). reflexivity.
  - apply (proj2 (Element_init_meta_keyword Demo.Host (JStr "kali") (JDict []))).
    reflexivity.
Defined.

(** [Element] has no [typeof]; the second SMC has no [host] entry point. *)
Lemma ElementCreator_needs_entry_point_witness :
  @ElementCreator Accounts.collab Accounts.entries Element (JDict []) Demo.w0
  = (Raise (Exn AttributeError None), Demo.w0) /\
  @ElementCreator Accounts.collab Accounts.entries Demo.Host (JDict []) Demo.w0
  = (Raise (Exn KeyError None), Demo.w0).
Proof.
  split.
  - apply (proj1 (@ElementCreator_needs_entry_point Accounts.collab Accounts.entries
                    Element (JDict []) Demo.w0)).
    reflexivity.
  - apply (proj2 (@ElementCreator_needs_entry_point Accounts.collab Accounts.entries
                    Demo.Host (JDict []) Demo.w0) "host" (Exn KeyError None));
      reflexivity.
Defined.

(** [Host('ghost')]: the search finds nothing, and nothing else is sent. *)
Lemma unresolved_href_sends_no_request_witness :
  let st := mkState (Element___init__ Demo.Host (JStr "ghost")) Demo.w0 in
  let st1 := mkState (Element___init__ Demo.Host (JStr "ghost"))
               (mkWorld [JList []] [SEARCH (JStr "ghost") "host"] 0) in
  @delete Demo.collab 1 st = (Raise (Exn ElementNotFound None), st1) /\
  @update Demo.collab 1 None None None None st = (Raise (Exn ElementNotFound None), st1) /\
  exists st2,
    @data Demo.collab 1 st = (Raise (Exn ElementNotFound None), st2) /\
    @etag Demo.collab 1 st = (Raise (Exn ElementNotFound None), st2) /\
    log (world st2) = [SEARCH (JStr "ghost") "host"] /\
    cache_empty (self st2).
Proof.
  intros st st1.
  destruct (@unresolved_href_sends_no_request Demo.collab 0 1 st st1
              (Exn ElementNotFound None) None None None) as (A & B & C).
  - vm_compute. reflexivity.
  - split; [exact A|]. split; [exact B|]. apply C. left. reflexivity.
Defined.
